(** * xhshow: payload builder, digest mixer and session state

    A shallow embedding of [xhshow/core/crypto.py], [xhshow/session.py],
    [xhshow/utils/url_utils.py] and the constants of
    [xhshow/config/config.py], with the properties of the payload and digest
    engine stated and proved over it.

    Python values are modelled as follows: an [int] is a [Z] (Python integers
    are unbounded, and [&], [|], [^], [<<], [>>] on them are [Z.land],
    [Z.lor], [Z.lxor], [Z.shiftl], [Z.shiftr]); a [float] is a binary64
    number, a [spec_float] of the standard library; [list[int]] and
    [bytes] are [list Z]; a [str] is the list of its code points; an
    operation that may raise returns a [result]. *)

From Stdlib Require Import String Ascii ZArith List Lia Bool Sorted SpecFloat.
Import ListNotations.
Open Scope Z_scope.

(** ** Exceptions and the error monad *)

Inductive exn : Type :=
| ValueError
| IndexError
| UnicodeEncodeError
| StructError
| OverflowError.

Inductive result (A : Type) : Type :=
| Ok (a : A)
| Raise (e : exn).

Arguments Ok {A} a.
Arguments Raise {A} e.

Definition bind {A B : Type} (m : result A) (k : A -> result B) : result B :=
  match m with
  | Ok a => k a
  | Raise e => Raise e
  end.

Notation "x <- m ;; k" := (bind m (fun x => k))
  (at level 61, m at next level, right associativity).
Notation "' p <- m ;; k" := (bind m (fun x => match x with p => k end))
  (at level 61, p pattern, m at next level, right associativity).

(** A comprehension [[f(x) for x in l]] whose body may raise. *)
Fixpoint mapM {A B : Type} (f : A -> result B) (l : list A) : result (list B) :=
  match l with
  | [] => Ok []
  | x :: t => y <- f x ;; ys <- mapM f t ;; Ok (y :: ys)
  end.

(** A [for] loop over [l] that updates the loop state [s] and may raise. *)
Fixpoint foldM {S A : Type} (f : S -> A -> result S) (l : list A) (s : S)
  : result S :=
  match l with
  | [] => Ok s
  | x :: t => s' <- f s x ;; foldM f t s'
  end.

(** ** Python built-ins used by the sources *)

Module Py.

(** A [str] is the list of its code points; [bytes] the list of its
    octets. *)
Definition str : Type := list Z.
Definition bytes : Type := list Z.

(** The code points of an ASCII literal. *)
Definition lit (s : string) : str :=
  map (fun c => Z.of_nat (nat_of_ascii c)) (list_ascii_of_string s).

Definition len {A : Type} (l : list A) : Z := Z.of_nat (length l).

(** [range(n)]. *)
Definition range (n : Z) : list nat := seq 0 (Z.to_nat n).

(** [range(a, b)] for natural bounds. *)
Definition range2 (a b : nat) : list nat := seq a (b - a).

(** [l[a:b]] for [0 <= a <= b]. *)
Definition slice {A : Type} (l : list A) (a b : nat) : list A :=
  firstn (b - a) (skipn a l).

(** [l[:n]], where a negative [n] counts from the end. *)
Definition slice_to {A : Type} (l : list A) (n : Z) : list A :=
  if n <? 0 then firstn (Z.to_nat (len l + n)) l else firstn (Z.to_nat n) l.

(** [l[i]] for a natural index. *)
Definition index {A : Type} (l : list A) (i : nat) : result A :=
  match nth_error l i with
  | Some x => Ok x
  | None => Raise IndexError
  end.

(** [b.ljust(width, fill)] on bytes. *)
Definition ljust (b : bytes) (width : Z) (fill : Z) : bytes :=
  b ++ repeat fill (Z.to_nat (width - len b)).

Definition is_byte (b : Z) : bool := (0 <=? b) && (b <? 256).

(** [bytes(l)] for a list of integers: every element must be in
    [range(256)]. *)
Definition bytes_of_list (l : list Z) : result bytes :=
  if forallb is_byte l then Ok l else Raise ValueError.

(** The unsigned integer whose little-endian octets are [b]. *)
Fixpoint from_le (b : bytes) : Z :=
  match b with
  | [] => 0
  | x :: t => x + 256 * from_le t
  end.

(** [struct.unpack("<II", b)]: exactly eight octets, two little-endian
    unsigned 32-bit words. *)
Definition unpack_II (b : bytes) : result (Z * Z) :=
  if (length b =? 8)%nat
  then Ok (from_le (firstn 4 b), from_le (skipn 4 b))
  else Raise StructError.

(** *** [str.encode("utf-8")]

    One to four octets for each code point; a surrogate cannot be
    encoded.  Integers outside [range(0x110000)] are not code points of
    any [str] and are refused as well. *)
Definition encode_char (c : Z) : result bytes :=
  if c <? 0 then Raise UnicodeEncodeError
  else if c <? 0x80 then Ok [c]
  else if c <? 0x800 then
    Ok [Z.lor 0xC0 (Z.shiftr c 6); Z.lor 0x80 (Z.land c 0x3F)]
  else if c <? 0x10000 then
    if (0xD800 <=? c) && (c <=? 0xDFFF) then Raise UnicodeEncodeError
    else Ok [Z.lor 0xE0 (Z.shiftr c 12);
             Z.lor 0x80 (Z.land (Z.shiftr c 6) 0x3F);
             Z.lor 0x80 (Z.land c 0x3F)]
  else if c <? 0x110000 then
    Ok [Z.lor 0xF0 (Z.shiftr c 18);
        Z.lor 0x80 (Z.land (Z.shiftr c 12) 0x3F);
        Z.lor 0x80 (Z.land (Z.shiftr c 6) 0x3F);
        Z.lor 0x80 (Z.land c 0x3F)]
  else Raise UnicodeEncodeError.

Fixpoint encode_utf8 (s : str) : result bytes :=
  match s with
  | [] => Ok []
  | c :: t => b <- encode_char c ;; r <- encode_utf8 t ;; Ok (b ++ r)
  end.

(** *** Hexadecimal digits *)

(** The value of a hexadecimal digit, in either case. *)
Definition digit_value (c : Z) : option Z :=
  if (48 <=? c) && (c <=? 57) then Some (c - 48)
  else if (97 <=? c) && (c <=? 102) then Some (c - 87)
  else if (65 <=? c) && (c <=? 70) then Some (c - 55)
  else None.

(** ASCII white space: blank, [\t], [\n], [\v], [\f], [\r]. *)
Definition is_space (c : Z) : bool :=
  (c =? 32) || ((9 <=? c) && (c <=? 13)).

(** [bytes.fromhex(s)]: pairs of hexadecimal digits, with ASCII white
    space allowed between the pairs; anything else is a [ValueError]. *)
Fixpoint fromhex (s : str) : result bytes :=
  match s with
  | [] => Ok []
  | c :: t =>
      if is_space c then fromhex t
      else
        match digit_value c, t with
        | Some top, d :: t' =>
            match digit_value d with
            | Some bot => r <- fromhex t' ;; Ok (top * 16 + bot :: r)
            | None => Raise ValueError
            end
        | _, _ => Raise ValueError
        end
  end.

(** [int(s, 16)] on a non-empty run of hexadecimal digits.  The sources
    apply it to two-character slices of a [hexdigest()] only; the other
    forms that [int] accepts (sign, blanks, underscores, a [0x] prefix)
    are refused here. *)
Fixpoint hex_value (acc : Z) (s : str) : result Z :=
  match s with
  | [] => Ok acc
  | c :: t =>
      match digit_value c with
      | Some d => hex_value (16 * acc + d) t
      | None => Raise ValueError
      end
  end.

Definition int16 (s : str) : result Z :=
  match s with
  | [] => Raise ValueError
  | _ => hex_value 0 s
  end.

(** [range(a, b, step)] for natural bounds and a positive step. *)
Definition range3 (a b step : nat) : list nat :=
  map (fun k => (a + k * step)%nat) (seq 0 ((b - a + step - 1) / step)).

(** *** [random.randint(a, b)]

    The generator is a stream of raw draws; [randint] consumes one and
    maps it into the inclusive range, which has to be non-empty. *)
Definition rng : Type := nat -> Z.

Definition randint (a b : Z) (r : rng) : result (Z * rng) :=
  if b <? a then Raise ValueError
  else Ok (a + r O mod (b - a + 1), fun n => r (S n)).

(** *** [float]

    A [float] is an IEEE 754 binary64 number: a [spec_float] at precision
    53 and maximal exponent 1024, whose operations round to nearest, ties
    to even.  Not-a-number, the two infinities and the two zeros are
    values of their own. *)
Definition float : Type := spec_float.

Definition prec : Z := 53.
Definition emax : Z := 1024.

(** The conversion of the [int] operand of an arithmetic operator whose
    other operand is a float: the nearest float, and [OverflowError] for
    an integer beyond the largest float. *)
Definition float_of_int (n : Z) : result float :=
  match binary_normalize prec emax n 0 false with
  | S754_infinity _ => Raise OverflowError
  | x => Ok x
  end.

(** [x * n] and [x - n] for a float [x] and an [int] [n]. *)
Definition fmul_int (x : float) (n : Z) : result float :=
  y <- float_of_int n ;; Ok (SFmul prec emax x y).

Definition fsub_int (x : float) (n : Z) : result float :=
  y <- float_of_int n ;; Ok (SFsub prec emax x y).

(** [int(x)] for a float [x]: the integral part, towards zero;
    not-a-number is a [ValueError], an infinity an [OverflowError]. *)
Definition int_of_float (x : float) : result Z :=
  match x with
  | S754_nan => Raise ValueError
  | S754_infinity _ => Raise OverflowError
  | S754_zero _ => Ok 0
  | S754_finite s m e =>
      let magnitude := Z.shiftl (Zpos m) e in
      Ok (if s then - magnitude else magnitude)
  end.

(** *** [hashlib.md5]: RFC 1321 *)

Module md5.

Definition K : list Z :=
  [0xd76aa478; 0xe8c7b756; 0x242070db; 0xc1bdceee;
   0xf57c0faf; 0x4787c62a; 0xa8304613; 0xfd469501;
   0x698098d8; 0x8b44f7af; 0xffff5bb1; 0x895cd7be;
   0x6b901122; 0xfd987193; 0xa679438e; 0x49b40821;
   0xf61e2562; 0xc040b340; 0x265e5a51; 0xe9b6c7aa;
   0xd62f105d; 0x02441453; 0xd8a1e681; 0xe7d3fbc8;
   0x21e1cde6; 0xc33707d6; 0xf4d50d87; 0x455a14ed;
   0xa9e3e905; 0xfcefa3f8; 0x676f02d9; 0x8d2a4c8a;
   0xfffa3942; 0x8771f681; 0x6d9d6122; 0xfde5380c;
   0xa4beea44; 0x4bdecfa9; 0xf6bb4b60; 0xbebfbc70;
   0x289b7ec6; 0xeaa127fa; 0xd4ef3085; 0x04881d05;
   0xd9d4d039; 0xe6db99e5; 0x1fa27cf8; 0xc4ac5665;
   0xf4292244; 0x432aff97; 0xab9423a7; 0xfc93a039;
   0x655b59c3; 0x8f0ccc92; 0xffeff47d; 0x85845dd1;
   0x6fa87e4f; 0xfe2ce6e0; 0xa3014314; 0x4e0811a1;
   0xf7537e82; 0xbd3af235; 0x2ad7d2bb; 0xeb86d391].

Definition shifts : list Z :=
  [7; 12; 17; 22; 7; 12; 17; 22; 7; 12; 17; 22; 7; 12; 17; 22;
   5; 9; 14; 20; 5; 9; 14; 20; 5; 9; 14; 20; 5; 9; 14; 20;
   4; 11; 16; 23; 4; 11; 16; 23; 4; 11; 16; 23; 4; 11; 16; 23;
   6; 10; 15; 21; 6; 10; 15; 21; 6; 10; 15; 21; 6; 10; 15; 21].

Definition w32 (x : Z) : Z := Z.land x 0xFFFFFFFF.

Definition rotl (x c : Z) : Z :=
  w32 (Z.lor (Z.shiftl x c) (Z.shiftr x (32 - c))).

(** The sixteen little-endian words of a 64-octet block. *)
Definition word_at (block : bytes) (g : nat) : Z :=
  from_le (slice block (4 * g) (4 * g + 4)).

Definition step (block : bytes) (st : Z * Z * Z * Z) (i : nat)
  : Z * Z * Z * Z :=
  let '(a, b, c, d) := st in
  let '(f, g) :=
    if (i <? 16)%nat then
      (Z.lor (Z.land b c) (Z.land (Z.lnot b) d), i)
    else if (i <? 32)%nat then
      (Z.lor (Z.land d b) (Z.land (Z.lnot d) c), ((5 * i + 1) mod 16)%nat)
    else if (i <? 48)%nat then
      (Z.lxor (Z.lxor b c) d, ((3 * i + 5) mod 16)%nat)
    else
      (Z.lxor c (Z.lor b (Z.lnot d)), ((7 * i) mod 16)%nat) in
  let f := w32 (f + a + nth i K 0 + word_at block g) in
  (d, w32 (b + rotl f (nth i shifts 0)), b, c).

Definition compress (st : Z * Z * Z * Z) (block : bytes) : Z * Z * Z * Z :=
  let '(a0, b0, c0, d0) := st in
  let '(a, b, c, d) := fold_left (step block) (seq 0 64) st in
  (w32 (a0 + a), w32 (b0 + b), w32 (c0 + c), w32 (d0 + d)).

Fixpoint blocks (n : nat) (msg : bytes) (st : Z * Z * Z * Z)
  : Z * Z * Z * Z :=
  match n with
  | O => st
  | S k => blocks k (skipn 64 msg) (compress st (firstn 64 msg))
  end.

Fixpoint le_bytes (n : nat) (x : Z) : bytes :=
  match n with
  | O => []
  | S k => Z.land x 0xFF :: le_bytes k (Z.shiftr x 8)
  end.

(** The message, a [0x80] octet, zero octets up to 56 modulo 64, and
    the bit length on eight octets. *)
Definition pad (msg : bytes) : bytes :=
  msg ++ [0x80] ++ repeat 0 (Z.to_nat ((55 - len msg) mod 64))
      ++ le_bytes 8 (8 * len msg).

(** [hashlib.md5(msg).digest()]. *)
Definition digest (msg : bytes) : bytes :=
  let p := pad msg in
  let '(a, b, c, d) :=
    blocks (length p / 64) p
      (0x67452301, 0xefcdab89, 0x98badcfe, 0x10325476) in
  le_bytes 4 a ++ le_bytes 4 b ++ le_bytes 4 c ++ le_bytes 4 d.

Definition hex_char (d : Z) : Z := if d <? 10 then 48 + d else 87 + d.

(** [hashlib.md5(msg).hexdigest()]: two lower-case digits per octet. *)
Definition hexdigest (msg : bytes) : str :=
  flat_map (fun b => [hex_char (b / 16); hex_char (b mod 16)]) (digest msg).

End md5.

End Py.

(** ** config/config.py *)

Record CryptoConfig : Type := {
  MAX_32BIT : Z;
  VERSION_BYTES : list Z;
  A1_LENGTH : Z;
  APP_ID_LENGTH : Z;
  MD5_XOR_LENGTH : Z;
  A3_PREFIX : list Z;
  TIMESTAMP_LE_LENGTH : Z;
  SESSION_WINDOW_PROPS_INIT_MIN : Z;
  SESSION_WINDOW_PROPS_INIT_MAX : Z;
  SESSION_SEQUENCE_INIT_MIN : Z;
  SESSION_SEQUENCE_INIT_MAX : Z;
  SESSION_SEQUENCE_STEP_MIN : Z;
  SESSION_SEQUENCE_STEP_MAX : Z;
  SESSION_WINDOW_PROPS_STEP_MIN : Z;
  SESSION_WINDOW_PROPS_STEP_MAX : Z;
  ENV_TABLE : list Z;
  ENV_CHECKS_DEFAULT : list Z;
  HASH_IV : Z * Z * Z * Z
}.

(** [CryptoConfig()]: the field defaults. *)
Definition default_config : CryptoConfig := {|
  MAX_32BIT := 0xFFFFFFFF;
  VERSION_BYTES := [121; 104; 96; 41];
  A1_LENGTH := 52;
  APP_ID_LENGTH := 10;
  MD5_XOR_LENGTH := 8;
  A3_PREFIX := [2; 97; 51; 16];
  TIMESTAMP_LE_LENGTH := 8;
  SESSION_WINDOW_PROPS_INIT_MIN := 1000;
  SESSION_WINDOW_PROPS_INIT_MAX := 2000;
  SESSION_SEQUENCE_INIT_MIN := 15;
  SESSION_SEQUENCE_INIT_MAX := 17;
  SESSION_SEQUENCE_STEP_MIN := 0;
  SESSION_SEQUENCE_STEP_MAX := 1;
  SESSION_WINDOW_PROPS_STEP_MIN := 1;
  SESSION_WINDOW_PROPS_STEP_MAX := 10;
  ENV_TABLE := [115; 248; 83; 102; 103; 201; 181; 131; 99; 94; 4; 68; 250; 132; 21];
  ENV_CHECKS_DEFAULT := [0; 1; 18; 1; 0; 0; 0; 0; 0; 0; 3; 0; 0; 0; 0];
  HASH_IV := (1831565813, 461845907, 2246822507, 3266489909)
|}.

(** ** utils/url_utils.py *)

(** [s.find(c)] for a one-character needle: the first index, or [-1]. *)
Fixpoint find_from (c : Z) (s : Py.str) (i : Z) : Z :=
  match s with
  | [] => -1
  | x :: t => if x =? c then i else find_from c t (i + 1)
  end.

Definition find (c : Z) (s : Py.str) : Z := find_from c s 0.

(** The code points of the two delimiters. *)
Definition brace : Z := 123.
Definition question : Z := 63.

(** [extract_api_path]. *)
Definition extract_api_path (uri_with_data : Py.str) : Py.str :=
  let brace_pos := find brace uri_with_data in
  let question_pos := find question uri_with_data in
  if negb (brace_pos =? -1) && negb (question_pos =? -1) then
    Py.slice_to uri_with_data (Z.min brace_pos question_pos)
  else if negb (brace_pos =? -1) then
    Py.slice_to uri_with_data brace_pos
  else if negb (question_pos =? -1) then
    Py.slice_to uri_with_data question_pos
  else uri_with_data.

(** ** session.py: the snapshot *)

Module SignState.

Record t : Type := {
  page_load_timestamp : Z;
  sequence_value : Z;
  window_props_length : Z;
  uri_length : Z
}.

End SignState.

(** ** core/crypto.py *)

Section CryptoProcessor.

Variable config : CryptoConfig.

(** [_int_to_le_bytes]: the loop appends [val & 0xFF] and shifts [val]
    right by eight, [length] times. *)
Fixpoint le_loop (n : nat) (val : Z) : list Z :=
  match n with
  | O => []
  | S k => Z.land val 0xFF :: le_loop k (Z.shiftr val 8)
  end.

Definition int_to_le_bytes (val : Z) (length : Z) : list Z :=
  le_loop (Z.to_nat length) val.

(** [_rotate_left]. *)
Definition rotate_left (val n : Z) : Z :=
  Z.land (Z.lor (Z.shiftl val n) (Z.shiftr val (32 - n))) (MAX_32BIT config).

(** The body of the block loop of [_custom_hash_v2], for block [i]. *)
Definition hash_round (input_bytes : list Z) (st : Z * Z * Z * Z) (i : nat)
  : result (Z * Z * Z * Z) :=
  let '(s0, s1, s2, s3) := st in
  b <- Py.bytes_of_list (Py.slice input_bytes (i * 8) ((i + 1) * 8)) ;;
  ' (v0, v1) <- Py.unpack_II b ;;
  let s0 := rotate_left (Z.lxor (Z.land (s0 + v0) (MAX_32BIT config)) s2) 7 in
  let s1 := rotate_left (Z.land (Z.lxor v0 s1 + s3) (MAX_32BIT config)) 11 in
  let s2 := rotate_left (Z.lxor (Z.land (s2 + v1) (MAX_32BIT config)) s0) 13 in
  let s3 := rotate_left (Z.land (Z.lxor s3 v1 + s1) (MAX_32BIT config)) 17 in
  Ok (s0, s1, s2, s3).

(** The statements of [_custom_hash_v2] after the block loop. *)
Definition hash_final (length : Z) (st : Z * Z * Z * Z) : list Z :=
  let '(s0, s1, s2, s3) := st in
  let t0 := Z.lxor s0 length in
  let t1 := Z.lxor s1 t0 in
  let t2 := Z.land (s2 + t1) (MAX_32BIT config) in
  let t3 := Z.lxor s3 t2 in
  let rot_t0 := rotate_left t0 9 in
  let rot_t1 := rotate_left t1 13 in
  let rot_t2 := rotate_left t2 17 in
  let rot_t3 := rotate_left t3 19 in
  let s0 := Z.land (rot_t0 + rot_t2) (MAX_32BIT config) in
  let s1 := Z.lxor rot_t1 rot_t3 in
  let s2 := Z.land (rot_t2 + s0) (MAX_32BIT config) in
  let s3 := Z.lxor rot_t3 s1 in
  flat_map (fun s => int_to_le_bytes s 4) [s0; s1; s2; s3].

(** [_custom_hash_v2]. *)
Definition custom_hash_v2 (input_bytes : list Z) : result (list Z) :=
  let '(s0, s1, s2, s3) := HASH_IV config in
  let length := Py.len input_bytes in
  let s0 := Z.lxor s0 length in
  let s1 := Z.lxor s1 (Z.shiftl length 8) in
  let s2 := Z.lxor s2 (Z.shiftl length 16) in
  let s3 := Z.lxor s3 (Z.shiftl length 24) in
  st <- foldM (hash_round input_bytes) (Py.range (length / 8)) (s0, s1, s2, s3) ;;
  Ok (hash_final length st).

(** *** [build_payload_array]

    The argument [timestamp] is a float, a number of seconds: the one
    given, or the reading of [time.time()] when [None] is given.  The
    builder converts it to milliseconds twice. *)

(** [int(timestamp * 1000)]. *)
Definition millis (timestamp : Py.float) : result Z :=
  x <- Py.fmul_int timestamp 1000 ;; Py.int_of_float x.

(** [int((timestamp - time_offset) * 1000)]. *)
Definition millis_before (timestamp : Py.float) (time_offset : Z)
  : result Z :=
  d <- Py.fsub_int timestamp time_offset ;;
  x <- Py.fmul_int d 1000 ;;
  Py.int_of_float x.

(** The class [RandomGenerator] of [utils/random_gen.py] is not part of
    the sources at hand.  A generator is modelled by the values that its
    calls return: the seed of [generate_random_int()] and the three draws
    of [generate_random_byte_in_range], in call order. *)
Record RandomGenerator : Type := {
  generate_random_int : Z;
  draw_time_offset : Z;
  draw_sequence_value : Z;
  draw_window_props_length : Z
}.

Definition build_payload_array
    (random_gen : RandomGenerator)
    (hex_parameter a1_value app_identifier string_param : Py.str)
    (timestamp : Py.float) (sign_state : option SignState.t)
  : result (list Z) :=
  let seed := generate_random_int random_gen in
  let seed_byte := Z.land seed 0xFF in
  let payload := VERSION_BYTES config in
  let payload := payload ++ int_to_le_bytes seed 4 in
  ts_ms <- millis timestamp ;;
  let ts_bytes := int_to_le_bytes ts_ms (TIMESTAMP_LE_LENGTH config) in
  let payload := payload ++ ts_bytes in
  payload <-
    match sign_state with
    | Some st =>
        let payload := payload ++
          int_to_le_bytes (SignState.page_load_timestamp st)
            (TIMESTAMP_LE_LENGTH config) in
        let payload := payload ++
          int_to_le_bytes (SignState.sequence_value st) 4 in
        let payload := payload ++
          int_to_le_bytes (SignState.window_props_length st) 4 in
        Ok (payload ++ int_to_le_bytes (SignState.uri_length st) 4)
    | None =>
        let time_offset := draw_time_offset random_gen in
        effective_ts_ms <- millis_before timestamp time_offset ;;
        let payload := payload ++
          int_to_le_bytes effective_ts_ms (TIMESTAMP_LE_LENGTH config) in
        let sequence_value := draw_sequence_value random_gen in
        let payload := payload ++ int_to_le_bytes sequence_value 4 in
        let window_props_length := draw_window_props_length random_gen in
        let payload := payload ++ int_to_le_bytes window_props_length 4 in
        encoded <- Py.encode_utf8 string_param ;;
        let uri_length := Py.len encoded in
        Ok (payload ++ int_to_le_bytes uri_length 4)
    end ;;
  md5_bytes <- Py.fromhex hex_parameter ;;
  xored <- mapM (fun i => b <- Py.index md5_bytes i ;; Ok (Z.lxor b seed_byte))
             (Py.range (MD5_XOR_LENGTH config)) ;;
  let payload := payload ++ xored in
  a1_encoded <- Py.encode_utf8 a1_value ;;
  let a1_bytes :=
    Py.ljust (Py.slice_to a1_encoded (A1_LENGTH config)) (A1_LENGTH config) 0 in
  let payload := payload ++ [Py.len a1_bytes] in
  let payload := payload ++ a1_bytes in
  app_encoded <- Py.encode_utf8 app_identifier ;;
  let app_bytes :=
    Py.ljust (Py.slice_to app_encoded (APP_ID_LENGTH config))
      (APP_ID_LENGTH config) 0 in
  let payload := payload ++ [Py.len app_bytes] in
  let payload := payload ++ app_bytes in
  env0 <- Py.index (ENV_TABLE config) 0 ;;
  let part11 := [1; Z.lxor seed_byte env0] in
  checks <- mapM (fun i =>
                    e <- Py.index (ENV_TABLE config) i ;;
                    c <- Py.index (ENV_CHECKS_DEFAULT config) i ;;
                    Ok (Z.lxor e c))
              (Py.range2 1 15) ;;
  let part11 := part11 ++ checks in
  let payload := payload ++ part11 in
  let api_path := extract_api_path string_param in
  api_path_bytes <- Py.encode_utf8 api_path ;;
  let hex_md5 := Py.md5.hexdigest api_path_bytes in
  md5_path_bytes <- mapM (fun i => Py.int16 (Py.slice hex_md5 i (i + 2)))
                      (Py.range3 0 32 2) ;;
  h <- custom_hash_v2 (ts_bytes ++ md5_path_bytes) ;;
  Ok (payload ++ A3_PREFIX config ++ map (fun b => Z.lxor b seed_byte) h).

End CryptoProcessor.

(** ** session.py: the session manager *)

Module SessionManager.

(** The attributes of a [SessionManager] object. *)
Record t : Type := {
  _config : CryptoConfig;
  page_load_timestamp : Z;
  sequence_value : Z;
  window_props_length : Z
}.

(** [__init__], at a wall clock of [now_ms] milliseconds
    ([int(time.time() * 1000)]). *)
Definition init (config : CryptoConfig) (now_ms : Z) (r : Py.rng)
  : result (t * Py.rng) :=
  ' (seq0, r) <- Py.randint (SESSION_SEQUENCE_INIT_MIN config)
                   (SESSION_SEQUENCE_INIT_MAX config) r ;;
  ' (wp0, r) <- Py.randint (SESSION_WINDOW_PROPS_INIT_MIN config)
                  (SESSION_WINDOW_PROPS_INIT_MAX config) r ;;
  Ok ({| _config := config;
         page_load_timestamp := now_ms;
         sequence_value := seq0;
         window_props_length := wp0 |}, r).

(** [update_state]: the object after the two increments. *)
Definition update_state (self : t) (r : Py.rng) : result (t * Py.rng) :=
  ' (d, r) <- Py.randint (SESSION_SEQUENCE_STEP_MIN (_config self))
                (SESSION_SEQUENCE_STEP_MAX (_config self)) r ;;
  let self := {| _config := _config self;
                 page_load_timestamp := page_load_timestamp self;
                 sequence_value := sequence_value self + d;
                 window_props_length := window_props_length self |} in
  ' (d, r) <- Py.randint (SESSION_WINDOW_PROPS_STEP_MIN (_config self))
                (SESSION_WINDOW_PROPS_STEP_MAX (_config self)) r ;;
  Ok ({| _config := _config self;
         page_load_timestamp := page_load_timestamp self;
         sequence_value := sequence_value self;
         window_props_length := window_props_length self + d |}, r).

(** [get_current_state]: the snapshot and the updated object. *)
Definition get_current_state (self : t) (uri : Py.str) (r : Py.rng)
  : result (SignState.t * t * Py.rng) :=
  ' (self, r) <- update_state self r ;;
  Ok ({| SignState.page_load_timestamp := page_load_timestamp self;
         SignState.sequence_value := sequence_value self;
         SignState.window_props_length := window_props_length self;
         SignState.uri_length := Py.len uri |}, self, r).

(** Successive calls of [get_current_state] on one object, one for each
    URI, with the snapshots in call order. *)
Fixpoint successive_states (self : t) (uris : list Py.str) (r : Py.rng)
  : result (list SignState.t * t * Py.rng) :=
  match uris with
  | [] => Ok ([], self, r)
  | uri :: rest =>
      ' (st, self, r) <- get_current_state self uri r ;;
      ' (sts, self, r) <- successive_states self rest r ;;
      Ok (st :: sts, self, r)
  end.

End SessionManager.


(** ** The digest mixer as the specification words it

    Four 32-bit words are initialised from the initialisation vector, the
    byte length is folded in with every result masked to 32 bits, every
    consecutive 8-byte block updates the words in sequence, and the
    finalisation, the rotations and the final mix follow. *)

Module MixerSpec.

Definition word : Z := 2 ^ 32.

Definition mask32 (x : Z) : Z := x mod word.

Definition add32 (a b : Z) : Z := (a + b) mod word.

Definition rotate_left32 (value n : Z) : Z :=
  Z.land (Z.lor (Z.shiftl value n) (Z.shiftr value (32 - n))) 0xFFFFFFFF.

Definition le32 (b0 b1 b2 b3 : Z) : Z :=
  b0 + b1 * 2 ^ 8 + b2 * 2 ^ 16 + b3 * 2 ^ 24.

Definition le_bytes32 (s : Z) : list Z :=
  [s mod 256; (s / 2 ^ 8) mod 256; (s / 2 ^ 16) mod 256; (s / 2 ^ 24) mod 256].

Definition state : Type := (Z * Z * Z * Z)%type.

Definition fold_length (n : Z) (st : state) : state :=
  let '(s0, s1, s2, s3) := st in
  (mask32 (Z.lxor s0 n),
   mask32 (Z.lxor s1 (Z.shiftl n 8)),
   mask32 (Z.lxor s2 (Z.shiftl n 16)),
   mask32 (Z.lxor s3 (Z.shiftl n 24))).

Definition update (st : state) (v0 v1 : Z) : state :=
  let '(s0, s1, s2, s3) := st in
  let s0 := rotate_left32 (Z.lxor (add32 s0 v0) s2) 7 in
  let s1 := rotate_left32 (add32 (Z.lxor v0 s1) s3) 11 in
  let s2 := rotate_left32 (Z.lxor (add32 s2 v1) s0) 13 in
  let s3 := rotate_left32 (add32 (Z.lxor s3 v1) s1) 17 in
  (s0, s1, s2, s3).

(** One update for each consecutive 8-byte block. *)
Fixpoint blocks (input : list Z) (st : state) : state :=
  match input with
  | b0 :: b1 :: b2 :: b3 :: b4 :: b5 :: b6 :: b7 :: rest =>
      blocks rest (update st (le32 b0 b1 b2 b3) (le32 b4 b5 b6 b7))
  | _ => st
  end.

Definition finalize (n : Z) (st : state) : state :=
  let '(s0, s1, s2, s3) := st in
  let t0 := Z.lxor s0 n in
  let t1 := Z.lxor s1 t0 in
  let t2 := add32 s2 t1 in
  let t3 := Z.lxor s3 t2 in
  let rt0 := rotate_left32 t0 9 in
  let rt1 := rotate_left32 t1 13 in
  let rt2 := rotate_left32 t2 17 in
  let rt3 := rotate_left32 t3 19 in
  let s0 := add32 rt0 rt2 in
  let s1 := Z.lxor rt1 rt3 in
  let s2 := add32 rt2 s0 in
  let s3 := Z.lxor rt3 s1 in
  (s0, s1, s2, s3).

Definition output (st : state) : list Z :=
  let '(s0, s1, s2, s3) := st in
  le_bytes32 s0 ++ le_bytes32 s1 ++ le_bytes32 s2 ++ le_bytes32 s3.

Definition digest (iv : state) (input : list Z) : list Z :=
  let n := Z.of_nat (length input) in
  output (finalize n (blocks input (fold_length n iv))).

End MixerSpec.

(** ** Notions used in the statements *)

(** A computation that returns, and does not raise. *)
Definition returns {A : Type} (m : result A) : Prop := exists a, m = Ok a.

(** A list of octets. *)
Definition byte_list (l : list Z) : Prop := Forall (fun b => 0 <= b < 256) l.

(** [n] zero octets. *)
Definition zeros (n : Z) : list Z := repeat 0 (Z.to_nat n).

(** The block loop of [_custom_hash_v2] seen block by block: [n] rounds,
    each on the head block of what is left of the input. *)
Fixpoint block_loop (config : CryptoConfig) (n : nat) (l : list Z)
    (st : Z * Z * Z * Z) : result (Z * Z * Z * Z) :=
  match n with
  | O => Ok st
  | S k => st' <- hash_round config l st 0 ;; block_loop config k (skipn 8 l) st'
  end.

(** The computation of [_custom_hash_v2] on [body], a whole number of
    blocks, with [n] in the place of the length of the input: [n] is
    folded into the initialisation vector, every block of [body] goes
    through a round, and [n] enters the statements after the loop. *)
Definition mix_with_length (config : CryptoConfig) (n : Z) (body : list Z)
  : result (list Z) :=
  let '(s0, s1, s2, s3) := HASH_IV config in
  st <- block_loop config (length body / 8) body
          (Z.lxor s0 n, Z.lxor s1 (Z.shiftl n 8),
           Z.lxor s2 (Z.shiftl n 16), Z.lxor s3 (Z.shiftl n 24)) ;;
  Ok (hash_final config n st).

(** The two characters at which a path ends. *)
Definition is_delimiter (c : Z) : bool := (c =? brace) || (c =? question).

(** The part of a string strictly before its first character satisfying
    [stop], the whole string when there is none. *)
Fixpoint before_first (stop : Z -> bool) (s : Py.str) : Py.str :=
  match s with
  | [] => []
  | c :: t => if stop c then [] else c :: before_first stop t
  end.

(** The code point of the double quote. *)
Definition dquote : Z := 34.

(** The three strings of the docstring of [extract_api_path]. *)
Definition homefeed_json : Py.str :=
  Py.lit "/api/homefeed{" ++ [dquote] ++ Py.lit "num" ++ [dquote]
    ++ Py.lit ":47}".
Definition homefeed_query : Py.str := Py.lit "/api/homefeed?num=47".
Definition homefeed : Py.str := Py.lit "/api/homefeed".

(** A Unicode scalar value: a code point that is not a surrogate. *)
Definition scalar_value (c : Z) : Prop :=
  0 <= c < 0xD800 \/ 0xDFFF < c < 0x110000.

(** A string that has a UTF-8 encoding. *)
Definition well_formed (s : Py.str) : Prop := Forall scalar_value s.

(** A string of hexadecimal digits. *)
Definition hex_digits (s : Py.str) : Prop :=
  Forall (fun c => Py.digit_value c <> None) s.

(** A string with a character that is neither a hexadecimal digit nor
    ASCII white space. *)
Definition has_non_hex (s : Py.str) : Prop :=
  exists c, In c s /\ Py.digit_value c = None /\ Py.is_space c = false.

(** *** The layout of a payload

    The segments of the payload that [build_payload_array] returns with
    the default configuration, in order, as functions of the values that
    the builder computes. *)

(** The URI length: of the snapshot, or of the encoded URI and body. *)
Definition uri_length_of (sign_state : option SignState.t)
    (string_param : Py.str) : result Z :=
  match sign_state with
  | Some st => Ok (SignState.uri_length st)
  | None => encoded <- Py.encode_utf8 string_param ;; Ok (Py.len encoded)
  end.

(** The secondary timestamp: the page-load time of the snapshot, or the
    timestamp moved back by the drawn offset, in milliseconds. *)
Definition secondary_millis_of (random_gen : RandomGenerator)
    (timestamp : Py.float) (sign_state : option SignState.t) : result Z :=
  match sign_state with
  | Some st => Ok (SignState.page_load_timestamp st)
  | None => millis_before timestamp (draw_time_offset random_gen)
  end.

(** Offsets 16 to 35: secondary timestamp [t2], sequence value,
    window-props length and URI length [n]. *)
Definition context_fields (random_gen : RandomGenerator)
    (t2 : Z) (sign_state : option SignState.t) (n : Z)
  : list Z :=
  match sign_state with
  | Some st =>
      int_to_le_bytes t2 8
        ++ int_to_le_bytes (SignState.sequence_value st) 4
        ++ int_to_le_bytes (SignState.window_props_length st) 4
        ++ int_to_le_bytes n 4
  | None =>
      int_to_le_bytes t2 8
        ++ int_to_le_bytes (draw_sequence_value random_gen) 4
        ++ int_to_le_bytes (draw_window_props_length random_gen) 4
        ++ int_to_le_bytes n 4
  end.

(** Offsets 108 to 123: the environment block. *)
Definition env_block (seed_byte : Z) : list Z :=
  [1; Z.lxor seed_byte 115; 249; 65; 103; 103; 201; 181; 131; 99; 94; 7;
   68; 250; 132; 21].

Definition xor_with (seed_byte : Z) (l : list Z) : list Z :=
  map (fun b => Z.lxor b seed_byte) l.

Definition payload_layout (seed ts_ms : Z)
    (fields md5_bytes a1_encoded app_encoded h : list Z) : list Z :=
  let seed_byte := Z.land seed 0xFF in
  [121; 104; 96; 41]
    ++ int_to_le_bytes seed 4
    ++ int_to_le_bytes ts_ms 8
    ++ fields
    ++ xor_with seed_byte (firstn 8 md5_bytes)
    ++ [52]
    ++ Py.ljust (firstn 52 a1_encoded) 52 0
    ++ [10]
    ++ Py.ljust (firstn 10 app_encoded) 10 0
    ++ env_block seed_byte
    ++ [2; 97; 51; 16]
    ++ xor_with seed_byte h.

(** *** Concrete inputs *)

(** [float(t)] for a whole number of seconds [t]. *)
Definition seconds (t : Z) : Py.float :=
  binary_normalize Py.prec Py.emax t 0 false.

Definition not_a_number : Py.float := S754_nan.

(** [1700000000.123], that is [0x1.954fc4007df3bp+30]. *)
Definition with_millis : Py.float :=
  S754_finite false 0x1954fc4007df3b (-22).

Definition example_gen : RandomGenerator :=
  {| generate_random_int := 0x12345678;
     draw_time_offset := 20;
     draw_sequence_value := 30;
     draw_window_props_length := 1100 |}.

Definition example_md5 : Py.str := Py.lit "00112233445566778899aabbccddeeff".

(** A digest string of 16 hexadecimal digits only. *)
Definition short_md5 : Py.str := Py.lit "0011223344556677".

Definition example_a1 : Py.str := Py.lit "18c3a6d2f9a0b7e4".

(** An identity of twenty euro signs, three octets each in UTF-8: the
    cut at 52 octets falls inside the eighteenth. *)
Definition long_a1 : Py.str := repeat 0x20AC 20.


Definition example_app : Py.str := Py.lit "xhs-pc-web".

Definition example_state : SignState.t :=
  {| SignState.page_load_timestamp := 1700000000000;
     SignState.sequence_value := 16;
     SignState.window_props_length := 1015;
     SignState.uri_length := 23 |}.

(** The payload built from [v] when the builder returns, the empty list
    otherwise. *)
Definition payload_of (v : result (list Z)) : list Z :=
  match v with
  | Ok p => p
  | Raise _ => []
  end.

Definition example_payload : list Z :=
  Eval vm_compute in
    payload_of (build_payload_array default_config example_gen example_md5
                  example_a1 example_app homefeed_json (seconds 1700000000)
                  None).

Definition example_session_payload : list Z :=
  Eval vm_compute in
    payload_of (build_payload_array default_config example_gen example_md5
                  long_a1 example_app homefeed_json (seconds 1700000000)
                  (Some example_state)).

Definition short_md5_payload : list Z :=
  Eval vm_compute in
    payload_of (build_payload_array default_config example_gen short_md5
                  example_a1 example_app homefeed_json (seconds 1700000000)
                  None).

(** Decision procedures for the two predicates on strings. *)
Definition scalar_valueb (c : Z) : bool :=
  ((0 <=? c) && (c <? 0xD800)) || ((0xDFFF <? c) && (c <? 0x110000)).

Definition is_hex_digit (c : Z) : bool :=
  match Py.digit_value c with
  | Some _ => true
  | None => false
  end.

(** Three digest strings that the builder refuses: one with a character
    that is no hexadecimal digit, one of four digits, one of 31 digits. *)
Definition non_hex_md5 : Py.str := Py.lit "zz112233445566778899aabbccddeeff".
Definition tiny_md5 : Py.str := Py.lit "0011".
Definition odd_md5 : Py.str := Py.lit "00112233445566778899aabbccddeef".

(** ** utils/url_utils.py: [build_url] *)

(** A value of the [params] dictionary: [None], a string, or a list or
    tuple of strings.  ([str(v)] of a string is the string; values of
    other types, whose [str()] form is their own, are not modelled.) *)
Inductive param_value : Type :=
| PNone
| PStr (s : Py.str)
| PSeq (items : list Py.str).

(** [sep.join(parts)]. *)
Fixpoint join (sep : Py.str) (parts : list Py.str) : Py.str :=
  match parts with
  | [] => []
  | p :: rest =>
      match rest with
      | [] => p
      | _ :: _ => p ++ sep ++ join sep rest
      end
  end.

(** [s.replace(c, by)] for a one-character [c]. *)
Definition replace_char (c : Z) (by_ : Py.str) (s : Py.str) : Py.str :=
  flat_map (fun x => if x =? c then by_ else [x]) s.

(** [c in s] for a one-character [c]. *)
Definition contains (c : Z) (s : Py.str) : bool := existsb (Z.eqb c) s.

(** [s.endswith((c1, c2, ...))] for one-character suffixes. *)
Definition endswith_any (s : Py.str) (cs : list Z) : bool :=
  match rev s with
  | [] => false
  | x :: _ => existsb (Z.eqb x) cs
  end.

(** The code points of [=], [&] and [,]. *)
Definition equals_sign : Z := 61.
Definition ampersand : Z := 38.
Definition comma : Z := 44.

(** The body of the loop over [params.items()]: one [key=value] part. *)
Definition query_part (item : Py.str * param_value) : Py.str :=
  let '(key, value) := item in
  let formatted_value :=
    match value with
    | PSeq vs => join [comma] vs
    | PStr s => s
    | PNone => []
    end in
  let encoded_value := replace_char equals_sign (Py.lit "%3D") formatted_value in
  key ++ [equals_sign] ++ encoded_value.

(** [build_url]; the dictionary is the list of its items in insertion
    order, [None] the absent argument. *)
Definition build_url (base_url : Py.str)
    (params : option (list (Py.str * param_value))) : result Py.str :=
  match base_url with
  | [] => Raise ValueError
  | _ :: _ =>
      match params with
      | None | Some [] => Ok base_url
      | Some items =>
          let query_parts := map query_part items in
          let query_string := join [ampersand] query_parts in
          let separator :=
            if negb (contains question base_url) then [question]
            else if endswith_any base_url [question; ampersand] then []
            else [ampersand] in
          Ok (base_url ++ separator ++ query_string)
      end
  end.

(** *** Further notions used in the statements *)

(** The number of occurrences of a character in a string. *)
Definition count (c : Z) (s : Py.str) : nat := count_occ Z.eq_dec s c.

(** A string of ASCII characters. *)
Definition ascii_only (s : Py.str) : Prop := Forall (fun c => 0 <= c < 128) s.

(** A surrogate code point. *)
Definition surrogate (c : Z) : Prop := 0xD800 <= c <= 0xDFFF.

(** Nine integers, the sixth of them not an octet. *)
Definition nine_with_256 : list Z := [0; 0; 0; 0; 0; 256; 0; 0; 0].

(** *** Further concrete inputs *)

(** The generator after [k] draws. *)
Definition drop (k : nat) (r : Py.rng) : Py.rng := fun n => r (k + n)%nat.

Definition example_rng : Py.rng := fun n => Z.of_nat n * 7 + 3.

(** The session manager that [__init__] makes from [example_rng] at time
    1700000000000, and what three calls on it give. *)
Definition example_session : SessionManager.t :=
  {| SessionManager._config := default_config;
     SessionManager.page_load_timestamp := 1700000000000;
     SessionManager.sequence_value := 15;
     SessionManager.window_props_length := 1010 |}.

Definition example_session_after_one : SessionManager.t :=
  {| SessionManager._config := default_config;
     SessionManager.page_load_timestamp := 1700000000000;
     SessionManager.sequence_value := 16;
     SessionManager.window_props_length := 1015 |}.

Definition example_uris : list Py.str :=
  [homefeed_json; homefeed_query; homefeed].

Definition example_snapshots : list SignState.t :=
  Eval vm_compute in
    match SessionManager.successive_states example_session example_uris
            (drop 2 example_rng) with
    | Ok (snaps, _, _) => snaps
    | Raise _ => []
    end.

Definition example_session_after_three : SessionManager.t :=
  Eval vm_compute in
    match SessionManager.successive_states example_session example_uris
            (drop 2 example_rng) with
    | Ok (_, self, _) => self
    | Raise _ => example_session
    end.

(** [CryptoConfig().with_overrides(SESSION_SEQUENCE_STEP_MIN=2,
    SESSION_SEQUENCE_STEP_MAX=1)]: an empty step range. *)
Definition empty_step_config : CryptoConfig :=
  {| MAX_32BIT := MAX_32BIT default_config;
     VERSION_BYTES := VERSION_BYTES default_config;
     A1_LENGTH := A1_LENGTH default_config;
     APP_ID_LENGTH := APP_ID_LENGTH default_config;
     MD5_XOR_LENGTH := MD5_XOR_LENGTH default_config;
     A3_PREFIX := A3_PREFIX default_config;
     TIMESTAMP_LE_LENGTH := TIMESTAMP_LE_LENGTH default_config;
     SESSION_WINDOW_PROPS_INIT_MIN :=
       SESSION_WINDOW_PROPS_INIT_MIN default_config;
     SESSION_WINDOW_PROPS_INIT_MAX :=
       SESSION_WINDOW_PROPS_INIT_MAX default_config;
     SESSION_SEQUENCE_INIT_MIN := SESSION_SEQUENCE_INIT_MIN default_config;
     SESSION_SEQUENCE_INIT_MAX := SESSION_SEQUENCE_INIT_MAX default_config;
     SESSION_SEQUENCE_STEP_MIN := 2;
     SESSION_SEQUENCE_STEP_MAX := 1;
     SESSION_WINDOW_PROPS_STEP_MIN :=
       SESSION_WINDOW_PROPS_STEP_MIN default_config;
     SESSION_WINDOW_PROPS_STEP_MAX :=
       SESSION_WINDOW_PROPS_STEP_MAX default_config;
     ENV_TABLE := ENV_TABLE default_config;
     ENV_CHECKS_DEFAULT := ENV_CHECKS_DEFAULT default_config;
     HASH_IV := HASH_IV default_config |}.

Definition empty_step_session : SessionManager.t :=
  {| SessionManager._config := empty_step_config;
     SessionManager.page_load_timestamp := 1700000000000;
     SessionManager.sequence_value := 15;
     SessionManager.window_props_length := 1010 |}.

(** The payload for the arguments of [example_payload] and the snapshot
    [example_state]. *)
Definition example_payload_with_state : list Z :=
  Eval vm_compute in
    payload_of (build_payload_array default_config example_gen example_md5
                  example_a1 example_app homefeed_json (seconds 1700000000)
                  (Some example_state)).

(** Another generator with the same low seed octet, and a payload for
    it, another digest string, identity and application identifier, and
    the query form of the URI. *)
Definition other_gen : RandomGenerator :=
  {| generate_random_int := 0xAB78;
     draw_time_offset := 11;
     draw_sequence_value := 49;
     draw_window_props_length := 1001 |}.

Definition other_payload : list Z :=
  Eval vm_compute in
    payload_of (build_payload_array default_config other_gen short_md5
                  long_a1 (Py.lit "x") homefeed_query (seconds 1700000000)
                  (Some example_state)).

(** A URI that ends in a lone surrogate. *)
Definition surrogate_uri : Py.str := Py.lit "/api/" ++ [0xD800].

(** A base URL, one parameter whose value holds an equals sign, and the
    URL built from them. *)
Definition example_base : Py.str := Py.lit "/api/path".
Definition example_items : list (Py.str * param_value) :=
  [(Py.lit "key", PStr (Py.lit "value=test"))].
Definition example_url : Py.str := Py.lit "/api/path?key=value%3Dtest".

(** ** The models of the built-ins on known values *)

(** The test suite of RFC 1321, section A.5, in part, and a message of two
    blocks. *)
Example md5_empty :
  Py.md5.hexdigest [] = Py.lit "d41d8cd98f00b204e9800998ecf8427e".
Proof. vm_compute. reflexivity. Qed.

Example md5_abc :
  Py.md5.hexdigest (Py.lit "abc") = Py.lit "900150983cd24fb0d6963f7d28e17f72".
Proof. vm_compute. reflexivity. Qed.

Example md5_message_digest :
  Py.md5.hexdigest (Py.lit "message digest")
  = Py.lit "f96b697d7cb7938d525a2f31aaf161d0".
Proof. vm_compute. reflexivity. Qed.

Example md5_eighty_digits :
  Py.md5.hexdigest
    (Py.lit "12345678901234567890123456789012345678901234567890123456789012345678901234567890")
  = Py.lit "57edf4a22be3c955ac49da2e2107b67a".
Proof. vm_compute. reflexivity. Qed.

(** U+20AC, U+0041, U+1F600 and U+00E9 in UTF-8; a lone surrogate. *)
Example encode_utf8_widths :
  Py.encode_utf8 [0x20AC; 0x41; 0x1F600; 0xE9]
  = Ok [0xE2; 0x82; 0xAC; 0x41; 0xF0; 0x9F; 0x98; 0x80; 0xC3; 0xA9].
Proof. reflexivity. Qed.

Example encode_utf8_surrogate :
  Py.encode_utf8 [0x41; 0xD800] = Raise UnicodeEncodeError.
Proof. reflexivity. Qed.

Example fromhex_blanks : Py.fromhex (Py.lit "00ff 1A2b ") = Ok [0; 255; 26; 43].
Proof. reflexivity. Qed.

Example fromhex_split_pair : Py.fromhex (Py.lit "0 0") = Raise ValueError.
Proof. reflexivity. Qed.

Example fromhex_odd : Py.fromhex (Py.lit "abc") = Raise ValueError.
Proof. reflexivity. Qed.

(** Floats: [1000.0]; an integer beyond the largest float; the two
    conversions of [build_payload_array] on [1700000000.123], which is
    not a whole number of milliseconds, on a timestamp before 1970, on
    [1e306], whose product with 1000 is infinite, and on not-a-number. *)
Example float_of_int_1000 :
  Py.float_of_int 1000 = Ok (S754_finite false 0x1f400000000000 (-43)).
Proof. reflexivity. Qed.

Example float_of_int_overflow :
  Py.float_of_int (2 ^ 1024) = Raise OverflowError.
Proof. vm_compute. reflexivity. Qed.

Example millis_with_millis : millis with_millis = Ok 1700000000123.
Proof. vm_compute. reflexivity. Qed.

Example millis_before_with_millis :
  millis_before with_millis 20 = Ok 1699999980123.
Proof. vm_compute. reflexivity. Qed.

Example millis_negative :
  millis (SFopp with_millis) = Ok (-1700000000123).
Proof. vm_compute. reflexivity. Qed.

Example millis_product_overflows :
  millis (S754_finite false 0x16c8e5ca239029 964) = Raise OverflowError.
Proof. vm_compute. reflexivity. Qed.

Example millis_not_a_number : millis not_a_number = Raise ValueError.
Proof. reflexivity. Qed.

Example int_to_le_bytes_truncates :
  int_to_le_bytes 0x0102030405 4 = [5; 4; 3; 2].
Proof. reflexivity. Qed.

Example int_to_le_bytes_negative : int_to_le_bytes (-2) 4 = [254; 255; 255; 255].
Proof. reflexivity. Qed.

Example rotate_left_wraps :
  rotate_left default_config 0x80000001 1 = 3.
Proof. reflexivity. Qed.

(** ** Facts about the Python built-ins *)

Lemma is_byte_true (b : Z) : Py.is_byte b = true <-> 0 <= b < 256.
Proof.
  unfold Py.is_byte. rewrite andb_true_iff, Z.leb_le, Z.ltb_lt. tauto.
Qed.

Lemma forallb_is_byte (l : list Z) : byte_list l -> forallb Py.is_byte l = true.
Proof.
  intros H. apply forallb_forall. intros x Hx.
  apply is_byte_true. exact (proj1 (Forall_forall _ l) H x Hx).
Qed.

Lemma bytes_of_list_ok (l : list Z) : byte_list l -> Py.bytes_of_list l = Ok l.
Proof.
  intros H. unfold Py.bytes_of_list. now rewrite forallb_is_byte.
Qed.

Lemma byte_list_app (l1 l2 : list Z) :
  byte_list l1 -> byte_list l2 -> byte_list (l1 ++ l2).
Proof. intros H1 H2. apply Forall_app. now split. Qed.

Lemma byte_list_firstn (n : nat) (l : list Z) :
  byte_list l -> byte_list (firstn n l).
Proof.
  unfold byte_list. intros H. revert n.
  induction H as [| x l Hx Hl IH]; intros [| n]; simpl; constructor; auto.
Qed.

Lemma byte_list_skipn (n : nat) (l : list Z) :
  byte_list l -> byte_list (skipn n l).
Proof.
  unfold byte_list. intros H. revert n.
  induction H as [| x l Hx Hl IH]; intros [| n]; simpl; try constructor; auto.
Qed.

Lemma byte_list_repeat (b : Z) (n : nat) :
  0 <= b < 256 -> byte_list (repeat b n).
Proof.
  intros Hb. apply Forall_forall. intros x Hx.
  apply repeat_spec in Hx. now subst.
Qed.

Lemma Ok_inj {A : Type} (a b : A) : Ok a = Ok b -> a = b.
Proof. intros H. now injection H. Qed.

(** ** The block loop of the mixer, block by block *)

Section CodecFacts.

Variable config : CryptoConfig.

Lemma hash_round_skipn (input : list Z) (st : Z * Z * Z * Z) (k : nat) :
  hash_round config input st k = hash_round config (skipn (k * 8) input) st 0.
Proof.
  unfold hash_round, Py.slice. destruct st as [[[s0 s1] s2] s3].
  replace ((k + 1) * 8 - k * 8)%nat with 8%nat by lia.
  now replace ((0 + 1) * 8 - 0 * 8)%nat with 8%nat by lia.
Qed.

Lemma foldM_hash_round (input : list Z) (n k : nat) (st : Z * Z * Z * Z) :
  foldM (hash_round config input) (seq k n) st
  = block_loop config n (skipn (k * 8) input) st.
Proof.
  revert k st. induction n as [| n IH]; intros k st; [reflexivity |].
  cbn [seq foldM block_loop]. rewrite hash_round_skipn.
  destruct (hash_round config (skipn (k * 8) input) st 0) as [st' | e];
    cbn [bind]; [| reflexivity].
  rewrite IH, skipn_skipn.
  now replace (8 + k * 8)%nat with (S k * 8)%nat by lia.
Qed.

Lemma custom_hash_v2_blocks (input : list Z) :
  custom_hash_v2 config input =
  (let '(s0, s1, s2, s3) := HASH_IV config in
   let length := Py.len input in
   st <- block_loop config (Z.to_nat (length / 8)) input
           (Z.lxor s0 length, Z.lxor s1 (Z.shiftl length 8),
            Z.lxor s2 (Z.shiftl length 16), Z.lxor s3 (Z.shiftl length 24)) ;;
   Ok (hash_final config length st)).
Proof.
  unfold custom_hash_v2, Py.range. destruct (HASH_IV config) as [[[s0 s1] s2] s3].
  now rewrite foldM_hash_round.
Qed.

Lemma le_loop_length (n : nat) (val : Z) : length (le_loop n val) = n.
Proof. revert val. induction n; intros; simpl; [reflexivity | now rewrite IHn]. Qed.

Lemma le_loop_bytes (n : nat) (val : Z) : byte_list (le_loop n val).
Proof.
  revert val. induction n as [| n IH]; intros val; simpl; constructor.
  - change 255 with (Z.ones 8). rewrite Z.land_ones by lia.
    change (2 ^ 8) with 256. apply Z.mod_pos_bound. lia.
  - apply IH.
Qed.

Lemma int_to_le_bytes_length (val n : Z) :
  0 <= n -> Py.len (int_to_le_bytes val n) = n.
Proof.
  intros Hn. unfold Py.len, int_to_le_bytes. rewrite le_loop_length. lia.
Qed.

Lemma int_to_le_bytes_bytes (val n : Z) : byte_list (int_to_le_bytes val n).
Proof. apply le_loop_bytes. Qed.

Lemma hash_final_length (n : Z) (st : Z * Z * Z * Z) :
  length (hash_final config n st) = 16%nat.
Proof. destruct st as [[[s0 s1] s2] s3]. reflexivity. Qed.

Lemma hash_final_bytes (n : Z) (st : Z * Z * Z * Z) :
  byte_list (hash_final config n st).
Proof.
  destruct st as [[[s0 s1] s2] s3]. unfold hash_final. cbv zeta.
  unfold flat_map.
  repeat (apply byte_list_app; [apply int_to_le_bytes_bytes |]). constructor.
Qed.

(** A round on a list of octets with a complete head block succeeds. *)
Lemma hash_round_ok (l : list Z) (st : Z * Z * Z * Z) :
  byte_list l -> (8 <= length l)%nat ->
  exists st', hash_round config l st 0 = Ok st'.
Proof.
  intros Hb Hl. destruct st as [[[s0 s1] s2] s3]. unfold hash_round, Py.slice.
  change (skipn (0 * 8) l) with l.
  replace ((0 + 1) * 8 - 0 * 8)%nat with 8%nat by lia.
  rewrite bytes_of_list_ok by now apply byte_list_firstn.
  cbn [bind]. unfold Py.unpack_II. rewrite length_firstn, Nat.min_l by lia.
  rewrite Nat.eqb_refl. cbn [bind]. eauto.
Qed.

Lemma block_loop_ok (n : nat) (l : list Z) (st : Z * Z * Z * Z) :
  byte_list l -> (8 * n <= length l)%nat ->
  exists st', block_loop config n l st = Ok st'.
Proof.
  revert l st. induction n as [| n IH]; intros l st Hb Hl; cbn [block_loop];
    [eauto |].
  destruct (hash_round_ok l st Hb) as [st1 H1]; [lia |].
  rewrite H1. cbn [bind]. apply IH.
  - now apply byte_list_skipn.
  - rewrite length_skipn. lia.
Qed.

(** On a list of octets the mixer returns, and returns 16 octets. *)
Lemma custom_hash_v2_ok (input : list Z) :
  byte_list input ->
  exists out, custom_hash_v2 config input = Ok out
              /\ length out = 16%nat /\ byte_list out.
Proof.
  intros Hb. rewrite custom_hash_v2_blocks.
  destruct (HASH_IV config) as [[[s0 s1] s2] s3]. cbv zeta.
  match goal with |- context [block_loop config ?n input ?st] =>
    destruct (block_loop_ok n input st Hb) as [st' H'] end.
  - unfold Py.len.
    assert (Z.of_nat (length input) / 8 * 8 <= Z.of_nat (length input)).
    { pose proof (Z.mul_div_le (Z.of_nat (length input)) 8). lia. }
    assert (0 <= Z.of_nat (length input) / 8) by (apply Z.div_pos; lia).
    lia.
  - rewrite H'. cbn [bind]. eexists. split; [reflexivity |].
    split; [apply hash_final_length | apply hash_final_bytes].
Qed.

End CodecFacts.

(** ** The mixer against its specification *)

Lemma land_mask32 (x : Z) : Z.land x 0xFFFFFFFF = x mod 2 ^ 32.
Proof. change 0xFFFFFFFF with (Z.ones 32). apply Z.land_ones. lia. Qed.

Lemma lxor_mod32_l (a b : Z) :
  Z.lxor (a mod 2 ^ 32) b mod 2 ^ 32 = Z.lxor a b mod 2 ^ 32.
Proof.
  rewrite <- !Z.land_ones by lia. apply Z.bits_inj'. intros n Hn.
  rewrite !Z.land_spec, !Z.lxor_spec, Z.land_spec.
  destruct (Z.testbit a n), (Z.testbit b n), (Z.testbit (Z.ones 32) n);
    reflexivity.
Qed.

Lemma from_le_4 (b0 b1 b2 b3 : Z) :
  Py.from_le [b0; b1; b2; b3] = MixerSpec.le32 b0 b1 b2 b3.
Proof. unfold MixerSpec.le32. cbn [Py.from_le]. lia. Qed.

(** One round of the code is one update of the specification, on the
    state with its last word reduced modulo [2 ^ 32]. *)
Lemma round_default (b0 b1 b2 b3 b4 b5 b6 b7 : Z) (rest : list Z)
    (s0 s1 s2 s3 : Z) :
  byte_list [b0; b1; b2; b3; b4; b5; b6; b7] ->
  hash_round default_config
    (b0 :: b1 :: b2 :: b3 :: b4 :: b5 :: b6 :: b7 :: rest) (s0, s1, s2, s3) 0
  = Ok (MixerSpec.update (s0, s1, s2, s3 mod 2 ^ 32)
          (MixerSpec.le32 b0 b1 b2 b3) (MixerSpec.le32 b4 b5 b6 b7)).
Proof.
  intros Hb. unfold hash_round, Py.slice.
  change (firstn _ _) with [b0; b1; b2; b3; b4; b5; b6; b7].
  rewrite bytes_of_list_ok by assumption. cbn [bind].
  unfold Py.unpack_II. cbn [length Nat.eqb firstn skipn bind].
  rewrite !from_le_4.
  change (rotate_left default_config) with MixerSpec.rotate_left32.
  change (MAX_32BIT default_config) with 0xFFFFFFFF.
  rewrite !land_mask32. unfold MixerSpec.update, MixerSpec.add32, MixerSpec.word.
  set (v0 := MixerSpec.le32 b0 b1 b2 b3). set (v1 := MixerSpec.le32 b4 b5 b6 b7).
  rewrite (Z.add_mod_idemp_r (Z.lxor v0 s1) s3) by lia.
  rewrite <- (Z.add_mod_idemp_l (Z.lxor (s3 mod 2 ^ 32) v1)) by lia.
  rewrite lxor_mod32_l.
  rewrite (Z.add_mod_idemp_l (Z.lxor s3 v1)) by lia.
  reflexivity.
Qed.

Lemma rotate_left32_range (x n : Z) : 0 <= MixerSpec.rotate_left32 x n < 2 ^ 32.
Proof.
  unfold MixerSpec.rotate_left32. rewrite land_mask32.
  apply Z.mod_pos_bound. lia.
Qed.

Lemma blocks_short (l : list Z) (st : MixerSpec.state) :
  (length l < 8)%nat -> MixerSpec.blocks l st = st.
Proof.
  intros H. do 8 (destruct l as [| ? l]; [reflexivity |]).
  cbn [length] in H. lia.
Qed.

Lemma block_loop_blocks (n : nat) (l : list Z) (s0 s1 s2 s3 : Z) :
  0 <= s3 < 2 ^ 32 -> byte_list l -> (8 * n <= length l < 8 * n + 8)%nat ->
  block_loop default_config n l (s0, s1, s2, s3)
  = Ok (MixerSpec.blocks l (s0, s1, s2, s3)).
Proof.
  revert l s0 s1 s2 s3. induction n as [| n IH]; intros l s0 s1 s2 s3 H3 Hb Hl.
  - cbn [block_loop]. rewrite blocks_short by lia. reflexivity.
  - do 8 (destruct l as [| ? l]; [cbn [length] in Hl; lia |]).
    cbn [block_loop]. rewrite round_default.
    2:{ exact (byte_list_firstn 8 _ Hb). }
    rewrite (Z.mod_small s3) by assumption.
    cbn [bind skipn MixerSpec.blocks]. unfold MixerSpec.update at 1 2.
    apply IH.
    + apply rotate_left32_range.
    + exact (byte_list_skipn 8 _ Hb).
    + cbn [length] in Hl. lia.
Qed.

Lemma le_loop_4 (s : Z) : le_loop 4 s = MixerSpec.le_bytes32 s.
Proof.
  unfold MixerSpec.le_bytes32. cbn [le_loop].
  rewrite !Z.shiftr_shiftr by lia. rewrite !Z.shiftr_div_pow2 by lia.
  change 255 with (Z.ones 8). rewrite !Z.land_ones by lia.
  reflexivity.
Qed.

Lemma hash_final_default (n : Z) (st : Z * Z * Z * Z) :
  hash_final default_config n st = MixerSpec.output (MixerSpec.finalize n st).
Proof.
  destruct st as [[[s0 s1] s2] s3].
  unfold hash_final, MixerSpec.finalize, MixerSpec.output. cbv zeta.
  unfold flat_map, int_to_le_bytes. change (Z.to_nat 4) with 4%nat.
  rewrite !le_loop_4, app_nil_r.
  change (rotate_left default_config) with MixerSpec.rotate_left32.
  change (MAX_32BIT default_config) with 0xFFFFFFFF.
  rewrite !land_mask32. reflexivity.
Qed.

Lemma mask32_lxor_small (a b : Z) :
  0 <= a < 2 ^ 32 -> 0 <= b < 2 ^ 32 -> MixerSpec.mask32 (Z.lxor a b) = Z.lxor a b.
Proof.
  intros Ha Hb. unfold MixerSpec.mask32, MixerSpec.word.
  rewrite <- (Z.mod_small a (2 ^ 32)) at 2 by assumption.
  rewrite <- (Z.mod_small b (2 ^ 32)) at 2 by assumption.
  rewrite <- !Z.land_ones by lia. apply Z.bits_inj'. intros n Hn.
  rewrite !Z.land_spec, !Z.lxor_spec, !Z.land_spec.
  destruct (Z.testbit a n), (Z.testbit b n), (Z.testbit (Z.ones 32) n);
    reflexivity.
Qed.

(** Below 65536 octets the code computes the digest of the
    specification, whose block loop goes over the complete blocks: the
    only word that the unmasked fold makes wider than 32 bits is then the
    last one, and the first round reduces it. *)
Lemma custom_hash_v2_digest_below_65536 (input : list Z) :
  byte_list input ->
  Z.of_nat (length input) < 65536 ->
  custom_hash_v2 default_config input
  = Ok (MixerSpec.digest (HASH_IV default_config) input).
Proof.
  intros Hb Hlt. rewrite custom_hash_v2_blocks.
  unfold MixerSpec.digest, Py.len.
  change (HASH_IV default_config)
    with (1831565813, 461845907, 2246822507, 3266489909).
  cbv beta iota zeta.
  assert (Hn : 0 <= Z.of_nat (length input)) by lia.
  pose proof (Z_div_mod_eq_full (Z.of_nat (length input)) 8) as Hdiv.
  pose proof (Z.mod_pos_bound (Z.of_nat (length input)) 8 ltac:(lia)) as Hmod.
  destruct (Z.to_nat (Z.of_nat (length input) / 8)) as [| k] eqn:Hk.
  - assert (Hshort : (length input < 8)%nat) by lia.
    cbn [block_loop bind]. rewrite hash_final_default.
    rewrite blocks_short by exact Hshort.
    do 3 f_equal. unfold MixerSpec.fold_length.
    rewrite !Z.shiftl_mul_pow2 by lia.
    rewrite !mask32_lxor_small by lia. reflexivity.
  - assert (Hlen : (8 * S k <= length input < 8 * S k + 8)%nat) by lia.
    set (n := Z.of_nat (length input)) in *.
    do 8 (destruct input as [| ? input]; [cbn [length] in Hlen; lia |]).
    cbn [block_loop]. rewrite round_default.
    2:{ exact (byte_list_firstn 8 _ Hb). }
    cbn [bind skipn]. unfold MixerSpec.update at 1.
    rewrite block_loop_blocks.
    + cbn [bind]. rewrite hash_final_default. do 3 f_equal.
      unfold MixerSpec.fold_length. cbn [MixerSpec.blocks].
      rewrite !Z.shiftl_mul_pow2 by lia.
      rewrite !mask32_lxor_small by lia.
      unfold MixerSpec.update, MixerSpec.mask32, MixerSpec.word. reflexivity.
    + apply rotate_left32_range.
    + exact (byte_list_skipn 8 _ Hb).
    + cbn [length] in Hlen. lia.
Qed.

(** In particular on a length that is a multiple of 8. *)
Lemma custom_hash_v2_refines_digest (input : list Z) :
  byte_list input ->
  Z.of_nat (length input) mod 8 = 0 ->
  Z.of_nat (length input) < 65536 ->
  custom_hash_v2 default_config input
  = Ok (MixerSpec.digest (HASH_IV default_config) input).
Proof. intros Hb _ Hlt. now apply custom_hash_v2_digest_below_65536. Qed.

(** From 65536 octets on, the unmasked fold makes the third word wider
    than 32 bits, and the rotation of the first round carries its bit 32
    into bit 7 of the first word. *)
Lemma first_round_after_unmasked_fold :
  hash_round default_config (zeros 65536)
    (Z.lxor 1831565813 65536, Z.lxor 461845907 (Z.shiftl 65536 8),
     Z.lxor 2246822507 (Z.shiftl 65536 16),
     Z.lxor 3266489909 (Z.shiftl 65536 24)) 0
  = Ok (1624887284, 3474867945, 1085537446, 3929875361)
  /\ MixerSpec.update
       (MixerSpec.fold_length 65536 (HASH_IV default_config)) 0 0
     = (1624887156, 3474867945, 1084488870, 3929875361).
Proof. split; vm_compute; reflexivity. Qed.

(** C1. The digest mixer departs from the algorithm of the specification on
    an input whose length is a multiple of 8: on 65536 zero octets the
    code, which folds the length in without masking, returns another
    digest than the algorithm with each folded word masked to 32 bits. *)
Theorem custom_hash_v2_unmasked_length_fold :
  byte_list (zeros 65536)
  /\ Z.of_nat (length (zeros 65536)) mod 8 = 0
  /\ custom_hash_v2 default_config (zeros 65536)
     = Ok [189; 230; 63; 59; 249; 200; 200; 32;
           222; 18; 106; 250; 88; 185; 132; 25]
  /\ MixerSpec.digest (HASH_IV default_config) (zeros 65536)
     = [213; 17; 4; 163; 230; 211; 1; 250;
        100; 211; 99; 58; 255; 20; 154; 98].
Proof.
  split; [apply byte_list_repeat; lia |].
  split; [unfold zeros; rewrite repeat_length; reflexivity |].
  split; [rewrite custom_hash_v2_blocks |]; vm_compute; reflexivity.
Qed.

(** ** Inputs whose length is not a multiple of 8 *)

Lemma hash_round_head (config : CryptoConfig) (l : list Z)
    (st : Z * Z * Z * Z) :
  hash_round config l st 0 = hash_round config (firstn 8 l) st 0.
Proof.
  unfold hash_round, Py.slice. destruct st as [[[s0 s1] s2] s3].
  change (skipn (0 * 8) l) with l.
  change (skipn (0 * 8) (firstn 8 l)) with (firstn 8 l).
  replace ((0 + 1) * 8 - 0 * 8)%nat with 8%nat by lia.
  now rewrite firstn_firstn.
Qed.

(** The block loop reads the complete blocks only. *)
Lemma block_loop_prefix (config : CryptoConfig) (n : nat) (l t : list Z)
    (st : Z * Z * Z * Z) :
  (8 * n <= length l)%nat ->
  block_loop config n (firstn (8 * n) l ++ t) st = block_loop config n l st.
Proof.
  revert l st. induction n as [| n IH]; intros l st Hl; [reflexivity |].
  cbn [block_loop].
  rewrite (hash_round_head config (firstn (8 * S n) l ++ t)).
  rewrite (hash_round_head config l).
  rewrite firstn_app, firstn_firstn, length_firstn.
  replace (Nat.min 8 (8 * S n)) with 8%nat by lia.
  replace (8 - Nat.min (8 * S n) (length l))%nat with 0%nat by lia.
  rewrite firstn_O, app_nil_r.
  destruct (hash_round config (firstn 8 l) st 0) as [st' | e];
    cbn [bind]; [| reflexivity].
  rewrite skipn_app, length_firstn.
  replace (8 - Nat.min (8 * S n) (length l))%nat with 0%nat by lia.
  rewrite skipn_O.
  replace (skipn 8 (firstn (8 * S n) l)) with (firstn (8 * n) (skipn 8 l)).
  - apply IH. rewrite length_skipn. lia.
  - rewrite skipn_firstn_comm. f_equal. lia.
Qed.

(** The computation on the complete blocks with the length of the whole
    input is what the mixer computes. *)
Lemma custom_hash_v2_mix_with_length (config : CryptoConfig)
    (input : list Z) :
  custom_hash_v2 config input
  = mix_with_length config (Py.len input)
      (firstn (8 * (length input / 8)) input).
Proof.
  rewrite custom_hash_v2_blocks. unfold mix_with_length.
  destruct (HASH_IV config) as [[[s0 s1] s2] s3]. cbv zeta.
  pose proof (Nat.div_mod_eq (length input) 8) as Hdm.
  assert (Hn : Z.to_nat (Py.len input / 8) = (length input / 8)%nat).
  { unfold Py.len. change 8 with (Z.of_nat 8).
    rewrite <- (Nat2Z.inj_div (length input) 8). apply Nat2Z.id. }
  assert (Hb : (length (firstn (8 * (length input / 8)) input) / 8
                = length input / 8)%nat).
  { rewrite length_firstn, Nat.min_l by lia.
    rewrite Nat.mul_comm. apply Nat.div_mul. lia. }
  rewrite Hn, Hb.
  rewrite <- (block_loop_prefix config (length input / 8) input []) by lia.
  now rewrite app_nil_r.
Qed.

(** C4, as the code has it. On a list of octets whose length is not a
    multiple of 8 the mixer does not fail.  It returns 16 octets: those of
    its computation on the complete blocks, with the length of the whole
    input, and not that of the complete blocks, folded into the
    initialisation vector and entering the statements after the loop.  The
    octets after the last complete block are never read, so the result is
    the same whatever stands in their place, and no block is made of them
    by padding.  With the default configuration and below 65536 octets
    the result is the digest of the specification, whose block loop goes
    over the complete blocks. *)
Theorem custom_hash_v2_unaligned (config : CryptoConfig)
    (input tail : list Z) :
  byte_list input ->
  Z.of_nat (length input) mod 8 <> 0 ->
  length tail = (length input mod 8)%nat ->
  exists out,
    custom_hash_v2 config input = Ok out
    /\ length out = 16%nat
    /\ mix_with_length config (Py.len input)
         (firstn (8 * (length input / 8)) input) = Ok out
    /\ custom_hash_v2 config
         (firstn (8 * (length input / 8)) input ++ tail) = Ok out
    /\ (config = default_config -> Py.len input < 65536 ->
        out = MixerSpec.digest (HASH_IV default_config) input).
Proof.
  intros Hb _ Ht.
  destruct (custom_hash_v2_ok config input Hb) as (out & Hout & Hlen & _).
  exists out. split; [exact Hout |]. split; [exact Hlen |].
  pose proof (Nat.div_mod_eq (length input) 8) as Hdm.
  split; [now rewrite <- custom_hash_v2_mix_with_length |].
  split.
  - rewrite <- Hout. rewrite !custom_hash_v2_blocks.
    assert (Hl : Py.len (firstn (8 * (length input / 8)) input ++ tail)
                 = Py.len input).
    { unfold Py.len. rewrite length_app, length_firstn, Ht. lia. }
    rewrite Hl. destruct (HASH_IV config) as [[[s0 s1] s2] s3]. cbv zeta.
    assert (Hn : Z.to_nat (Py.len input / 8) = (length input / 8)%nat).
    { unfold Py.len. change 8 with (Z.of_nat 8).
      rewrite <- (Nat2Z.inj_div (length input) 8). apply Nat2Z.id. }
    rewrite Hn, block_loop_prefix by lia. reflexivity.
  - intros -> Hlt. unfold Py.len in Hlt.
    rewrite (custom_hash_v2_digest_below_65536 input Hb Hlt) in Hout.
    apply Ok_inj in Hout. now subst out.
Qed.

(** On three octets: the result differs from that on no octet, to which
    truncation would lead, and from that on the three octets followed by
    five zero octets, to which padding would lead. *)
Lemma custom_hash_v2_unaligned_witness :
  byte_list [1; 2; 3]
  /\ Z.of_nat (length [1; 2; 3]) mod 8 <> 0
  /\ length [7; 8; 9] = (length [1; 2; 3] mod 8)%nat
  /\ (exists out,
         custom_hash_v2 default_config [1; 2; 3] = Ok out
         /\ length out = 16%nat
         /\ mix_with_length default_config (Py.len [1; 2; 3])
              (firstn (8 * (length [1; 2; 3] / 8)) [1; 2; 3]) = Ok out
         /\ custom_hash_v2 default_config
              (firstn (8 * (length [1; 2; 3] / 8)) [1; 2; 3] ++ [7; 8; 9])
            = Ok out
         /\ (default_config = default_config -> Py.len [1; 2; 3] < 65536 ->
             out = MixerSpec.digest (HASH_IV default_config) [1; 2; 3]))
  /\ custom_hash_v2 default_config [1; 2; 3]
     <> custom_hash_v2 default_config []
  /\ custom_hash_v2 default_config [1; 2; 3]
     <> custom_hash_v2 default_config [1; 2; 3; 0; 0; 0; 0; 0].
Proof.
  assert (H1 : byte_list [1; 2; 3]) by (repeat constructor; lia).
  assert (H2 : Z.of_nat (length [1; 2; 3]) mod 8 <> 0)
    by (vm_compute; discriminate).
  assert (H3 : length [7; 8; 9] = (length [1; 2; 3] mod 8)%nat)
    by reflexivity.
  split; [exact H1 |]. split; [exact H2 |]. split; [exact H3 |].
  split.
  - exact (custom_hash_v2_unaligned default_config [1; 2; 3] [7; 8; 9]
             H1 H2 H3).
  - split; vm_compute; discriminate.
Defined.

(** C4, as stated, fails: three octets are accepted. *)
Lemma custom_hash_v2_accepts_three_octets :
  byte_list [1; 2; 3]
  /\ Z.of_nat (length [1; 2; 3]) mod 8 <> 0
  /\ custom_hash_v2 default_config [1; 2; 3]
     = Ok [4; 228; 151; 138; 232; 39; 205; 54;
           46; 221; 59; 190; 213; 206; 236; 137].
Proof.
  split; [repeat constructor; lia |].
  split; [vm_compute; discriminate | vm_compute; reflexivity].
Qed.

(** ** [extract_api_path] *)

Lemma find_from_range (c : Z) (s : Py.str) (i : Z) :
  0 <= i -> find_from c s i = -1 \/ i <= find_from c s i.
Proof.
  revert i. induction s as [| x t IH]; intros i Hi; cbn [find_from].
  - now left.
  - destruct (x =? c); [right; lia |].
    destruct (IH (i + 1)) as [H | H]; [lia | now left | right; lia].
Qed.

Lemma find_from_shift (c : Z) (s : Py.str) (i : Z) :
  0 <= i ->
  find_from c s (i + 1)
  = if find_from c s i =? -1 then -1 else find_from c s i + 1.
Proof.
  revert i. induction s as [| x t IH]; intros i Hi; cbn [find_from].
  - reflexivity.
  - destruct (x =? c).
    + destruct (i =? -1) eqn:E; [apply Z.eqb_eq in E; lia | reflexivity].
    + apply IH. lia.
Qed.

Lemma slice_to_cons {A : Type} (x : A) (t : list A) (m : Z) :
  0 <= m -> Py.slice_to (x :: t) (m + 1) = x :: Py.slice_to t m.
Proof.
  intros Hm. unfold Py.slice_to.
  destruct (m + 1 <? 0) eqn:E1; [apply Z.ltb_lt in E1; lia |].
  destruct (m <? 0) eqn:E2; [apply Z.ltb_lt in E2; lia |].
  replace (Z.to_nat (m + 1)) with (S (Z.to_nat m)) by lia. reflexivity.
Qed.

(** The three-way test of the code selects the prefix before the first
    delimiter. *)
Lemma extract_api_path_before_first (s : Py.str) :
  extract_api_path s = before_first is_delimiter s.
Proof.
  induction s as [| x t IH]; [reflexivity |].
  unfold extract_api_path, find in *. cbn [find_from before_first].
  rewrite !(find_from_shift _ t 0) by lia. unfold is_delimiter.
  pose proof (find_from_range brace t 0) as Hb.
  pose proof (find_from_range question t 0) as Hq.
  set (b := find_from brace t 0) in *. set (q := find_from question t 0) in *.
  assert (Hbq : brace <> question) by discriminate.
  revert IH.
  destruct (Z.eqb_spec x brace); destruct (Z.eqb_spec x question);
    destruct (Z.eqb_spec b (-1)); destruct (Z.eqb_spec q (-1));
    cbn [negb andb orb]; intros IH; try congruence;
    repeat match goal with
      | |- context [Z.eqb ?u ?v] => destruct (Z.eqb_spec u v); try lia
      end;
    cbn [negb andb orb];
    rewrite ?Z.add_min_distr_r, ?slice_to_cons by lia;
    try (f_equal; exact IH);
    try reflexivity;
    try (rewrite Z.min_l by lia; reflexivity);
    try (rewrite Z.min_r by lia; reflexivity).
Qed.

Lemma is_delimiter_false (c : Z) :
  is_delimiter c = false <-> c <> brace /\ c <> question.
Proof.
  unfold is_delimiter. rewrite orb_false_iff, !Z.eqb_neq. tauto.
Qed.

Lemma is_delimiter_true (c : Z) :
  is_delimiter c = true <-> c = brace \/ c = question.
Proof.
  unfold is_delimiter. rewrite orb_true_iff, !Z.eqb_eq. tauto.
Qed.

Lemma before_first_split (stop : Z -> bool) (s : Py.str) :
  exists rest,
    s = before_first stop s ++ rest
    /\ Forall (fun c => stop c = false) (before_first stop s)
    /\ (rest = [] \/ exists d r, rest = d :: r /\ stop d = true).
Proof.
  induction s as [| x t (rest & Hs & Hf & Hr)]; cbn [before_first].
  - exists []. repeat split; [constructor | now left].
  - destruct (stop x) eqn:E.
    + exists (x :: t). repeat split; [constructor | right; eauto].
    + exists rest. cbn [app]. rewrite <- Hs.
      repeat split; [now constructor | exact Hr].
Qed.

Lemma before_first_all (stop : Z -> bool) (s : Py.str) :
  Forall (fun c => stop c = false) s -> before_first stop s = s.
Proof.
  induction 1 as [| x t Hx Ht IH]; cbn [before_first]; [reflexivity |].
  now rewrite Hx, IH.
Qed.

(** C8. [extract_api_path] returns the part of its argument strictly
    before the first brace or question mark, whichever comes first: the
    argument is the result followed by a rest, the result holds neither
    character, and the rest is empty or begins with one of the two.  It
    returns the whole string when neither occurs, and the three examples
    hold. *)
Theorem extract_api_path_spec :
  (forall s : Py.str,
      exists rest,
        s = extract_api_path s ++ rest
        /\ Forall (fun c => c <> brace /\ c <> question) (extract_api_path s)
        /\ (rest = [] \/
            exists d r, rest = d :: r /\ (d = brace \/ d = question)))
  /\ (forall s : Py.str,
         ~ In brace s -> ~ In question s -> extract_api_path s = s)
  /\ extract_api_path homefeed_json = homefeed
  /\ extract_api_path homefeed_query = homefeed
  /\ extract_api_path homefeed = homefeed.
Proof.
  split; [| split; [| repeat split; vm_compute; reflexivity]].
  - intros s. rewrite extract_api_path_before_first.
    destruct (before_first_split is_delimiter s) as (rest & Hs & Hf & Hr).
    exists rest. split; [exact Hs |]. split.
    + eapply Forall_impl; [| exact Hf]. intros c. apply is_delimiter_false.
    + destruct Hr as [Hr | (d & r & Hr & Hd)]; [now left | right].
      exists d, r. split; [exact Hr | now apply is_delimiter_true].
  - intros s Hb Hq. rewrite extract_api_path_before_first.
    apply before_first_all. apply Forall_forall. intros c Hc.
    apply is_delimiter_false. split; intros ->; contradiction.
Qed.

(** ** The session manager *)

Lemma randint_total (a b : Z) (r : Py.rng) :
  a <= b ->
  exists v, Py.randint a b r = Ok (v, fun n => r (S n)) /\ a <= v <= b.
Proof.
  intros Hab. unfold Py.randint.
  destruct (b <? a) eqn:E; [apply Z.ltb_lt in E; lia |].
  eexists. split; [reflexivity |].
  pose proof (Z.mod_pos_bound (r O) (b - a + 1)). lia.
Qed.

Section SessionFacts.

Variable config : CryptoConfig.

Hypothesis sequence_step :
  0 <= SESSION_SEQUENCE_STEP_MIN config <= SESSION_SEQUENCE_STEP_MAX config.
Hypothesis window_props_step :
  0 < SESSION_WINDOW_PROPS_STEP_MIN config
    <= SESSION_WINDOW_PROPS_STEP_MAX config.

(** One update keeps the configuration and the page-load time and does
    not decrease a counter. *)
Lemma update_state_total (self : SessionManager.t) (r : Py.rng) :
  SessionManager._config self = config ->
  exists self' r',
    SessionManager.update_state self r = Ok (self', r')
    /\ SessionManager._config self' = config
    /\ SessionManager.page_load_timestamp self'
       = SessionManager.page_load_timestamp self
    /\ SessionManager.sequence_value self
       <= SessionManager.sequence_value self'
    /\ SessionManager.window_props_length self
       <= SessionManager.window_props_length self'.
Proof.
  intros Hc. unfold SessionManager.update_state.
  cbn [SessionManager._config]. rewrite Hc.
  destruct (randint_total _ _ r (proj2 sequence_step)) as (d1 & H1 & B1).
  rewrite H1. cbn [bind].
  destruct (randint_total _ _ (fun n => r (S n)) (proj2 window_props_step))
    as (d2 & H2 & B2).
  rewrite H2. cbn [bind].
  eexists. eexists. split; [reflexivity |].
  cbn [SessionManager._config SessionManager.page_load_timestamp
       SessionManager.sequence_value SessionManager.window_props_length].
  repeat split; lia.
Qed.

(** The snapshots of successive calls are in order, not below the
    counters of the object before the calls, with its page-load time. *)
Lemma successive_states_total (uris : list Py.str) :
  forall (self : SessionManager.t) (r : Py.rng),
    SessionManager._config self = config ->
    exists snaps self' r',
      SessionManager.successive_states self uris r = Ok (snaps, self', r')
      /\ length snaps = length uris
      /\ StronglySorted Z.le (map SignState.sequence_value snaps)
      /\ StronglySorted Z.le (map SignState.window_props_length snaps)
      /\ Forall (fun st =>
                   SessionManager.sequence_value self
                     <= SignState.sequence_value st
                   /\ SessionManager.window_props_length self
                     <= SignState.window_props_length st
                   /\ SignState.page_load_timestamp st
                      = SessionManager.page_load_timestamp self) snaps.
Proof.
  induction uris as [| uri rest IH]; intros self r Hc;
    cbn [SessionManager.successive_states].
  - exists [], self, r. repeat split; constructor.
  - unfold SessionManager.get_current_state.
    destruct (update_state_total self r Hc)
      as (self1 & r1 & H1 & Hc1 & Hp1 & Hs1 & Hw1).
    rewrite H1. cbn [bind].
    destruct (IH self1 r1 Hc1) as (snaps & self2 & r2 & H2 & Hl & Ss & Sw & Hf).
    rewrite H2. cbn [bind].
    eexists. eexists. eexists. split; [reflexivity |].
    cbn [map length SignState.sequence_value SignState.window_props_length
         SignState.page_load_timestamp].
    split; [now rewrite Hl |].
    split; [| split].
    + constructor; [exact Ss |]. apply Forall_map.
      eapply Forall_impl; [| exact Hf]. cbv beta. intros st H. tauto.
    + constructor; [exact Sw |]. apply Forall_map.
      eapply Forall_impl; [| exact Hf]. cbv beta. intros st H. tauto.
    + constructor.
      * cbn [SignState.sequence_value SignState.window_props_length
             SignState.page_load_timestamp]. lia.
      * eapply Forall_impl; [| exact Hf]. cbv beta. intros st H. lia.
Qed.

End SessionFacts.

(** C5. With inclusive ranges for the initial values, a sequence step
    range whose minimum is not negative and a window-props step range whose
    minimum is positive, a session manager is constructed, any number of
    successive [get_current_state] calls on it return, and the snapshots
    have non-decreasing [sequence_value] and [window_props_length] in call
    order and all carry the page-load time fixed at construction. *)
Theorem session_monotonicity (config : CryptoConfig) (now_ms : Z)
    (r : Py.rng) (uris : list Py.str) :
  SESSION_SEQUENCE_INIT_MIN config <= SESSION_SEQUENCE_INIT_MAX config ->
  SESSION_WINDOW_PROPS_INIT_MIN config
    <= SESSION_WINDOW_PROPS_INIT_MAX config ->
  0 <= SESSION_SEQUENCE_STEP_MIN config <= SESSION_SEQUENCE_STEP_MAX config ->
  0 < SESSION_WINDOW_PROPS_STEP_MIN config
    <= SESSION_WINDOW_PROPS_STEP_MAX config ->
  exists sm r1 snaps sm' r2,
    SessionManager.init config now_ms r = Ok (sm, r1)
    /\ SessionManager.successive_states sm uris r1 = Ok (snaps, sm', r2)
    /\ length snaps = length uris
    /\ StronglySorted Z.le (map SignState.sequence_value snaps)
    /\ StronglySorted Z.le (map SignState.window_props_length snaps)
    /\ Forall (fun st => SignState.page_load_timestamp st = now_ms) snaps.
Proof.
  intros Hsi Hwi Hs Hw. unfold SessionManager.init.
  destruct (randint_total _ _ r Hsi) as (s0 & H1 & _). rewrite H1. cbn [bind].
  destruct (randint_total _ _ (fun n => r (S n)) Hwi) as (w0 & H2 & _).
  rewrite H2. cbn [bind].
  set (sm := {| SessionManager._config := config;
                SessionManager.page_load_timestamp := now_ms;
                SessionManager.sequence_value := s0;
                SessionManager.window_props_length := w0 |}).
  destruct (successive_states_total config Hs Hw uris sm
              (fun n => r (S (S n))) eq_refl)
    as (snaps & sm' & r2 & H & Hl & Ss & Sw & Hf).
  exists sm, (fun n => r (S (S n))), snaps, sm', r2.
  repeat (split; [assumption || reflexivity |]).
  eapply Forall_impl; [| exact Hf]. cbv beta. intros st Hst. tauto.
Qed.

Lemma session_monotonicity_witness :
  SESSION_SEQUENCE_INIT_MIN default_config
    <= SESSION_SEQUENCE_INIT_MAX default_config
  /\ SESSION_WINDOW_PROPS_INIT_MIN default_config
      <= SESSION_WINDOW_PROPS_INIT_MAX default_config
  /\ 0 <= SESSION_SEQUENCE_STEP_MIN default_config
        <= SESSION_SEQUENCE_STEP_MAX default_config
  /\ 0 < SESSION_WINDOW_PROPS_STEP_MIN default_config
        <= SESSION_WINDOW_PROPS_STEP_MAX default_config
  /\ exists sm r1 snaps sm' r2,
       SessionManager.init default_config 1700000000000
         (fun n => Z.of_nat n * 7 + 3) = Ok (sm, r1)
       /\ SessionManager.successive_states sm
            [homefeed_json; homefeed_query; homefeed] r1
          = Ok (snaps, sm', r2)
       /\ length snaps = length [homefeed_json; homefeed_query; homefeed]
       /\ StronglySorted Z.le (map SignState.sequence_value snaps)
       /\ StronglySorted Z.le (map SignState.window_props_length snaps)
       /\ Forall (fun st => SignState.page_load_timestamp st = 1700000000000)
            snaps.
Proof.
  assert (H1 : SESSION_SEQUENCE_INIT_MIN default_config
               <= SESSION_SEQUENCE_INIT_MAX default_config)
    by (vm_compute; discriminate).
  assert (H2 : SESSION_WINDOW_PROPS_INIT_MIN default_config
               <= SESSION_WINDOW_PROPS_INIT_MAX default_config)
    by (vm_compute; discriminate).
  assert (H3 : 0 <= SESSION_SEQUENCE_STEP_MIN default_config
               <= SESSION_SEQUENCE_STEP_MAX default_config)
    by (split; vm_compute; discriminate).
  assert (H4 : 0 < SESSION_WINDOW_PROPS_STEP_MIN default_config
               <= SESSION_WINDOW_PROPS_STEP_MAX default_config)
    by (split; [reflexivity | vm_compute; discriminate]).
  repeat (split; [assumption |]).
  exact (session_monotonicity default_config 1700000000000
           (fun n => Z.of_nat n * 7 + 3)
           [homefeed_json; homefeed_query; homefeed] H1 H2 H3 H4).
Defined.

(** ** Comprehensions over indices *)

Lemma skipn_nth_error {A : Type} (l : list A) (k : nat) (x : A) :
  nth_error l k = Some x -> skipn k l = x :: skipn (S k) l.
Proof.
  revert k. induction l as [| y t IH]; intros [| k] H; try discriminate.
  - cbn in H. now injection H as ->.
  - cbn [nth_error] in H. cbn [skipn]. now apply IH.
Qed.

Lemma mapM_index_ok {A B : Type} (f : A -> B) (l : list A) (k n : nat) :
  (k + n <= length l)%nat ->
  mapM (fun i => b <- Py.index l i ;; Ok (f b)) (seq k n)
  = Ok (map f (firstn n (skipn k l))).
Proof.
  revert k. induction n as [| n IH]; intros k Hk; [reflexivity |].
  cbn [seq mapM]. unfold Py.index at 1.
  destruct (nth_error l k) as [x |] eqn:E.
  - cbn [bind]. rewrite IH by lia. cbn [bind].
    now rewrite (skipn_nth_error l k x E).
  - apply nth_error_None in E. lia.
Qed.

Lemma mapM_index_short {A B : Type} (f : A -> B) (l : list A) (k n : nat) :
  (k <= length l < k + n)%nat ->
  mapM (fun i => b <- Py.index l i ;; Ok (f b)) (seq k n) = Raise IndexError.
Proof.
  revert k. induction n as [| n IH]; intros k Hk; [lia |].
  cbn [seq mapM]. unfold Py.index at 1.
  destruct (nth_error l k) as [x |] eqn:E.
  - cbn [bind]. rewrite IH; [reflexivity |].
    assert (k < length l)%nat by (apply nth_error_Some; congruence). lia.
  - reflexivity.
Qed.

(** ** UTF-8 encoding *)

Lemma encode_char_scalar (c : Z) :
  scalar_value c -> exists b, Py.encode_char c = Ok b.
Proof.
  intros Hc. unfold Py.encode_char.
  destruct (Z.ltb_spec c 0); [unfold scalar_value in Hc; lia |].
  destruct (Z.ltb_spec c 0x80); [eauto |].
  destruct (Z.ltb_spec c 0x800); [eauto |].
  destruct (Z.ltb_spec c 0x10000).
  - destruct (Z.leb_spec 0xD800 c); destruct (Z.leb_spec c 0xDFFF);
      cbn [andb]; eauto.
    unfold scalar_value in Hc. lia.
  - destruct (Z.ltb_spec c 0x110000); [eauto |].
    unfold scalar_value in Hc. lia.
Qed.

Lemma encode_utf8_well_formed (s : Py.str) :
  well_formed s -> exists b, Py.encode_utf8 s = Ok b.
Proof.
  induction 1 as [| c t Hc Ht (r & Hr)]; cbn [Py.encode_utf8]; [eauto |].
  destruct (encode_char_scalar c Hc) as (b & Hb).
  rewrite Hb, Hr. cbn [bind]. eauto.
Qed.



(** ** Hexadecimal strings *)

Lemma digit_not_space (c : Z) :
  Py.digit_value c <> None -> Py.is_space c = false.
Proof.
  unfold Py.digit_value, Py.is_space. intros H.
  destruct (Z.eqb_spec c 32) as [-> | _]; [now contradiction H |].
  destruct (Z.leb_spec 9 c); destruct (Z.leb_spec c 13); cbn [orb andb];
    try reflexivity.
  exfalso. apply H.
  destruct (Z.leb_spec 48 c); [lia |]. cbn [andb].
  destruct (Z.leb_spec 97 c); [lia |]. cbn [andb].
  destruct (Z.leb_spec 65 c); [lia |]. reflexivity.
Qed.


(** A character that is neither a digit nor white space makes [fromhex]
    raise [ValueError]. *)
Lemma fromhex_non_hex (n : nat) :
  forall s : Py.str,
    (length s <= n)%nat -> has_non_hex s -> Py.fromhex s = Raise ValueError.
Proof.
  induction n as [| n IH]; intros s Hl (x & Hin & Hd & Hsp).
  - destruct s; [contradiction | cbn [length] in Hl; lia].
  - destruct s as [| c t]; [contradiction |]. cbn [Py.fromhex].
    destruct (Py.is_space c) eqn:Ec.
    + apply IH; [cbn [length] in Hl; lia |].
      destruct Hin as [-> | Hin]; [congruence |]. now exists x.
    + destruct (Py.digit_value c) as [top |] eqn:Etop; [| reflexivity].
      destruct t as [| d t']; [reflexivity |].
      destruct (Py.digit_value d) as [bot |] eqn:Ebot; [| reflexivity].
      rewrite IH; [reflexivity | cbn [length] in Hl; lia |].
      destruct Hin as [-> | [-> | Hin]]; try congruence. now exists x.
Qed.

(** [fromhex] raises nothing but [ValueError]. *)
Lemma fromhex_raises (n : nat) :
  forall (s : Py.str) (e : exn),
    (length s <= n)%nat -> Py.fromhex s = Raise e -> e = ValueError.
Proof.
  induction n as [| n IH]; intros s e Hl H.
  - destruct s; [discriminate | cbn [length] in Hl; lia].
  - destruct s as [| c t]; [discriminate |]. cbn [Py.fromhex] in H.
    destruct (Py.is_space c).
    + apply (IH t); [cbn [length] in Hl; lia | exact H].
    + destruct (Py.digit_value c); [| congruence].
      destruct t as [| d t']; [congruence |].
      destruct (Py.digit_value d); [| congruence].
      destruct (Py.fromhex t') as [r | e'] eqn:E; [discriminate |].
      cbn [bind] in H. injection H as <-.
      apply (IH t'); [cbn [length] in Hl; lia | exact E].
Qed.

(** ** The MD5 digest and its hexadecimal form *)

Lemma md5_le_bytes_bytes (n : nat) (x : Z) : byte_list (Py.md5.le_bytes n x).
Proof.
  revert x. induction n as [| n IH]; intros x; cbn [Py.md5.le_bytes];
    constructor; [| apply IH].
  change 255 with (Z.ones 8). rewrite Z.land_ones by lia.
  change (2 ^ 8) with 256. apply Z.mod_pos_bound. lia.
Qed.

Lemma md5_digest_length (msg : Py.bytes) : length (Py.md5.digest msg) = 16%nat.
Proof.
  unfold Py.md5.digest. cbv zeta.
  destruct (Py.md5.blocks _ _ _) as [[[a b] c] d]. reflexivity.
Qed.

Lemma md5_digest_bytes (msg : Py.bytes) : byte_list (Py.md5.digest msg).
Proof.
  unfold Py.md5.digest. cbv zeta.
  destruct (Py.md5.blocks _ _ _) as [[[a b] c] d].
  repeat (apply byte_list_app; [apply md5_le_bytes_bytes |]).
  apply md5_le_bytes_bytes.
Qed.

Lemma digit_value_hex_char (d : Z) :
  0 <= d < 16 -> Py.digit_value (Py.md5.hex_char d) = Some d.
Proof.
  intros Hd. unfold Py.md5.hex_char, Py.digit_value.
  destruct (Z.ltb_spec d 10).
  - destruct (Z.leb_spec 48 (48 + d)); [| lia].
    destruct (Z.leb_spec (48 + d) 57); [| lia]. cbn [andb]. f_equal. lia.
  - destruct (Z.leb_spec 48 (87 + d)); [| lia].
    destruct (Z.leb_spec (87 + d) 57); [lia |]. cbn [andb].
    destruct (Z.leb_spec 97 (87 + d)); [| lia].
    destruct (Z.leb_spec (87 + d) 102); [| lia]. cbn [andb]. f_equal. lia.
Qed.

Lemma int16_hex_pair (x : Z) :
  0 <= x < 256 ->
  Py.int16 [Py.md5.hex_char (x / 16); Py.md5.hex_char (x mod 16)] = Ok x.
Proof.
  intros Hx. unfold Py.int16. cbn [Py.hex_value].
  assert (0 <= x / 16 < 16).
  { split; [apply Z.div_pos; lia | apply Z.div_lt_upper_bound; lia]. }
  pose proof (Z.mod_pos_bound x 16).
  rewrite !digit_value_hex_char by lia.
  f_equal. pose proof (Z_div_mod_eq_full x 16). lia.
Qed.

(** Reading the hexadecimal digest back pair by pair gives the octets of
    the digest. *)
Lemma hexdigest_pairs (msg : Py.bytes) :
  mapM (fun i => Py.int16 (Py.slice (Py.md5.hexdigest msg) i (i + 2)))
    (Py.range3 0 32 2)
  = Ok (Py.md5.digest msg).
Proof.
  unfold Py.md5.hexdigest.
  pose proof (md5_digest_length msg) as Hl.
  pose proof (md5_digest_bytes msg) as Hb.
  destruct (Py.md5.digest msg) as [| x0 d]; [discriminate |].
  do 15 (destruct d as [| ? d]; [discriminate |]).
  destruct d; [| discriminate]. clear Hl.
  change (Py.range3 0 32 2)
    with [0; 2; 4; 6; 8; 10; 12; 14; 16; 18; 20; 22; 24; 26; 28; 30]%nat.
  unfold byte_list in Hb.
  repeat match goal with
         | H : Forall _ (_ :: _) |- _ => inversion H; clear H; subst
         end.
  cbn [mapM Py.slice Nat.add Nat.sub firstn skipn flat_map app].
  rewrite !int16_hex_pair by assumption. reflexivity.
Qed.

(** ** The payload that the builder returns *)

Lemma ljust_firstn_length (e : list Z) (n : nat) :
  length (Py.ljust (firstn n e) (Z.of_nat n) 0) = n.
Proof.
  unfold Py.ljust, Py.len. rewrite length_app, repeat_length, length_firstn.
  lia.
Qed.

Section Builder.

Variables (random_gen : RandomGenerator)
          (hex_parameter a1_value app_identifier string_param : Py.str)
          (timestamp : Py.float) (sign_state : option SignState.t).

Let seed := generate_random_int random_gen.

(** When every fallible step succeeds, the builder returns the layout. *)
Lemma build_payload_array_layout
    (md5_bytes a1_encoded app_encoded path_bytes : list Z) (ts_ms t2 n : Z) :
  millis timestamp = Ok ts_ms ->
  secondary_millis_of random_gen timestamp sign_state = Ok t2 ->
  uri_length_of sign_state string_param = Ok n ->
  Py.fromhex hex_parameter = Ok md5_bytes ->
  (8 <= length md5_bytes)%nat ->
  Py.encode_utf8 a1_value = Ok a1_encoded ->
  Py.encode_utf8 app_identifier = Ok app_encoded ->
  Py.encode_utf8 (extract_api_path string_param) = Ok path_bytes ->
  exists h,
    custom_hash_v2 default_config
      (int_to_le_bytes ts_ms 8 ++ Py.md5.digest path_bytes)
    = Ok h
    /\ length h = 16%nat
    /\ build_payload_array default_config random_gen hex_parameter
         a1_value app_identifier string_param timestamp sign_state
       = Ok (payload_layout seed ts_ms
               (context_fields random_gen t2 sign_state n)
               md5_bytes a1_encoded app_encoded h).
Proof.
  intros Hts Ht2 Hn Hhex Hlen Ha1 Happ Hpath.
  destruct (custom_hash_v2_ok default_config
              (int_to_le_bytes ts_ms 8 ++ Py.md5.digest path_bytes))
    as (h & Hh & Hhl & _).
  { apply byte_list_app;
      [apply int_to_le_bytes_bytes | apply md5_digest_bytes]. }
  exists h. split; [exact Hh |]. split; [exact Hhl |].
  unfold build_payload_array. cbv zeta.
  change (TIMESTAMP_LE_LENGTH default_config) with 8.
  change (MD5_XOR_LENGTH default_config) with 8.
  change (A1_LENGTH default_config) with 52.
  change (APP_ID_LENGTH default_config) with 10.
  change (VERSION_BYTES default_config) with [121; 104; 96; 41].
  change (A3_PREFIX default_config) with [2; 97; 51; 16].
  fold seed. rewrite Hts. cbn [bind].
  unfold secondary_millis_of, uri_length_of, context_fields in *.
  destruct sign_state as [st |];
    [ injection Ht2 as <-; injection Hn as <-
    | rewrite Ht2; cbn [bind];
      destruct (Py.encode_utf8 string_param) as [enc |];
      [cbn [bind] in Hn; injection Hn as <- | discriminate] ];
    cbn [bind]; rewrite Hhex; cbn [bind];
    unfold Py.range; change (Z.to_nat 8) with 8%nat;
    rewrite (mapM_index_ok (fun b => Z.lxor b (Z.land seed 255))
               md5_bytes 0 8) by lia;
    change (skipn 0 md5_bytes) with md5_bytes;
    cbn [bind]; rewrite Ha1; cbn [bind]; rewrite Happ;
    cbn [bind Py.index nth_error default_config ENV_TABLE
         ENV_CHECKS_DEFAULT mapM Py.range2 Nat.sub seq];
    rewrite Hpath; cbn [bind]; rewrite hexdigest_pairs; cbn [bind];
    rewrite Hh; cbn [bind];
    unfold payload_layout, xor_with, env_block; cbv zeta;
    unfold Py.slice_to; change (52 <? 0) with false;
    change (10 <? 0) with false; cbv iota;
    change (Z.to_nat 52) with 52%nat; change (Z.to_nat 10) with 10%nat;
    change (Py.len (Py.ljust (firstn 52 a1_encoded) 52 0))
      with (Z.of_nat
              (length (Py.ljust (firstn 52 a1_encoded) (Z.of_nat 52) 0)));
    change (Py.len (Py.ljust (firstn 10 app_encoded) 10 0))
      with (Z.of_nat
              (length (Py.ljust (firstn 10 app_encoded) (Z.of_nat 10) 0)));
    rewrite !ljust_firstn_length;
    change (Z.of_nat 52) with 52; change (Z.of_nat 10) with 10;
    rewrite <- !app_assoc; reflexivity.
Qed.

End Builder.

(** The builder returns only when every fallible step succeeds, and then
    returns the layout. *)
Lemma build_payload_array_inv (random_gen : RandomGenerator)
    (hex_parameter a1_value app_identifier string_param : Py.str)
    (timestamp : Py.float) (sign_state : option SignState.t)
    (payload : list Z) :
  build_payload_array default_config random_gen hex_parameter a1_value
    app_identifier string_param timestamp sign_state = Ok payload ->
  exists ts_ms t2 n md5_bytes a1_encoded app_encoded path_bytes h,
    millis timestamp = Ok ts_ms
    /\ secondary_millis_of random_gen timestamp sign_state = Ok t2
    /\ uri_length_of sign_state string_param = Ok n
    /\ Py.fromhex hex_parameter = Ok md5_bytes
    /\ (8 <= length md5_bytes)%nat
    /\ Py.encode_utf8 a1_value = Ok a1_encoded
    /\ Py.encode_utf8 app_identifier = Ok app_encoded
    /\ Py.encode_utf8 (extract_api_path string_param) = Ok path_bytes
    /\ custom_hash_v2 default_config
         (int_to_le_bytes ts_ms 8 ++ Py.md5.digest path_bytes)
       = Ok h
    /\ length h = 16%nat
    /\ payload
        = payload_layout (generate_random_int random_gen) ts_ms
            (context_fields random_gen t2 sign_state n)
            md5_bytes a1_encoded app_encoded h.
Proof.
  intros H0. pose proof H0 as H.
  unfold build_payload_array in H. cbv zeta in H.
  change (MD5_XOR_LENGTH default_config) with 8 in H.
  set (seed := generate_random_int random_gen) in *.
  destruct (millis timestamp) as [ts_ms |] eqn:Ets;
    [| cbn [bind] in H; discriminate H].
  cbn [bind] in H.
  assert (Hctx : exists t2 n,
             secondary_millis_of random_gen timestamp sign_state = Ok t2
             /\ uri_length_of sign_state string_param = Ok n).
  { unfold secondary_millis_of, uri_length_of.
    destruct sign_state as [st |]; [eauto |].
    destruct (millis_before timestamp (draw_time_offset random_gen))
      as [t2 |]; [| cbn [bind] in H; discriminate H].
    cbn [bind] in H.
    destruct (Py.encode_utf8 string_param);
      [cbn [bind]; eauto | cbn [bind] in H; discriminate H]. }
  destruct Hctx as (t2 & n & Ht2 & Hn).
  destruct sign_state as [st |];
    [| pose proof Ht2 as Ht2'; cbn [secondary_millis_of] in Ht2';
       rewrite Ht2' in H; clear Ht2';
       cbn [bind] in H;
       destruct (Py.encode_utf8 string_param) as [enc |] eqn:Eenc;
       [| cbn [bind] in H; discriminate H] ];
    cbn [bind] in H;
    (destruct (Py.fromhex hex_parameter) as [md5_bytes |] eqn:Ehex;
       [| discriminate H]);
    cbn [bind] in H; unfold Py.range in H;
    change (Z.to_nat 8) with 8%nat in H;
    (destruct (le_lt_dec 8 (length md5_bytes)) as [Hlen | Hlen];
       [| rewrite mapM_index_short in H by lia; discriminate H]);
    rewrite (mapM_index_ok (fun b => Z.lxor b (Z.land seed 255))
               md5_bytes 0 8) in H by lia;
    cbn [bind] in H;
    (destruct (Py.encode_utf8 a1_value) as [a1_encoded |] eqn:Ea1;
       [| discriminate H]);
    cbn [bind] in H;
    (destruct (Py.encode_utf8 app_identifier) as [app_encoded |] eqn:Eapp;
       [| discriminate H]);
    cbn [bind Py.index nth_error default_config ENV_TABLE
         ENV_CHECKS_DEFAULT mapM Py.range2 Nat.sub seq] in H;
    (destruct (Py.encode_utf8 (extract_api_path string_param))
       as [path_bytes |] eqn:Epath; [| discriminate H]);
    clear H;
    destruct (build_payload_array_layout random_gen hex_parameter
                a1_value app_identifier string_param timestamp _ md5_bytes
                a1_encoded app_encoded
                path_bytes ts_ms t2 n Ets Ht2 Hn Ehex Hlen Ea1 Eapp Epath)
      as (h & Hh & Hhl & Hb);
    rewrite Hb in H0; apply Ok_inj in H0; subst payload;
    exists ts_ms, t2, n, md5_bytes, a1_encoded, app_encoded, path_bytes, h;
    repeat (split; [assumption || reflexivity |]); reflexivity.
Qed.

(** ** Offsets in the layout *)

Lemma slice_app2 {A : Type} (l1 l2 : list A) (n a b : nat) :
  length l1 = n -> (n <= a)%nat ->
  Py.slice (l1 ++ l2) a b = Py.slice l2 (a - n) (b - n).
Proof.
  intros Hn Ha. unfold Py.slice. rewrite skipn_app, Hn.
  rewrite skipn_all2 by lia. cbn [app]. f_equal. lia.
Qed.

Lemma slice_app1 {A : Type} (l1 l2 : list A) (n : nat) :
  length l1 = n -> Py.slice (l1 ++ l2) 0 n = l1.
Proof.
  intros Hn. unfold Py.slice. cbn [skipn]. rewrite Nat.sub_0_r.
  rewrite firstn_app, Hn, Nat.sub_diag, firstn_O, app_nil_r.
  apply firstn_all2. lia.
Qed.

Lemma nth_error_skip {A : Type} (l1 l2 : list A) (n k : nat) :
  length l1 = n -> (n <= k)%nat ->
  nth_error (l1 ++ l2) k = nth_error l2 (k - n).
Proof. intros <- Hk. now apply nth_error_app2. Qed.

Lemma int_to_le_bytes_4 (v : Z) : length (int_to_le_bytes v 4) = 4%nat.
Proof. apply le_loop_length. Qed.

Lemma int_to_le_bytes_8 (v : Z) : length (int_to_le_bytes v 8) = 8%nat.
Proof. apply le_loop_length. Qed.

Lemma context_fields_length (random_gen : RandomGenerator)
    (t2 : Z) (sign_state : option SignState.t) (n : Z) :
  length (context_fields random_gen t2 sign_state n) = 20%nat.
Proof.
  unfold context_fields.
  destruct sign_state; rewrite !length_app, int_to_le_bytes_8,
    !int_to_le_bytes_4; reflexivity.
Qed.

Lemma xor_with_length (seed_byte : Z) (l : list Z) :
  length (xor_with seed_byte l) = length l.
Proof. apply length_map. Qed.

Lemma xor_with_firstn_8 (seed_byte : Z) (l : list Z) :
  (8 <= length l)%nat -> length (xor_with seed_byte (firstn 8 l)) = 8%nat.
Proof. intros H. rewrite xor_with_length, length_firstn. lia. Qed.

Lemma ljust_52 (e : list Z) : length (Py.ljust (firstn 52 e) 52 0) = 52%nat.
Proof. exact (ljust_firstn_length e 52). Qed.

Lemma ljust_10 (e : list Z) : length (Py.ljust (firstn 10 e) 10 0) = 10%nat.
Proof. exact (ljust_firstn_length e 10). Qed.

Lemma env_block_length (seed_byte : Z) : length (env_block seed_byte) = 16%nat.
Proof. reflexivity. Qed.

Lemma payload_layout_length (seed ts_ms : Z)
    (fields md5_bytes a1_encoded app_encoded h : list Z) :
  length fields = 20%nat -> (8 <= length md5_bytes)%nat ->
  length h = 16%nat ->
  length (payload_layout seed ts_ms fields md5_bytes a1_encoded app_encoded h)
  = 144%nat.
Proof.
  intros Hf Hm Hh. unfold payload_layout. cbv zeta.
  rewrite !length_app, int_to_le_bytes_4, int_to_le_bytes_8, Hf,
    (xor_with_firstn_8 _ _ Hm), ljust_52, ljust_10, env_block_length,
    xor_with_length, Hh.
  reflexivity.
Qed.

(** Step past the leading segment of a layout when looking up an index or
    taking a slice behind it. *)
Ltac segment_length :=
  first [ apply int_to_le_bytes_4 | apply int_to_le_bytes_8
        | apply context_fields_length | apply ljust_52 | apply ljust_10
        | apply env_block_length
        | apply xor_with_firstn_8; assumption
        | reflexivity ].

Ltac skip_segment n :=
  first [ rewrite (nth_error_skip _ _ n) by (segment_length || lia)
        | rewrite (slice_app2 _ _ n) by (segment_length || lia) ];
  cbn [Nat.sub].

(** ** The claims about the payload *)

(** *** The conversions of the timestamp *)



(** *** Strings that have an encoding *)




(** C10. In every payload that the builder returns, the octet at offset 44
    is 52 and the octet at offset 97 is 10, whatever the identity and the
    application identifier are. *)
Theorem length_prefixes_constant (random_gen : RandomGenerator)
    (hex_parameter a1_value app_identifier string_param : Py.str)
    (timestamp : Py.float) (sign_state : option SignState.t)
    (payload : list Z) :
  build_payload_array default_config random_gen hex_parameter a1_value
    app_identifier string_param timestamp sign_state = Ok payload ->
  nth_error payload 44 = Some 52 /\ nth_error payload 97 = Some 10.
Proof.
  intros H.
  destruct (build_payload_array_inv _ _ _ _ _ _ _ _ H)
    as (ts & t2 & n & mb & a1e & appe & pb & h
        & _ & _ & _ & _ & Hlen & _ & _ & _ & _ & _ & ->).
  unfold payload_layout. cbv zeta. split.
  - skip_segment 4%nat. skip_segment 4%nat. skip_segment 8%nat.
    skip_segment 20%nat. skip_segment 8%nat. reflexivity.
  - skip_segment 4%nat. skip_segment 4%nat. skip_segment 8%nat.
    skip_segment 20%nat. skip_segment 8%nat. skip_segment 1%nat.
    skip_segment 52%nat. reflexivity.
Qed.

Lemma slice_all {A : Type} (l : list A) (n : nat) :
  length l = n -> Py.slice l 0 n = l.
Proof.
  intros <-. unfold Py.slice. cbn [skipn]. rewrite Nat.sub_0_r.
  apply firstn_all.
Qed.

(** Decoding the little-endian octets of a value gives the value modulo
    the width. *)
Lemma from_le_le_loop (n : nat) (v : Z) :
  Py.from_le (le_loop n v) = v mod 2 ^ (8 * Z.of_nat n).
Proof.
  revert v. induction n as [| n IH]; intros v.
  - cbn [le_loop Py.from_le]. change (2 ^ (8 * Z.of_nat 0)) with 1.
    now rewrite Z.mod_1_r.
  - cbn [le_loop Py.from_le]. rewrite IH.
    change 255 with (Z.ones 8). rewrite Z.land_ones by lia.
    rewrite Z.shiftr_div_pow2 by lia.
    replace (8 * Z.of_nat (S n)) with (8 + 8 * Z.of_nat n) by lia.
    rewrite Z.pow_add_r by lia.
    rewrite (Z.rem_mul_r v (2 ^ 8) (2 ^ (8 * Z.of_nat n))) by lia.
    reflexivity.
Qed.



(** C7. In every payload that the builder returns, the octets at offsets 4
    to 7 are the little-endian seed, the octet at offset 4 is its low
    octet, and this octet is the one that the eight decoded digest octets
    at offsets 36 to 43 and the sixteen mixer octets at offsets 128 to 143
    are XORed with: all come from the one seed drawn. *)
Theorem seed_consistency (random_gen : RandomGenerator)
    (hex_parameter a1_value app_identifier string_param : Py.str)
    (timestamp : Py.float) (sign_state : option SignState.t)
    (payload : list Z) :
  build_payload_array default_config random_gen hex_parameter a1_value
    app_identifier string_param timestamp sign_state = Ok payload ->
  exists seed_byte ts_ms md5_bytes path_bytes h,
    Py.slice payload 4 8
    = int_to_le_bytes (generate_random_int random_gen) 4
    /\ nth_error payload 4 = Some seed_byte
    /\ seed_byte = Z.land (generate_random_int random_gen) 0xFF
    /\ Py.fromhex hex_parameter = Ok md5_bytes
    /\ Py.slice payload 36 44 = xor_with seed_byte (firstn 8 md5_bytes)
    /\ Py.encode_utf8 (extract_api_path string_param) = Ok path_bytes
    /\ millis timestamp = Ok ts_ms
    /\ custom_hash_v2 default_config
         (int_to_le_bytes ts_ms 8 ++ Py.md5.digest path_bytes)
       = Ok h
    /\ Py.slice payload 128 144 = xor_with seed_byte h.
Proof.
  intros H.
  destruct (build_payload_array_inv _ _ _ _ _ _ _ _ H)
    as (ts & t2 & n & mb & a1e & appe & pb & h
        & Hts & _ & _ & Hmb & Hlen & _ & _ & Hpb & Hh & Hhl & ->).
  exists (Z.land (generate_random_int random_gen) 0xFF), ts, mb, pb, h.
  unfold payload_layout. cbv zeta.
  split; [| split; [| split; [reflexivity |]]].
  - skip_segment 4%nat. now rewrite (slice_app1 _ _ 4) by segment_length.
  - skip_segment 4%nat. reflexivity.
  - split; [exact Hmb |].
    split; [| split; [exact Hpb |]; split; [exact Hts |]; split; [exact Hh |]].
    + skip_segment 4%nat. skip_segment 4%nat. skip_segment 8%nat.
      skip_segment 20%nat.
      now rewrite (slice_app1 _ _ 8) by segment_length.
    + skip_segment 4%nat. skip_segment 4%nat. skip_segment 8%nat.
      skip_segment 20%nat. skip_segment 8%nat. skip_segment 1%nat.
      skip_segment 52%nat. skip_segment 1%nat. skip_segment 10%nat.
      skip_segment 16%nat. skip_segment 4%nat.
      apply slice_all. now rewrite xor_with_length.
Qed.


(** ** Malformed digest strings *)

(** A string of hexadecimal digits is decoded when their number is even,
    and refused when it is odd. *)
Lemma fromhex_digits (n : nat) :
  forall s : Py.str,
    (length s <= n)%nat -> hex_digits s ->
    if Nat.even (length s)
    then exists b, Py.fromhex s = Ok b /\ length s = (2 * length b)%nat
    else Py.fromhex s = Raise ValueError.
Proof.
  induction n as [| n IH]; intros s Hl Hs.
  - destruct s; [| cbn [length] in Hl; lia].
    exists []. now split.
  - destruct s as [| c [| d t]].
    + exists []. now split.
    + inversion Hs as [| ? ? Hc _]. subst.
      cbn [length Nat.even Py.fromhex]. rewrite (digit_not_space c Hc).
      now destruct (Py.digit_value c).
    + inversion Hs as [| ? ? Hc Hs']. inversion Hs' as [| ? ? Hd Ht]. subst.
      change (Nat.even (length (c :: d :: t))) with (Nat.even (length t)).
      cbn [Py.fromhex]. rewrite (digit_not_space c Hc).
      destruct (Py.digit_value c) as [top |]; [| contradiction].
      destruct (Py.digit_value d) as [bot |]; [| contradiction].
      assert (Hlt : (length t <= n)%nat) by (cbn [length] in Hl; lia).
      pose proof (IH t Hlt Ht) as IHt.
      destruct (Nat.even (length t)).
      * destruct IHt as (b & Hb & Hlb). rewrite Hb. cbn [bind].
        eexists. split; [reflexivity |]. cbn [length]. lia.
      * now rewrite IHt.
Qed.

Section MalformedDigest.

Variables (random_gen : RandomGenerator)
          (hex_parameter a1_value app_identifier string_param : Py.str)
          (timestamp : Py.float) (sign_state : option SignState.t).

Hypothesis millis_returns : returns (millis timestamp).
Hypothesis context_returns :
  sign_state = None ->
  returns (millis_before timestamp (draw_time_offset random_gen))
  /\ well_formed string_param.

(** The builder up to the decoding of the digest string: what
    [bytes.fromhex] raises, the builder raises. *)
Lemma build_payload_array_fromhex_raises (e : exn) :
  Py.fromhex hex_parameter = Raise e ->
  build_payload_array default_config random_gen hex_parameter a1_value
    app_identifier string_param timestamp sign_state = Raise e.
Proof.
  intros He. unfold build_payload_array. cbv zeta.
  destruct millis_returns as (ts & ->). cbn [bind].
  destruct sign_state as [st |].
  - cbn [bind]. rewrite He. reflexivity.
  - destruct (context_returns eq_refl) as ((t2 & ->) & Hsp).
    destruct (encode_utf8_well_formed _ Hsp) as (enc & Henc).
    cbn [bind]. rewrite Henc. cbn [bind]. rewrite He. reflexivity.
Qed.

Lemma build_payload_array_short_digest (md5_bytes : list Z) :
  Py.fromhex hex_parameter = Ok md5_bytes ->
  (length md5_bytes < 8)%nat ->
  build_payload_array default_config random_gen hex_parameter a1_value
    app_identifier string_param timestamp sign_state = Raise IndexError.
Proof.
  intros Hhex Hlen. unfold build_payload_array. cbv zeta.
  change (MD5_XOR_LENGTH default_config) with 8.
  unfold Py.range. change (Z.to_nat 8) with 8%nat.
  destruct millis_returns as (ts & ->). cbn [bind].
  destruct sign_state as [st |].
  - cbn [bind]. rewrite Hhex. cbn [bind].
    rewrite mapM_index_short by lia. reflexivity.
  - destruct (context_returns eq_refl) as ((t2 & ->) & Hsp).
    destruct (encode_utf8_well_formed _ Hsp) as (enc & Henc).
    cbn [bind]. rewrite Henc. cbn [bind]. rewrite Hhex. cbn [bind].
    rewrite mapM_index_short by lia. reflexivity.
Qed.

Lemma build_payload_array_long_digest (md5_bytes : list Z) :
  Py.fromhex hex_parameter = Ok md5_bytes ->
  (8 <= length md5_bytes)%nat ->
  well_formed a1_value -> well_formed app_identifier ->
  well_formed (extract_api_path string_param) ->
  exists payload,
    build_payload_array default_config random_gen hex_parameter
      a1_value app_identifier string_param timestamp sign_state
    = Ok payload
    /\ length payload = 144%nat
    /\ Py.slice payload 36 44
       = xor_with (Z.land (generate_random_int random_gen) 0xFF)
           (firstn 8 md5_bytes).
Proof.
  intros Hmb Hlen Ha1 Happ Hpath.
  destruct millis_returns as (ts & Hts).
  destruct (encode_utf8_well_formed _ Ha1) as (a1e & Ha1e).
  destruct (encode_utf8_well_formed _ Happ) as (appe & Happe).
  destruct (encode_utf8_well_formed _ Hpath) as (pb & Hpb).
  assert (Hx : exists t2 n,
             secondary_millis_of random_gen timestamp sign_state = Ok t2
             /\ uri_length_of sign_state string_param = Ok n).
  { unfold secondary_millis_of, uri_length_of.
    destruct sign_state as [st |]; [eauto |].
    destruct (context_returns eq_refl) as ((t2 & Ht2) & Hsp).
    destruct (encode_utf8_well_formed _ Hsp) as (e & He).
    rewrite He. cbn [bind]. eauto. }
  destruct Hx as (t2 & n & Ht2 & Hn).
  destruct (build_payload_array_layout random_gen hex_parameter a1_value
              app_identifier string_param timestamp sign_state md5_bytes
              a1e appe pb ts t2 n Hts Ht2 Hn Hmb Hlen Ha1e Happe Hpb)
    as (h & Hh & Hhl & Hb).
  eexists. split; [exact Hb |]. split.
  - apply payload_layout_length;
      [apply context_fields_length | exact Hlen | exact Hhl].
  - unfold payload_layout. cbv zeta.
    skip_segment 4%nat. skip_segment 4%nat. skip_segment 8%nat.
    skip_segment 20%nat.
    now rewrite (slice_app1 _ _ 8) by segment_length.
Qed.

End MalformedDigest.

(** C3, as the code has it. The builder does not examine the length of
    the digest string; it decodes the string with [bytes.fromhex] and
    reads the first eight octets.  Provided that the conversions of the
    timestamp are defined and that, without a snapshot, the URI and body
    has a UTF-8 encoding (these steps come first and raise otherwise), the
    outcome is as follows.  Whatever [bytes.fromhex] refuses makes the
    builder raise [ValueError] and return no payload: a string with a
    character that is neither a hexadecimal digit nor ASCII white space,
    and a string of an odd number of hexadecimal digits.  A string that
    decodes to fewer than eight octets, as a string of an even number of
    hexadecimal digits below 16, makes it raise [IndexError].  A string
    that decodes to eight octets or more, as a string of an even number
    of hexadecimal digits from 16 on, is accepted when the identity, the
    application identifier and the API path have a UTF-8 encoding: 144
    octets are returned, made from the first eight decoded octets
    only. *)
Theorem malformed_digest (random_gen : RandomGenerator)
    (hex_parameter a1_value app_identifier string_param : Py.str)
    (timestamp : Py.float) (sign_state : option SignState.t) :
  returns (millis timestamp) ->
  (sign_state = None ->
   returns (millis_before timestamp (draw_time_offset random_gen))
   /\ well_formed string_param) ->
  let built :=
    build_payload_array default_config random_gen hex_parameter a1_value
      app_identifier string_param timestamp sign_state in
  (forall e, Py.fromhex hex_parameter = Raise e -> built = Raise ValueError)
  /\ (has_non_hex hex_parameter -> built = Raise ValueError)
  /\ (hex_digits hex_parameter -> Nat.odd (length hex_parameter) = true ->
      built = Raise ValueError)
  /\ (forall md5_bytes,
         Py.fromhex hex_parameter = Ok md5_bytes ->
         (length md5_bytes < 8)%nat ->
         built = Raise IndexError)
  /\ (hex_digits hex_parameter -> Nat.even (length hex_parameter) = true ->
      (length hex_parameter < 16)%nat ->
      built = Raise IndexError)
  /\ (well_formed a1_value -> well_formed app_identifier ->
      well_formed (extract_api_path string_param) ->
      (forall md5_bytes,
          Py.fromhex hex_parameter = Ok md5_bytes ->
          (8 <= length md5_bytes)%nat ->
          exists payload,
            built = Ok payload
            /\ length payload = 144%nat
            /\ Py.slice payload 36 44
               = xor_with (Z.land (generate_random_int random_gen) 0xFF)
                   (firstn 8 md5_bytes))
      /\ (hex_digits hex_parameter ->
          Nat.even (length hex_parameter) = true ->
          (16 <= length hex_parameter)%nat ->
          exists payload md5_bytes,
            built = Ok payload
            /\ length payload = 144%nat
            /\ Py.fromhex hex_parameter = Ok md5_bytes
            /\ Py.slice payload 36 44
               = xor_with (Z.land (generate_random_int random_gen) 0xFF)
                   (firstn 8 md5_bytes))).
Proof.
  intros Hts Hctx built. subst built.
  assert (Hraise : forall e, Py.fromhex hex_parameter = Raise e ->
            build_payload_array default_config random_gen hex_parameter
              a1_value app_identifier string_param timestamp sign_state
            = Raise ValueError).
  { intros e He.
    rewrite (fromhex_raises (length hex_parameter) hex_parameter e
               (le_n _) He) in He.
    now apply build_payload_array_fromhex_raises. }
  split; [exact Hraise |]. split; [| split; [| split; [| split]]].
  - intros Hbad. apply (Hraise ValueError).
    now apply (fromhex_non_hex (length hex_parameter)).
  - intros Hhex Hodd. apply (Hraise ValueError).
    pose proof (fromhex_digits (length hex_parameter) hex_parameter
                  (le_n _) Hhex) as Hd.
    rewrite <- Nat.negb_even in Hodd.
    destruct (Nat.even (length hex_parameter)); [discriminate Hodd |].
    exact Hd.
  - intros mb Hmb Hlen.
    now apply (build_payload_array_short_digest _ _ _ _ _ _ _ Hts Hctx mb).
  - intros Hhex Heven Hlen.
    pose proof (fromhex_digits (length hex_parameter) hex_parameter
                  (le_n _) Hhex) as Hd.
    rewrite Heven in Hd. destruct Hd as (mb & Hmb & Hl).
    apply (build_payload_array_short_digest _ _ _ _ _ _ _ Hts Hctx mb Hmb).
    lia.
  - intros Ha1 Happ Hpath. split.
    + intros mb Hmb Hlen.
      now apply (build_payload_array_long_digest _ _ _ _ _ _ _ Hts Hctx mb).
    + intros Hhex Heven Hlen.
      pose proof (fromhex_digits (length hex_parameter) hex_parameter
                    (le_n _) Hhex) as Hd.
      rewrite Heven in Hd. destruct Hd as (mb & Hmb & Hl).
      destruct (build_payload_array_long_digest _ _ _ _ _ _ _ Hts Hctx mb
                  Hmb ltac:(lia) Ha1 Happ Hpath)
        as (payload & Hb & Hbl & Hs).
      exists payload, mb. now repeat split.
Qed.

(** C3, as stated, fails: a digest string of 16 hexadecimal digits is not
    refused, and a payload of 144 octets is returned. *)
Lemma short_digest_accepted :
  length short_md5 <> 32%nat
  /\ build_payload_array default_config example_gen short_md5 example_a1
       example_app homefeed_json (seconds 1700000000) None
     = Ok short_md5_payload
  /\ length short_md5_payload = 144%nat.
Proof.
  split; [vm_compute; discriminate |].
  split; vm_compute; reflexivity.
Qed.

(** The two predicates on strings, decided. *)
Lemma well_formed_decide (s : Py.str) :
  forallb scalar_valueb s = true -> well_formed s.
Proof.
  intros H. apply Forall_forall. intros c Hc.
  pose proof (proj1 (forallb_forall _ _) H c Hc) as Hb.
  unfold scalar_valueb in Hb. unfold scalar_value.
  apply orb_true_iff in Hb.
  destruct Hb as [Hb | Hb]; apply andb_true_iff in Hb; destruct Hb as [H1 H2].
  - apply Z.leb_le in H1. apply Z.ltb_lt in H2. lia.
  - apply Z.ltb_lt in H1. apply Z.ltb_lt in H2. lia.
Qed.

Lemma hex_digits_decide (s : Py.str) :
  forallb is_hex_digit s = true -> hex_digits s.
Proof.
  intros H. apply Forall_forall. intros c Hc.
  pose proof (proj1 (forallb_forall _ _) H c Hc) as Hb.
  unfold is_hex_digit in Hb. destruct (Py.digit_value c); congruence.
Qed.


(** ** The theorems at concrete inputs *)


Lemma malformed_digest_witness :
  returns (millis (seconds 1700000000))
  /\ (@None SignState.t = None ->
      returns (millis_before (seconds 1700000000)
                 (draw_time_offset example_gen))
      /\ well_formed homefeed_json)
  /\ has_non_hex non_hex_md5
  /\ build_payload_array default_config example_gen non_hex_md5 example_a1
       example_app homefeed_json (seconds 1700000000) None
     = Raise ValueError
  /\ hex_digits odd_md5
  /\ Nat.odd (length odd_md5) = true
  /\ build_payload_array default_config example_gen odd_md5 example_a1
       example_app homefeed_json (seconds 1700000000) None
     = Raise ValueError
  /\ hex_digits tiny_md5
  /\ Nat.even (length tiny_md5) = true
  /\ (length tiny_md5 < 16)%nat
  /\ build_payload_array default_config example_gen tiny_md5 example_a1
       example_app homefeed_json (seconds 1700000000) None
     = Raise IndexError
  /\ well_formed example_a1
  /\ well_formed example_app
  /\ well_formed (extract_api_path homefeed_json)
  /\ hex_digits short_md5
  /\ Nat.even (length short_md5) = true
  /\ (16 <= length short_md5)%nat
  /\ exists payload md5_bytes,
       build_payload_array default_config example_gen short_md5 example_a1
         example_app homefeed_json (seconds 1700000000) None = Ok payload
       /\ length payload = 144%nat
       /\ Py.fromhex short_md5 = Ok md5_bytes
       /\ Py.slice payload 36 44
          = xor_with (Z.land (generate_random_int example_gen) 0xFF)
              (firstn 8 md5_bytes).
Proof.
  assert (Hsp : well_formed homefeed_json)
    by (apply well_formed_decide; vm_compute; reflexivity).
  assert (H0 : returns (millis (seconds 1700000000)))
    by (exists 1700000000000; vm_compute; reflexivity).
  assert (H1 : @None SignState.t = None ->
               returns (millis_before (seconds 1700000000)
                          (draw_time_offset example_gen))
               /\ well_formed homefeed_json).
  { intros _. split; [| exact Hsp].
    exists 1699999980000. vm_compute. reflexivity. }
  assert (H2 : has_non_hex non_hex_md5).
  { exists 122. split; [left; reflexivity | split; reflexivity]. }
  assert (H3 : hex_digits odd_md5)
    by (apply hex_digits_decide; vm_compute; reflexivity).
  assert (H4 : Nat.odd (length odd_md5) = true) by reflexivity.
  assert (H5 : hex_digits tiny_md5)
    by (apply hex_digits_decide; vm_compute; reflexivity).
  assert (H6 : Nat.even (length tiny_md5) = true) by reflexivity.
  assert (H7 : (length tiny_md5 < 16)%nat) by (vm_compute; lia).
  assert (H8 : well_formed example_a1)
    by (apply well_formed_decide; vm_compute; reflexivity).
  assert (H9 : well_formed example_app)
    by (apply well_formed_decide; vm_compute; reflexivity).
  assert (H10 : well_formed (extract_api_path homefeed_json))
    by (apply well_formed_decide; vm_compute; reflexivity).
  assert (H11 : hex_digits short_md5)
    by (apply hex_digits_decide; vm_compute; reflexivity).
  assert (H12 : Nat.even (length short_md5) = true) by reflexivity.
  assert (H13 : (16 <= length short_md5)%nat) by (vm_compute; lia).
  split; [exact H0 |]. split; [exact H1 |]. split; [exact H2 |].
  split.
  { exact (proj1 (proj2 (malformed_digest example_gen non_hex_md5
                           example_a1 example_app homefeed_json
                           (seconds 1700000000) None H0 H1)) H2). }
  split; [exact H3 |]. split; [exact H4 |].
  split.
  { exact (proj1 (proj2 (proj2 (malformed_digest example_gen odd_md5
                                  example_a1 example_app homefeed_json
                                  (seconds 1700000000) None H0 H1)))
             H3 H4). }
  split; [exact H5 |]. split; [exact H6 |]. split; [exact H7 |].
  split.
  { exact (proj1 (proj2 (proj2 (proj2 (proj2
             (malformed_digest example_gen tiny_md5 example_a1 example_app
                homefeed_json (seconds 1700000000) None H0 H1)))))
             H5 H6 H7). }
  split; [exact H8 |]. split; [exact H9 |]. split; [exact H10 |].
  split; [exact H11 |]. split; [exact H12 |]. split; [exact H13 |].
  exact (proj2 (proj2 (proj2 (proj2 (proj2 (proj2
           (malformed_digest example_gen short_md5 example_a1 example_app
              homefeed_json (seconds 1700000000) None H0 H1))))) H8 H9 H10)
           H11 H12 H13).
Defined.


Lemma seed_consistency_witness :
  build_payload_array default_config example_gen example_md5 example_a1
    example_app homefeed_json (seconds 1700000000) None = Ok example_payload
  /\ exists seed_byte ts_ms md5_bytes path_bytes h,
       Py.slice example_payload 4 8
       = int_to_le_bytes (generate_random_int example_gen) 4
       /\ nth_error example_payload 4 = Some seed_byte
       /\ seed_byte = Z.land (generate_random_int example_gen) 0xFF
       /\ Py.fromhex example_md5 = Ok md5_bytes
       /\ Py.slice example_payload 36 44
          = xor_with seed_byte (firstn 8 md5_bytes)
       /\ Py.encode_utf8 (extract_api_path homefeed_json) = Ok path_bytes
       /\ millis (seconds 1700000000) = Ok ts_ms
       /\ custom_hash_v2 default_config
            (int_to_le_bytes ts_ms 8 ++ Py.md5.digest path_bytes) = Ok h
       /\ Py.slice example_payload 128 144 = xor_with seed_byte h.
Proof.
  assert (H : build_payload_array default_config example_gen example_md5
                example_a1 example_app homefeed_json (seconds 1700000000)
                None = Ok example_payload)
    by (vm_compute; reflexivity).
  split; [exact H |].
  exact (seed_consistency example_gen example_md5 example_a1 example_app
           homefeed_json (seconds 1700000000) None example_payload H).
Defined.


Lemma length_prefixes_constant_witness :
  build_payload_array default_config example_gen example_md5 example_a1
    example_app homefeed_json (seconds 1700000000) None = Ok example_payload
  /\ nth_error example_payload 44 = Some 52
  /\ nth_error example_payload 97 = Some 10.
Proof.
  assert (H : build_payload_array default_config example_gen example_md5
                example_a1 example_app homefeed_json (seconds 1700000000)
                None = Ok example_payload)
    by (vm_compute; reflexivity).
  split; [exact H |].
  exact (length_prefixes_constant example_gen example_md5 example_a1
           example_app homefeed_json (seconds 1700000000) None
           example_payload H).
Defined.

(** ** Auxiliary facts *)

Lemma forallb_is_byte_inv (l : list Z) :
  forallb Py.is_byte l = true -> byte_list l.
Proof.
  intros H. apply Forall_forall. intros x Hx. apply is_byte_true.
  exact (proj1 (forallb_forall _ _) H x Hx).
Qed.

(** Bitwise operations on octets. *)
Lemma bitwise_octet (f : Z -> Z -> Z) (g : bool -> bool -> bool) (a b : Z) :
  (forall x y n, 0 <= n -> Z.testbit (f x y) n = g (Z.testbit x n) (Z.testbit y n)) ->
  g false false = false ->
  0 <= a < 256 -> 0 <= b < 256 -> 0 <= f a b < 256.
Proof.
  intros Hf Hg Ha Hb.
  assert (H : f a b = f a b mod 2 ^ 8).
  { apply Z.bits_inj'. intros n Hn.
    destruct (Z.lt_ge_cases n 8) as [Hlt | Hge].
    - now rewrite Z.mod_pow2_bits_low by lia.
    - rewrite Z.mod_pow2_bits_high by lia. rewrite Hf by lia.
      rewrite <- (Z.mod_small a (2 ^ 8)), <- (Z.mod_small b (2 ^ 8)) by lia.
      now rewrite !Z.mod_pow2_bits_high by lia. }
  rewrite H. apply Z.mod_pos_bound. lia.
Qed.

Lemma lxor_octet (a b : Z) :
  0 <= a < 256 -> 0 <= b < 256 -> 0 <= Z.lxor a b < 256.
Proof.
  apply (bitwise_octet Z.lxor xorb); [| reflexivity].
  intros x y n _. apply Z.lxor_spec.
Qed.

Lemma lor_octet (a b : Z) :
  0 <= a < 256 -> 0 <= b < 256 -> 0 <= Z.lor a b < 256.
Proof.
  apply (bitwise_octet Z.lor orb); [| reflexivity].
  intros x y n _. apply Z.lor_spec.
Qed.

Lemma land_255_octet (x : Z) : 0 <= Z.land x 0xFF < 256.
Proof.
  change 255 with (Z.ones 8). rewrite Z.land_ones by lia.
  apply Z.mod_pos_bound. lia.
Qed.

Lemma xor_with_octets (seed_byte : Z) (l : list Z) :
  0 <= seed_byte < 256 -> byte_list l -> byte_list (xor_with seed_byte l).
Proof.
  intros Hs Hl. unfold xor_with. apply Forall_map.
  eapply Forall_impl; [| exact Hl]. cbv beta. intros b Hb.
  now apply lxor_octet.
Qed.

Lemma xor_with_involutive (seed_byte : Z) (l : list Z) :
  xor_with seed_byte (xor_with seed_byte l) = l.
Proof.
  unfold xor_with. rewrite map_map. rewrite <- (map_id l) at 2.
  apply map_ext. intros b.
  now rewrite Z.lxor_assoc, Z.lxor_nilpotent, Z.lxor_0_r.
Qed.

(** The continuation octet of the six bits of [c] from bit [k] on. *)
Lemma continuation_octet (c : Z) :
  0 <= c -> 0 <= Z.lor 0x80 (Z.land c 0x3F) < 256.
Proof.
  intros Hc. apply lor_octet; [lia |].
  change 63 with (Z.ones 6). rewrite Z.land_ones by lia.
  pose proof (Z.mod_pos_bound c (2 ^ 6)). lia.
Qed.

Lemma lead_octet (lead c k : Z) :
  0 <= lead < 256 -> 0 <= k -> 0 <= c < 2 ^ (k + 8) ->
  0 <= Z.lor lead (Z.shiftr c k) < 256.
Proof.
  intros Hl Hk Hc. apply lor_octet; [exact Hl |].
  rewrite Z.shiftr_div_pow2 by lia.
  split; [apply Z.div_pos; lia |].
  apply Z.div_lt_upper_bound; [lia |].
  change 256 with (2 ^ 8). rewrite <- Z.pow_add_r by lia. lia.
Qed.

Lemma encode_char_octets (c : Z) (b : Py.bytes) :
  Py.encode_char c = Ok b -> byte_list b /\ (1 <= length b <= 4)%nat.
Proof.
  unfold Py.encode_char, byte_list.
  destruct (Z.ltb_spec c 0); [discriminate |].
  destruct (Z.ltb_spec c 0x80).
  { intros E. apply Ok_inj in E. subst b.
    split; [| cbn [length]; lia].
    apply Forall_cons; [lia | apply Forall_nil]. }
  destruct (Z.ltb_spec c 0x800).
  { intros E. apply Ok_inj in E. subst b.
    split; [| cbn [length]; lia].
    apply Forall_cons; [apply (lead_octet _ c 6); lia |].
    apply Forall_cons; [apply continuation_octet; lia | apply Forall_nil]. }
  destruct (Z.ltb_spec c 0x10000).
  { destruct ((0xD800 <=? c) && (c <=? 0xDFFF)); [discriminate |].
    intros E. apply Ok_inj in E. subst b.
    split; [| cbn [length]; lia].
    apply Forall_cons; [apply (lead_octet _ c 12); lia |].
    apply Forall_cons;
      [apply continuation_octet; apply Z.shiftr_nonneg; lia |].
    apply Forall_cons; [apply continuation_octet; lia | apply Forall_nil]. }
  destruct (Z.ltb_spec c 0x110000); [| discriminate].
  intros E. apply Ok_inj in E. subst b.
  split; [| cbn [length]; lia].
  apply Forall_cons; [apply (lead_octet _ c 18); lia |].
  apply Forall_cons;
    [apply continuation_octet; apply Z.shiftr_nonneg; lia |].
  apply Forall_cons;
    [apply continuation_octet; apply Z.shiftr_nonneg; lia |].
  apply Forall_cons; [apply continuation_octet; lia | apply Forall_nil].
Qed.

Lemma encode_utf8_octets (s : Py.str) :
  forall b, Py.encode_utf8 s = Ok b ->
            byte_list b /\ (length s <= length b <= 4 * length s)%nat.
Proof.
  induction s as [| c t IH]; intros b; cbn [Py.encode_utf8].
  - intros E. apply Ok_inj in E. subst b. split; [constructor | cbn; lia].
  - destruct (Py.encode_char c) as [bc |] eqn:Ec; [| discriminate].
    cbn [bind]. destruct (Py.encode_utf8 t) as [bt |]; [| discriminate].
    cbn [bind]. intros E. apply Ok_inj in E. subst b.
    destruct (encode_char_octets c bc Ec) as [Hb Hl].
    destruct (IH bt eq_refl) as [Hbt Hlt].
    split; [now apply byte_list_app |].
    rewrite length_app. cbn [length]. lia.
Qed.

Lemma encode_char_raises (c : Z) (e : exn) :
  Py.encode_char c = Raise e -> e = UnicodeEncodeError.
Proof.
  unfold Py.encode_char.
  repeat match goal with
         | |- context [if ?t then _ else _] => destruct t
         end; congruence.
Qed.

(** A string with a surrogate has no encoding. *)
Lemma encode_utf8_with_surrogate (s : Py.str) (c : Z) :
  In c s -> surrogate c -> Py.encode_utf8 s = Raise UnicodeEncodeError.
Proof.
  intros Hin Hc. induction s as [| x t IH]; [contradiction |].
  cbn [Py.encode_utf8].
  destruct (Py.encode_char x) as [bx | e] eqn:Ex.
  - cbn [bind]. destruct Hin as [-> | Hin].
    + exfalso. unfold Py.encode_char, surrogate in *.
      destruct (Z.ltb_spec c 0); [lia |].
      destruct (Z.ltb_spec c 0x80); [lia |].
      destruct (Z.ltb_spec c 0x800); [lia |].
      destruct (Z.ltb_spec c 0x10000); [| lia].
      destruct (Z.leb_spec 0xD800 c); [| lia].
      destruct (Z.leb_spec c 0xDFFF); [| lia]. discriminate.
    + now rewrite (IH Hin).
  - cbn [bind]. now rewrite (encode_char_raises x e Ex).
Qed.

Lemma digit_value_range (c d : Z) :
  Py.digit_value c = Some d -> 0 <= d < 16.
Proof.
  unfold Py.digit_value.
  destruct (Z.leb_spec 48 c); destruct (Z.leb_spec c 57); cbn [andb];
    try (intros E; injection E as <-; lia);
    destruct (Z.leb_spec 97 c); destruct (Z.leb_spec c 102); cbn [andb];
    try (intros E; injection E as <-; lia);
    destruct (Z.leb_spec 65 c); destruct (Z.leb_spec c 70); cbn [andb];
    try (intros E; injection E as <-; lia); discriminate.
Qed.

Lemma fromhex_octets (n : nat) :
  forall (s : Py.str) (b : Py.bytes),
    (length s <= n)%nat -> Py.fromhex s = Ok b -> byte_list b.
Proof.
  induction n as [| n IH]; intros s b Hl H.
  - destruct s; [| cbn [length] in Hl; lia].
    apply Ok_inj in H. subst b. constructor.
  - destruct s as [| c t]; [apply Ok_inj in H; subst b; constructor |].
    cbn [Py.fromhex] in H. destruct (Py.is_space c).
    + apply (IH t); [cbn [length] in Hl; lia | exact H].
    + destruct (Py.digit_value c) as [top |] eqn:Et; [| discriminate].
      destruct t as [| d t']; [discriminate |].
      destruct (Py.digit_value d) as [bot |] eqn:Eb; [| discriminate].
      destruct (Py.fromhex t') as [r |] eqn:Er; [| discriminate].
      cbn [bind] in H. apply Ok_inj in H. subst b.
      apply digit_value_range in Et. apply digit_value_range in Eb.
      constructor; [lia |].
      apply (IH t'); [cbn [length] in Hl; lia | exact Er].
Qed.

(** * Further properties of the code *)

(** ** The integer codec *)

(** X1. [_int_to_le_bytes] returns as many elements as asked for (none for
    a negative width), each of them an octet, for every integer, negative
    ones included. *)
Theorem int_to_le_bytes_shape (val width : Z) :
  length (int_to_le_bytes val width) = Z.to_nat width
  /\ byte_list (int_to_le_bytes val width).
Proof.
  split; [apply le_loop_length | apply le_loop_bytes].
Qed.

(** X2. [_int_to_le_bytes] is a truncating encoder: read back little
    endian, its result is the value modulo [2 ^ (8 * width)], so the bits
    beyond the width are dropped and a negative value appears in two's
    complement. *)
Theorem int_to_le_bytes_truncates_modulo (val width : Z) :
  0 <= width ->
  Py.from_le (int_to_le_bytes val width) = val mod 2 ^ (8 * width).
Proof.
  intros Hw. unfold int_to_le_bytes. rewrite from_le_le_loop.
  now rewrite Z2Nat.id by lia.
Qed.

Lemma int_to_le_bytes_truncates_modulo_witness :
  0 <= 4 /\ Py.from_le (int_to_le_bytes (-2) 4) = (-2) mod 2 ^ (8 * 4).
Proof.
  assert (H : 0 <= 4) by lia.
  split; [exact H |].
  exact (int_to_le_bytes_truncates_modulo (-2) 4 H).
Defined.

(** Bits of a 32-bit value. *)
Lemma testbit_high_32 (val i : Z) :
  0 <= val < 2 ^ 32 -> 32 <= i -> Z.testbit val i = false.
Proof.
  intros Hv Hi. rewrite <- (Z.mod_small val (2 ^ 32)) by assumption.
  apply Z.mod_pow2_bits_high. lia.
Qed.

(** The bits of a rotated 32-bit value. *)
Lemma rotate_left_testbit (val n i : Z) :
  0 <= val < 2 ^ 32 -> 0 <= n <= 32 -> 0 <= i < 32 ->
  0 <= rotate_left default_config val n < 2 ^ 32
  /\ Z.testbit (rotate_left default_config val n) i
     = Z.testbit val ((i - n) mod 32).
Proof.
  intros Hv Hn Hi. unfold rotate_left.
  change (MAX_32BIT default_config) with (Z.ones 32).
  split.
  - rewrite Z.land_ones by lia. apply Z.mod_pos_bound. lia.
  - rewrite Z.land_spec, Z.lor_spec, Z.shiftl_spec, Z.shiftr_spec by lia.
    rewrite Z.ones_spec_low by lia. rewrite andb_true_r.
    destruct (Z.lt_ge_cases i n) as [Hlt | Hge].
    + rewrite (Z.testbit_neg_r val (i - n)) by lia. cbn [orb].
      f_equal. replace (i - n) with (i + (32 - n) + (-1) * 32) by lia.
      rewrite Z.mod_add by lia. rewrite Z.mod_small by lia. reflexivity.
    + rewrite (testbit_high_32 val (i + (32 - n))) by lia.
      rewrite orb_false_r. now rewrite Z.mod_small by lia.
Qed.

(** X3. On a 32-bit value and a count from 0 to 32, [_rotate_left] is a
    rotation: the result is a 32-bit value whose bit [i] is bit
    [(i - n) mod 32] of the argument. *)
Theorem rotate_left_bits (val n i : Z) :
  0 <= val < 2 ^ 32 -> 0 <= n <= 32 -> 0 <= i < 32 ->
  0 <= rotate_left default_config val n < 2 ^ 32
  /\ Z.testbit (rotate_left default_config val n) i
     = Z.testbit val ((i - n) mod 32).
Proof. apply rotate_left_testbit. Qed.

Lemma rotate_left_bits_witness :
  0 <= 0x80000001 < 2 ^ 32 /\ 0 <= 4 <= 32 /\ 0 <= 3 < 32
  /\ 0 <= rotate_left default_config 0x80000001 4 < 2 ^ 32
  /\ Z.testbit (rotate_left default_config 0x80000001 4) 3
     = Z.testbit 0x80000001 ((3 - 4) mod 32).
Proof.
  assert (H1 : 0 <= 0x80000001 < 2 ^ 32) by lia.
  assert (H2 : 0 <= 4 <= 32) by lia.
  assert (H3 : 0 <= 3 < 32) by lia.
  split; [exact H1 |]. split; [exact H2 |]. split; [exact H3 |].
  exact (rotate_left_bits 0x80000001 4 3 H1 H2 H3).
Defined.

(** X4. On a 32-bit value, rotating left by [n] and then by [32 - n]
    gives the value back. *)
Theorem rotate_left_inverse (val n : Z) :
  0 <= val < 2 ^ 32 -> 0 <= n <= 32 ->
  rotate_left default_config (rotate_left default_config val n) (32 - n)
  = val.
Proof.
  intros Hv Hn.
  pose proof (fun i Hi => proj1 (rotate_left_testbit val n i Hv Hn Hi)) as Hr.
  specialize (Hr 0 ltac:(lia)).
  apply Z.bits_inj'. intros i Hi.
  destruct (Z.lt_ge_cases i 32) as [Hlt | Hge].
  - rewrite (proj2 (rotate_left_testbit _ (32 - n) i Hr ltac:(lia) ltac:(lia))).
    assert (Hm : 0 <= (i - (32 - n)) mod 32 < 32)
      by (apply Z.mod_pos_bound; lia).
    rewrite (proj2 (rotate_left_testbit val n _ Hv Hn Hm)).
    f_equal. rewrite Zminus_mod_idemp_l.
    replace (i - (32 - n) - n) with (i + (-1) * 32) by lia.
    rewrite Z.mod_add by lia. apply Z.mod_small. lia.
  - rewrite (testbit_high_32 val i Hv Hge).
    apply testbit_high_32; [| exact Hge].
    unfold rotate_left. change (MAX_32BIT default_config) with (Z.ones 32).
    rewrite Z.land_ones by lia. apply Z.mod_pos_bound. lia.
Qed.

Lemma rotate_left_inverse_witness :
  0 <= 0x12345678 < 2 ^ 32 /\ 0 <= 7 <= 32
  /\ rotate_left default_config
       (rotate_left default_config 0x12345678 7) (32 - 7) = 0x12345678.
Proof.
  assert (H1 : 0 <= 0x12345678 < 2 ^ 32) by lia.
  assert (H2 : 0 <= 7 <= 32) by lia.
  split; [exact H1 |]. split; [exact H2 |].
  exact (rotate_left_inverse 0x12345678 7 H1 H2).
Defined.

(** ** The digest mixer *)

(** X5. On every list of octets, of any length and with any
    configuration, [_custom_hash_v2] returns, and returns 16 octets. *)
Theorem custom_hash_v2_sixteen_octets (config : CryptoConfig)
    (input_bytes : list Z) :
  byte_list input_bytes ->
  exists out,
    custom_hash_v2 config input_bytes = Ok out
    /\ length out = 16%nat
    /\ byte_list out.
Proof. apply custom_hash_v2_ok. Qed.

Lemma custom_hash_v2_sixteen_octets_witness :
  byte_list [1; 2; 3; 4; 5; 6; 7; 8; 9]
  /\ exists out,
       custom_hash_v2 default_config [1; 2; 3; 4; 5; 6; 7; 8; 9] = Ok out
       /\ length out = 16%nat
       /\ byte_list out.
Proof.
  assert (H : byte_list [1; 2; 3; 4; 5; 6; 7; 8; 9])
    by (apply forallb_is_byte_inv; reflexivity).
  split; [exact H |].
  exact (custom_hash_v2_sixteen_octets default_config _ H).
Defined.

Lemma hash_round_not_octets (config : CryptoConfig) (l : list Z)
    (st : Z * Z * Z * Z) :
  forallb Py.is_byte (firstn 8 l) = false ->
  hash_round config l st 0 = Raise ValueError.
Proof.
  intros H. unfold hash_round, Py.slice, Py.bytes_of_list.
  destruct st as [[[s0 s1] s2] s3].
  change (skipn (0 * 8) l) with l.
  replace ((0 + 1) * 8 - 0 * 8)%nat with 8%nat by lia.
  now rewrite H.
Qed.

Lemma block_loop_not_octets (config : CryptoConfig) (n : nat) :
  forall (l : list Z) (st : Z * Z * Z * Z) (i : nat) (x : Z),
    (8 * n <= length l)%nat -> (i < 8 * n)%nat ->
    nth_error l i = Some x -> ~ 0 <= x < 256 ->
    block_loop config n l st = Raise ValueError.
Proof.
  induction n as [| n IH]; intros l st i x Hl Hi Hx Hbad; [lia |].
  cbn [block_loop].
  destruct (forallb Py.is_byte (firstn 8 l)) eqn:E.
  - assert (Hb : byte_list (firstn 8 l)) by now apply forallb_is_byte_inv.
    rewrite hash_round_head.
    destruct (hash_round_ok config (firstn 8 l) st Hb) as (st' & Hst).
    { rewrite length_firstn. lia. }
    rewrite Hst. cbn [bind].
    assert (Hi8 : (8 <= i)%nat).
    { destruct (le_lt_dec 8 i) as [H8 | H8]; [exact H8 |]. exfalso.
      apply Hbad.
      assert (Hin : In x (firstn 8 l)).
      { apply (nth_error_In _ i). rewrite nth_error_firstn.
        destruct (Nat.ltb_spec i 8); [exact Hx | lia]. }
      exact (proj1 (Forall_forall _ _) Hb x Hin). }
    apply (IH (skipn 8 l) st' (i - 8)%nat x).
    + rewrite length_skipn. lia.
    + lia.
    + rewrite nth_error_skipn. now replace (8 + (i - 8))%nat with i by lia.
    + exact Hbad.
  - now rewrite hash_round_not_octets.
Qed.

(** X6. When an element of a complete 8-element block of the input is not
    in [range(256)], [_custom_hash_v2] raises [ValueError] (from
    [bytes(...)]). *)
Theorem custom_hash_v2_rejects_non_octet (config : CryptoConfig)
    (input_bytes : list Z) (i : nat) (x : Z) :
  (i < 8 * (length input_bytes / 8))%nat ->
  nth_error input_bytes i = Some x ->
  ~ 0 <= x < 256 ->
  custom_hash_v2 config input_bytes = Raise ValueError.
Proof.
  intros Hi Hx Hbad. rewrite custom_hash_v2_blocks.
  destruct (HASH_IV config) as [[[s0 s1] s2] s3]. cbv zeta.
  assert (Hn : Z.to_nat (Py.len input_bytes / 8)
               = (length input_bytes / 8)%nat).
  { unfold Py.len. change 8 with (Z.of_nat 8).
    rewrite <- (Nat2Z.inj_div (length input_bytes) 8). apply Nat2Z.id. }
  rewrite Hn.
  pose proof (Nat.div_mod_eq (length input_bytes) 8) as Hdm.
  rewrite (block_loop_not_octets config _ input_bytes _ i x);
    [reflexivity | lia | exact Hi | exact Hx | exact Hbad].
Qed.

Lemma custom_hash_v2_rejects_non_octet_witness :
  (5 < 8 * (length nine_with_256 / 8))%nat
  /\ nth_error nine_with_256 5 = Some 256
  /\ ~ 0 <= 256 < 256
  /\ custom_hash_v2 default_config nine_with_256
     = Raise ValueError.
Proof.
  assert (H1 : (5 < 8 * (length nine_with_256 / 8))%nat)
    by (vm_compute; lia).
  assert (H2 : nth_error nine_with_256 5 = Some 256)
    by reflexivity.
  assert (H3 : ~ 0 <= 256 < 256) by lia.
  split; [exact H1 |]. split; [exact H2 |]. split; [exact H3 |].
  exact (custom_hash_v2_rejects_non_octet default_config nine_with_256
           5%nat 256 H1 H2 H3).
Defined.

(** ** The segments of the layout *)

Section Layout.

Variables (seed ts_ms : Z) (fields md5_bytes a1_encoded app_encoded h : list Z).

Hypothesis fields_length : length fields = 20%nat.
Hypothesis md5_length : (8 <= length md5_bytes)%nat.
Hypothesis h_length : length h = 16%nat.

Let seed_byte := Z.land seed 0xFF.
Let layout :=
  payload_layout seed ts_ms fields md5_bytes a1_encoded app_encoded h.

Ltac skip_fields :=
  rewrite (slice_app2 _ _ 20) by (exact fields_length || lia);
  cbn [Nat.sub].

Lemma layout_version : Py.slice layout 0 4 = [121; 104; 96; 41].
Proof. reflexivity. Qed.

Lemma layout_seed : Py.slice layout 4 8 = int_to_le_bytes seed 4.
Proof.
  unfold layout, payload_layout. cbv zeta.
  skip_segment 4%nat. now rewrite (slice_app1 _ _ 4) by segment_length.
Qed.

Lemma layout_seed_byte : nth_error layout 4 = Some seed_byte.
Proof.
  unfold layout, payload_layout. cbv zeta. skip_segment 4%nat. reflexivity.
Qed.

Lemma layout_timestamp : Py.slice layout 8 16 = int_to_le_bytes ts_ms 8.
Proof.
  unfold layout, payload_layout. cbv zeta.
  skip_segment 4%nat. skip_segment 4%nat.
  now rewrite (slice_app1 _ _ 8) by segment_length.
Qed.

Lemma layout_fields : Py.slice layout 16 36 = fields.
Proof.
  unfold layout, payload_layout. cbv zeta.
  skip_segment 4%nat. skip_segment 4%nat. skip_segment 8%nat.
  now rewrite (slice_app1 _ _ 20) by exact fields_length.
Qed.

Lemma layout_md5 :
  Py.slice layout 36 44 = xor_with seed_byte (firstn 8 md5_bytes).
Proof.
  unfold layout, payload_layout. cbv zeta.
  skip_segment 4%nat. skip_segment 4%nat. skip_segment 8%nat. skip_fields.
  now rewrite (slice_app1 _ _ 8) by segment_length.
Qed.

Lemma layout_a1 :
  Py.slice layout 45 97 = Py.ljust (firstn 52 a1_encoded) 52 0.
Proof.
  unfold layout, payload_layout. cbv zeta.
  skip_segment 4%nat. skip_segment 4%nat. skip_segment 8%nat. skip_fields.
  skip_segment 8%nat. skip_segment 1%nat.
  now rewrite (slice_app1 _ _ 52) by segment_length.
Qed.

Lemma layout_app :
  Py.slice layout 98 108 = Py.ljust (firstn 10 app_encoded) 10 0.
Proof.
  unfold layout, payload_layout. cbv zeta.
  skip_segment 4%nat. skip_segment 4%nat. skip_segment 8%nat. skip_fields.
  skip_segment 8%nat. skip_segment 1%nat. skip_segment 52%nat.
  skip_segment 1%nat.
  now rewrite (slice_app1 _ _ 10) by segment_length.
Qed.

Lemma layout_env : Py.slice layout 108 124 = env_block seed_byte.
Proof.
  unfold layout, payload_layout. cbv zeta.
  skip_segment 4%nat. skip_segment 4%nat. skip_segment 8%nat. skip_fields.
  skip_segment 8%nat. skip_segment 1%nat. skip_segment 52%nat.
  skip_segment 1%nat. skip_segment 10%nat.
  now rewrite (slice_app1 _ _ 16) by segment_length.
Qed.

Lemma layout_a3_prefix : Py.slice layout 124 128 = [2; 97; 51; 16].
Proof.
  unfold layout, payload_layout. cbv zeta.
  skip_segment 4%nat. skip_segment 4%nat. skip_segment 8%nat. skip_fields.
  skip_segment 8%nat. skip_segment 1%nat. skip_segment 52%nat.
  skip_segment 1%nat. skip_segment 10%nat. skip_segment 16%nat.
  now rewrite (slice_app1 _ _ 4) by segment_length.
Qed.

Lemma layout_digest : Py.slice layout 128 144 = xor_with seed_byte h.
Proof.
  unfold layout, payload_layout. cbv zeta.
  skip_segment 4%nat. skip_segment 4%nat. skip_segment 8%nat. skip_fields.
  skip_segment 8%nat. skip_segment 1%nat. skip_segment 52%nat.
  skip_segment 1%nat. skip_segment 10%nat. skip_segment 16%nat.
  skip_segment 4%nat. apply slice_all. now rewrite xor_with_length.
Qed.

(** Everything from offset 36 on. *)
Lemma layout_after_fields :
  Py.slice layout 36 144
  = xor_with seed_byte (firstn 8 md5_bytes)
      ++ [52] ++ Py.ljust (firstn 52 a1_encoded) 52 0
      ++ [10] ++ Py.ljust (firstn 10 app_encoded) 10 0
      ++ env_block seed_byte ++ [2; 97; 51; 16] ++ xor_with seed_byte h.
Proof.
  unfold layout, payload_layout. cbv zeta.
  skip_segment 4%nat. skip_segment 4%nat. skip_segment 8%nat. skip_fields.
  apply slice_all.
  rewrite !length_app, (xor_with_firstn_8 _ _ md5_length), ljust_52,
    ljust_10, env_block_length, xor_with_length, h_length.
  reflexivity.
Qed.

(** Everything before offset 16. *)
Lemma layout_before_fields :
  Py.slice layout 0 16
  = [121; 104; 96; 41] ++ int_to_le_bytes seed 4 ++ int_to_le_bytes ts_ms 8.
Proof.
  unfold layout, payload_layout. cbv zeta.
  rewrite (app_assoc (int_to_le_bytes seed 4) (int_to_le_bytes ts_ms 8)).
  rewrite (app_assoc [121; 104; 96; 41]).
  apply slice_app1.
  rewrite !length_app, int_to_le_bytes_4, int_to_le_bytes_8. reflexivity.
Qed.

End Layout.

(** ** The payload builder *)

Section BuilderProperties.

Variables (random_gen : RandomGenerator)
          (hex_parameter a1_value app_identifier string_param : Py.str)
          (timestamp : Py.float).

(** X7. Every returned payload begins with the version marker
    [121, 104, 96, 41], has at offsets 108 to 123 the environment block
    (the marker 1, the seed octet of offset 4 XORed with [ENV_TABLE[0]],
    and fourteen fixed octets) and at offsets 124 to 127 the prefix
    [2, 97, 51, 16], whatever the arguments. *)
Theorem payload_fixed_segments (sign_state : option SignState.t)
    (payload : list Z) :
  build_payload_array default_config random_gen hex_parameter a1_value
    app_identifier string_param timestamp sign_state = Ok payload ->
  Py.slice payload 0 4 = VERSION_BYTES default_config
  /\ (exists seed_byte,
         nth_error payload 4 = Some seed_byte
         /\ Py.slice payload 108 124
            = [1; Z.lxor seed_byte 115; 249; 65; 103; 103; 201; 181; 131;
               99; 94; 7; 68; 250; 132; 21])
  /\ Py.slice payload 124 128 = A3_PREFIX default_config.
Proof.
  intros H.
  destruct (build_payload_array_inv _ _ _ _ _ _ _ _ H)
    as (ts & t2 & n & mb & a1e & appe & pb & h
        & Hts & _ & _ & _ & Hlen & _ & _ & _ & _ & Hhl & ->).
  pose proof (context_fields_length random_gen t2 sign_state n) as Hf.
  split; [reflexivity |]. split.
  - eexists. split; [apply layout_seed_byte |].
    now rewrite layout_env by assumption.
  - now rewrite layout_a3_prefix by assumption.
Qed.



(** X10. Every element of a returned payload is an octet, for a snapshot
    with fields of any size and draws of any size. *)
Theorem payload_octets (sign_state : option SignState.t) (payload : list Z) :
  build_payload_array default_config random_gen hex_parameter a1_value
    app_identifier string_param timestamp sign_state = Ok payload ->
  byte_list payload.
Proof.
  intros H.
  destruct (build_payload_array_inv _ _ _ _ _ _ _ _ H)
    as (ts & t2 & n & mb & a1e & appe & pb & h
        & _ & _ & _ & Hmb & Hlen & Ha1 & Happ & _ & Hh & Hhl & ->).
  assert (Hhb : byte_list h).
  { destruct (custom_hash_v2_ok default_config
                (int_to_le_bytes ts 8 ++ Py.md5.digest pb))
      as (h' & Hh' & _ & Hb').
    - apply byte_list_app;
        [apply int_to_le_bytes_bytes | apply md5_digest_bytes].
    - rewrite Hh in Hh'. apply Ok_inj in Hh'. now subst h'. }
  pose proof (land_255_octet (generate_random_int random_gen)) as Hs.
  assert (Hlit : forall l, forallb Py.is_byte l = true -> byte_list l)
    by exact forallb_is_byte_inv.
  assert (Hpad : forall e k w, byte_list e ->
                               byte_list (Py.ljust (firstn k e) w 0)).
  { intros e k w He. unfold Py.ljust.
    apply byte_list_app; [now apply byte_list_firstn |].
    apply byte_list_repeat. lia. }
  unfold payload_layout. cbv zeta.
  apply byte_list_app; [now apply Hlit |].
  apply byte_list_app; [apply int_to_le_bytes_bytes |].
  apply byte_list_app; [apply int_to_le_bytes_bytes |].
  apply byte_list_app.
  { unfold context_fields. destruct sign_state;
      repeat apply byte_list_app; apply int_to_le_bytes_bytes. }
  apply byte_list_app.
  { apply xor_with_octets; [exact Hs |]. apply byte_list_firstn.
    exact (fromhex_octets _ _ _ (le_n _) Hmb). }
  apply byte_list_app; [now apply Hlit |].
  apply byte_list_app.
  { apply Hpad. exact (proj1 (encode_utf8_octets _ _ Ha1)). }
  apply byte_list_app; [now apply Hlit |].
  apply byte_list_app.
  { apply Hpad. exact (proj1 (encode_utf8_octets _ _ Happ)). }
  apply byte_list_app.
  { unfold env_block, byte_list. apply Forall_cons; [lia |].
    apply Forall_cons; [apply lxor_octet; [exact Hs | lia] |].
    now apply Hlit. }
  apply byte_list_app; [now apply Hlit |].
  now apply xor_with_octets.
Qed.

(** X11. The identity and the application identifier occupy offsets 45
    to 96 and 98 to 107 of every returned payload: the first 52 and the
    first 10 octets of their UTF-8 encodings, followed by zero octets up to
    the width when the encoding is shorter. *)
Theorem payload_padded_fields (sign_state : option SignState.t)
    (payload : list Z) :
  build_payload_array default_config random_gen hex_parameter a1_value
    app_identifier string_param timestamp sign_state = Ok payload ->
  exists a1_encoded app_encoded,
    Py.encode_utf8 a1_value = Ok a1_encoded
    /\ Py.encode_utf8 app_identifier = Ok app_encoded
    /\ Py.slice payload 45 97
       = firstn 52 a1_encoded ++ repeat 0 (52 - length a1_encoded)
    /\ Py.slice payload 98 108
       = firstn 10 app_encoded ++ repeat 0 (10 - length app_encoded).
Proof.
  intros H.
  destruct (build_payload_array_inv _ _ _ _ _ _ _ _ H)
    as (ts & t2 & n & mb & a1e & appe & pb & h
        & _ & _ & _ & _ & Hlen & Ha1 & Happ & _ & _ & Hhl & ->).
  pose proof (context_fields_length random_gen t2 sign_state n) as Hf.
  exists a1e, appe. split; [exact Ha1 |]. split; [exact Happ |].
  rewrite layout_a1, layout_app by assumption.
  unfold Py.ljust, Py.len. rewrite !length_firstn.
  split; do 2 f_equal; lia.
Qed.

(** X12. With a snapshot and without one, the payloads returned for the
    same other arguments and the same seed agree on every octet outside
    offsets 16 to 35. *)
Theorem payload_branches_agree (st : SignState.t) (with_state without : list Z) :
  build_payload_array default_config random_gen hex_parameter a1_value
    app_identifier string_param timestamp (Some st) = Ok with_state ->
  build_payload_array default_config random_gen hex_parameter a1_value
    app_identifier string_param timestamp None = Ok without ->
  Py.slice with_state 0 16 = Py.slice without 0 16
  /\ Py.slice with_state 36 144 = Py.slice without 36 144.
Proof.
  intros H1 H2.
  destruct (build_payload_array_inv _ _ _ _ _ _ _ _ H1)
    as (ts & t1 & n1 & mb & a1e & appe & pb & h
        & Hts & _ & _ & Hmb & Hlen & Ha1 & Happ & Hpb & Hh & Hhl & ->).
  destruct (build_payload_array_inv _ _ _ _ _ _ _ _ H2)
    as (ts' & t2 & n2 & mb' & a1e' & appe' & pb' & h'
        & Hts' & _ & _ & Hmb' & _ & Ha1' & Happ' & Hpb' & Hh' & _ & ->).
  rewrite Hts in Hts'. apply Ok_inj in Hts'. subst ts'.
  rewrite Hmb in Hmb'. apply Ok_inj in Hmb'. subst mb'.
  rewrite Ha1 in Ha1'. apply Ok_inj in Ha1'. subst a1e'.
  rewrite Happ in Happ'. apply Ok_inj in Happ'. subst appe'.
  rewrite Hpb in Hpb'. apply Ok_inj in Hpb'. subst pb'.
  rewrite Hh in Hh'. apply Ok_inj in Hh'. subst h'.
  pose proof (context_fields_length random_gen t1 (Some st) n1) as Hf1.
  pose proof (context_fields_length random_gen t2 None n2) as Hf2.
  split.
  - now rewrite !layout_before_fields.
  - now rewrite !layout_after_fields by assumption.
Qed.

(** X13. The XOR with the seed octet is undone by the same XOR: XORing
    the octets at offsets 36 to 43 of a returned payload with the octet at
    offset 4 gives the first eight octets of the decoded digest string, and
    XORing the octets at offsets 128 to 143 with it gives the output of the
    mixer on the timestamp octets followed by the MD5 digest of the API
    path. *)
Theorem payload_unmask (sign_state : option SignState.t) (payload : list Z) :
  build_payload_array default_config random_gen hex_parameter a1_value
    app_identifier string_param timestamp sign_state = Ok payload ->
  exists seed_byte md5_bytes path_bytes h,
    nth_error payload 4 = Some seed_byte
    /\ Py.fromhex hex_parameter = Ok md5_bytes
    /\ xor_with seed_byte (Py.slice payload 36 44) = firstn 8 md5_bytes
    /\ Py.encode_utf8 (extract_api_path string_param) = Ok path_bytes
    /\ custom_hash_v2 default_config
         (Py.slice payload 8 16 ++ Py.md5.digest path_bytes) = Ok h
    /\ xor_with seed_byte (Py.slice payload 128 144) = h.
Proof.
  intros H.
  destruct (build_payload_array_inv _ _ _ _ _ _ _ _ H)
    as (ts & t2 & n & mb & a1e & appe & pb & h
        & _ & _ & _ & Hmb & Hlen & _ & _ & Hpb & Hh & Hhl & ->).
  pose proof (context_fields_length random_gen t2 sign_state n) as Hf.
  exists (Z.land (generate_random_int random_gen) 0xFF), mb, pb, h.
  rewrite layout_seed_byte, layout_md5, layout_timestamp, layout_digest
    by assumption.
  rewrite !xor_with_involutive. repeat split; assumption.
Qed.

(** X14. Without a snapshot, when the two conversions of the timestamp
    are defined, a URI and body that holds a surrogate makes the builder
    raise [UnicodeEncodeError], whatever the digest string, the identity
    and the application identifier are, a malformed digest string
    included: the string is encoded before the digest string is
    decoded. *)
Theorem payload_uri_not_encodable (c : Z) :
  returns (millis timestamp) ->
  returns (millis_before timestamp (draw_time_offset random_gen)) ->
  In c string_param -> surrogate c ->
  build_payload_array default_config random_gen hex_parameter a1_value
    app_identifier string_param timestamp None = Raise UnicodeEncodeError.
Proof.
  intros (ts & Hts) (t2 & Ht2) Hin Hc. unfold build_payload_array. cbv zeta.
  rewrite Hts. cbn [bind]. rewrite Ht2. cbn [bind].
  now rewrite (encode_utf8_with_surrogate string_param c Hin Hc).
Qed.

End BuilderProperties.

(** ** The session manager *)

Lemma randint_inv (a b v : Z) (r r' : Py.rng) :
  Py.randint a b r = Ok (v, r') ->
  a <= v <= b /\ r' = (fun n => r (S n)).
Proof.
  unfold Py.randint. destruct (Z.ltb_spec b a); [discriminate |].
  intros E. apply Ok_inj in E. injection E as <- <-.
  split; [| reflexivity].
  pose proof (Z.mod_pos_bound (r O) (b - a + 1)). lia.
Qed.

Lemma randint_empty (a b : Z) (r : Py.rng) :
  b < a -> Py.randint a b r = Raise ValueError.
Proof.
  intros H. unfold Py.randint.
  destruct (Z.ltb_spec b a); [reflexivity | lia].
Qed.

Lemma randint_raises (a b : Z) (r : Py.rng) (e : exn) :
  Py.randint a b r = Raise e -> e = ValueError.
Proof.
  unfold Py.randint. destruct (b <? a); congruence.
Qed.

(** X15. A constructed session manager holds the configuration it was
    given and the construction time, and its two counters lie in the
    configured initial ranges. *)
Theorem session_init_ranges (config : CryptoConfig) (now_ms : Z)
    (r r1 : Py.rng) (sm : SessionManager.t) :
  SessionManager.init config now_ms r = Ok (sm, r1) ->
  SessionManager._config sm = config
  /\ SessionManager.page_load_timestamp sm = now_ms
  /\ SESSION_SEQUENCE_INIT_MIN config
     <= SessionManager.sequence_value sm
     <= SESSION_SEQUENCE_INIT_MAX config
  /\ SESSION_WINDOW_PROPS_INIT_MIN config
     <= SessionManager.window_props_length sm
     <= SESSION_WINDOW_PROPS_INIT_MAX config.
Proof.
  unfold SessionManager.init. intros H.
  destruct (Py.randint _ _ r) as [[s0 r0] |] eqn:E1; [| discriminate H].
  cbn [bind] in H.
  destruct (Py.randint _ _ r0) as [[w0 r0'] |] eqn:E2; [| discriminate H].
  cbn [bind] in H. apply Ok_inj in H. injection H as <- <-.
  apply randint_inv in E1. apply randint_inv in E2.
  cbn [SessionManager._config SessionManager.page_load_timestamp
       SessionManager.sequence_value SessionManager.window_props_length].
  tauto.
Qed.

(** What one call of [get_current_state] returns. *)
Lemma get_current_state_inv (self self' : SessionManager.t) (uri : Py.str)
    (r r' : Py.rng) (st : SignState.t) :
  SessionManager.get_current_state self uri r = Ok (st, self', r') ->
  let config := SessionManager._config self in
  SessionManager._config self' = config
  /\ SessionManager.page_load_timestamp self'
     = SessionManager.page_load_timestamp self
  /\ SESSION_SEQUENCE_STEP_MIN config
     <= SessionManager.sequence_value self'
        - SessionManager.sequence_value self
     <= SESSION_SEQUENCE_STEP_MAX config
  /\ SESSION_WINDOW_PROPS_STEP_MIN config
     <= SessionManager.window_props_length self'
        - SessionManager.window_props_length self
     <= SESSION_WINDOW_PROPS_STEP_MAX config
  /\ st = {| SignState.page_load_timestamp
               := SessionManager.page_load_timestamp self';
             SignState.sequence_value := SessionManager.sequence_value self';
             SignState.window_props_length
               := SessionManager.window_props_length self';
             SignState.uri_length := Py.len uri |}.
Proof.
  unfold SessionManager.get_current_state, SessionManager.update_state.
  intros H.
  destruct (Py.randint _ _ r) as [[d1 r1] |] eqn:E1; [| discriminate H].
  cbn [bind SessionManager._config] in H.
  destruct (Py.randint _ _ r1) as [[d2 r2] |] eqn:E2; [| discriminate H].
  cbn [bind] in H. apply Ok_inj in H. injection H as <- <- <-.
  apply randint_inv in E1. apply randint_inv in E2.
  cbn [SessionManager._config SessionManager.page_load_timestamp
       SessionManager.sequence_value SessionManager.window_props_length].
  repeat split; lia || reflexivity.
Qed.

(** X16. One call of [get_current_state] adds to each counter a step from
    its configured range, keeps the configuration and the page-load time,
    and returns a snapshot of the counters after the step with the number
    of characters of the URI. *)
Theorem get_current_state_step (self self' : SessionManager.t)
    (uri : Py.str) (r r' : Py.rng) (st : SignState.t) :
  SessionManager.get_current_state self uri r = Ok (st, self', r') ->
  SessionManager._config self' = SessionManager._config self
  /\ SessionManager.page_load_timestamp self'
     = SessionManager.page_load_timestamp self
  /\ SESSION_SEQUENCE_STEP_MIN (SessionManager._config self)
     <= SessionManager.sequence_value self'
        - SessionManager.sequence_value self
     <= SESSION_SEQUENCE_STEP_MAX (SessionManager._config self)
  /\ SESSION_WINDOW_PROPS_STEP_MIN (SessionManager._config self)
     <= SessionManager.window_props_length self'
        - SessionManager.window_props_length self
     <= SESSION_WINDOW_PROPS_STEP_MAX (SessionManager._config self)
  /\ SignState.page_load_timestamp st
     = SessionManager.page_load_timestamp self
  /\ SignState.sequence_value st = SessionManager.sequence_value self'
  /\ SignState.window_props_length st
     = SessionManager.window_props_length self'
  /\ SignState.uri_length st = Z.of_nat (length uri).
Proof.
  intros H. destruct (get_current_state_inv _ _ _ _ _ _ H)
    as (Hc & Hp & Hs & Hw & ->).
  cbn [SignState.page_load_timestamp SignState.sequence_value
       SignState.window_props_length SignState.uri_length].
  repeat split; assumption || reflexivity || lia.
Qed.

Lemma last_cons_default {A : Type} (l : list A) :
  forall x d : A, last (x :: l) d = last l x.
Proof.
  induction l as [| y l IH]; intros x d; [reflexivity |].
  change (last (x :: y :: l) d) with (last (y :: l) d).
  now rewrite !IH.
Qed.

(** X17. After [n] successive calls each counter has moved by at least
    [n] times the minimum and at most [n] times the maximum of its step
    range; there is one snapshot per call, and the last snapshot shows the
    counters that the object then holds. *)
Theorem successive_states_drift (uris : list Py.str) :
  forall (self self' : SessionManager.t) (r r' : Py.rng)
         (snaps : list SignState.t),
    SessionManager.successive_states self uris r = Ok (snaps, self', r') ->
    let config := SessionManager._config self in
    let n := Z.of_nat (length uris) in
    length snaps = length uris
    /\ SessionManager._config self' = config
    /\ n * SESSION_SEQUENCE_STEP_MIN config
       <= SessionManager.sequence_value self'
          - SessionManager.sequence_value self
       <= n * SESSION_SEQUENCE_STEP_MAX config
    /\ n * SESSION_WINDOW_PROPS_STEP_MIN config
       <= SessionManager.window_props_length self'
          - SessionManager.window_props_length self
       <= n * SESSION_WINDOW_PROPS_STEP_MAX config
    /\ last (map SignState.sequence_value snaps)
         (SessionManager.sequence_value self)
       = SessionManager.sequence_value self'
    /\ last (map SignState.window_props_length snaps)
         (SessionManager.window_props_length self)
       = SessionManager.window_props_length self'.
Proof.
  induction uris as [| uri rest IH]; intros self self' r r' snaps H;
    cbn [SessionManager.successive_states] in H.
  - apply Ok_inj in H. injection H as <- <- <-.
    cbn [length map last]. repeat split; lia.
  - destruct (SessionManager.get_current_state self uri r)
      as [[[st self1] r1] |] eqn:E1; [| discriminate H].
    cbn [bind] in H.
    destruct (SessionManager.successive_states self1 rest r1)
      as [[[sts self2] r2] |] eqn:E2; [| discriminate H].
    cbn [bind] in H. apply Ok_inj in H. injection H as <- <- <-.
    destruct (get_current_state_inv _ _ _ _ _ _ E1)
      as (Hc & _ & Hs & Hw & ->).
    destruct (IH _ _ _ _ _ E2) as (Hl & Hc2 & Hs2 & Hw2 & Hls & Hlw).
    rewrite Hc in *. cbv zeta.
    set (config := SessionManager._config self) in *.
    split; [cbn [length]; now rewrite Hl |].
    split; [exact Hc2 |].
    replace (Z.of_nat (length (uri :: rest)))
      with (Z.of_nat (length rest) + 1) by (cbn [length]; lia).
    split; [lia |]. split; [lia |].
    cbn [map SignState.sequence_value SignState.window_props_length].
    split.
    + rewrite <- Hls. apply last_cons_default.
    + rewrite <- Hlw. apply last_cons_default.
Qed.

(** X18. When the minimum of the window-props step range is positive,
    the [window_props_length] of successive snapshots is strictly
    increasing, and above the value that the object had before. *)
Theorem window_props_strictly_increasing (uris : list Py.str) :
  forall (self self' : SessionManager.t) (r r' : Py.rng)
         (snaps : list SignState.t),
    0 < SESSION_WINDOW_PROPS_STEP_MIN (SessionManager._config self) ->
    SessionManager.successive_states self uris r = Ok (snaps, self', r') ->
    StronglySorted Z.lt (map SignState.window_props_length snaps)
    /\ Forall (fun st => SessionManager.window_props_length self
                         < SignState.window_props_length st) snaps.
Proof.
  induction uris as [| uri rest IH]; intros self self' r r' snaps Hmin H;
    cbn [SessionManager.successive_states] in H.
  - apply Ok_inj in H. injection H as <- <- <-.
    split; constructor.
  - destruct (SessionManager.get_current_state self uri r)
      as [[[st self1] r1] |] eqn:E1; [| discriminate H].
    cbn [bind] in H.
    destruct (SessionManager.successive_states self1 rest r1)
      as [[[sts self2] r2] |] eqn:E2; [| discriminate H].
    cbn [bind] in H. apply Ok_inj in H. injection H as <- <- <-.
    destruct (get_current_state_inv _ _ _ _ _ _ E1)
      as (Hc & _ & _ & Hw & ->).
    destruct (IH self1 _ _ _ _ ltac:(now rewrite Hc) E2) as (Hs & Hf).
    cbn [map SignState.window_props_length]. split.
    + constructor; [exact Hs |]. apply Forall_map. exact Hf.
    + constructor; [cbn [SignState.window_props_length]; lia |].
      eapply Forall_impl; [| exact Hf]. cbv beta. intros s Hs'. lia.
Qed.

(** X19. With an empty step range (a maximum below the minimum) for
    either counter, [get_current_state] raises [ValueError] and returns no
    snapshot. *)
Theorem get_current_state_empty_range (self : SessionManager.t)
    (uri : Py.str) (r : Py.rng) :
  SESSION_SEQUENCE_STEP_MAX (SessionManager._config self)
    < SESSION_SEQUENCE_STEP_MIN (SessionManager._config self)
  \/ SESSION_WINDOW_PROPS_STEP_MAX (SessionManager._config self)
     < SESSION_WINDOW_PROPS_STEP_MIN (SessionManager._config self) ->
  SessionManager.get_current_state self uri r = Raise ValueError.
Proof.
  intros H.
  unfold SessionManager.get_current_state, SessionManager.update_state.
  destruct (Py.randint _ _ r) as [[d1 r1] | e] eqn:E1.
  - destruct H as [H | H].
    + rewrite randint_empty in E1 by exact H. discriminate E1.
    + cbn [bind SessionManager._config]. now rewrite randint_empty.
  - cbn [bind]. now rewrite (randint_raises _ _ _ _ E1).
Qed.

(** ** The URL utilities *)

Lemma before_first_idempotent (stop : Z -> bool) (s : Py.str) :
  before_first stop (before_first stop s) = before_first stop s.
Proof.
  induction s as [| c t IH]; [reflexivity |]. cbn [before_first].
  destruct (stop c) eqn:E; [reflexivity |].
  cbn [before_first]. now rewrite E, IH.
Qed.

Lemma before_first_length (stop : Z -> bool) (s : Py.str) :
  (length (before_first stop s) <= length s)%nat.
Proof.
  induction s as [| c t IH]; [cbn; lia |]. cbn [before_first].
  destruct (stop c); cbn [length]; lia.
Qed.

(** X21. [extract_api_path] is idempotent, and its result is never longer
    than its argument. *)
Theorem extract_api_path_idempotent (s : Py.str) :
  extract_api_path (extract_api_path s) = extract_api_path s
  /\ (length (extract_api_path s) <= length s)%nat.
Proof.
  rewrite !extract_api_path_before_first.
  split; [apply before_first_idempotent | apply before_first_length].
Qed.

Lemma before_first_app_stopped (stop : Z -> bool) (s t : Py.str) :
  existsb stop s = true ->
  before_first stop (s ++ t) = before_first stop s.
Proof.
  induction s as [| c r IH]; [discriminate |].
  cbn [existsb app before_first]. destruct (stop c); [reflexivity |].
  cbn [orb]. intros H. now rewrite IH.
Qed.

Lemma before_first_app_clean (stop : Z -> bool) (s t : Py.str) (d : Z) :
  existsb stop s = false -> stop d = true ->
  before_first stop (s ++ d :: t) = s.
Proof.
  induction s as [| c r IH]; cbn [existsb app before_first].
  - now intros _ ->.
  - destruct (stop c); [discriminate |]. cbn [orb]. intros H Hd.
    now rewrite IH.
Qed.

Lemma before_first_clean (stop : Z -> bool) (s : Py.str) :
  existsb stop s = false -> before_first stop s = s.
Proof.
  induction s as [| c r IH]; [reflexivity |]. cbn [existsb before_first].
  destruct (stop c); [discriminate |]. cbn [orb]. intros H. now rewrite IH.
Qed.

Lemma contains_app (c : Z) (s t : Py.str) :
  contains c (s ++ t) = contains c s || contains c t.
Proof. apply existsb_app. Qed.

(** X22. For a non-empty base, [build_url] returns the base followed by a
    suffix; the suffix is empty exactly when there are no parameters
    ([None] or an empty dictionary), and with parameters the result always
    holds a question mark.  An empty base raises [ValueError]. *)
Theorem build_url_shape (base_url : Py.str)
    (params : option (list (Py.str * param_value))) :
  build_url [] params = Raise ValueError
  /\ (base_url <> [] ->
      exists suffix,
        build_url base_url params = Ok (base_url ++ suffix)
        /\ (suffix = [] <-> params = None \/ params = Some [])
        /\ (suffix <> [] -> contains question (base_url ++ suffix) = true)).
Proof.
  split; [reflexivity |]. intros Hb.
  destruct base_url as [| b0 base]; [contradiction |].
  destruct params as [[| item items] |].
  - exists []. cbn [build_url]. rewrite app_nil_r.
    split; [reflexivity |]. split; [tauto | congruence].
  - cbn [build_url]. cbv zeta. eexists. split; [reflexivity |].
    set (q := join [ampersand] (map query_part (item :: items))).
    split.
    + split; [| intros [H | H]; discriminate H].
      intros H. exfalso.
      assert (Hq : q <> []).
      { subst q. destruct item as [key value]. cbn [map join].
        destruct (map query_part items); unfold query_part;
          destruct key; discriminate. }
      destruct (negb (contains question (b0 :: base)));
        [discriminate H |].
      destruct (endswith_any (b0 :: base) [question; ampersand]);
        [now apply Hq | discriminate H].
    + intros _. rewrite contains_app.
      destruct (contains question (b0 :: base)) eqn:E; [reflexivity |].
      cbn [negb orb app contains existsb]. now rewrite Z.eqb_refl.
  - exists []. cbn [build_url]. rewrite app_nil_r.
    split; [reflexivity |]. split; [tauto | congruence].
Qed.

(** X23. The API path of a built URL is the API path of its base: the
    parameters that [build_url] appends never change what
    [extract_api_path] returns. *)
Theorem extract_api_path_build_url (base_url url : Py.str)
    (params : option (list (Py.str * param_value))) :
  build_url base_url params = Ok url ->
  extract_api_path url = extract_api_path base_url.
Proof.
  rewrite !extract_api_path_before_first.
  destruct base_url as [| b0 base]; [discriminate |].
  destruct params as [[| item items] |]; cbn [build_url]; cbv zeta;
    intros H; apply Ok_inj in H; subst url; try reflexivity.
  set (q := join [ampersand] (map query_part (item :: items))).
  destruct (existsb is_delimiter (b0 :: base)) eqn:Ed.
  - now apply before_first_app_stopped.
  - assert (Hc : contains question (b0 :: base) = false).
    { unfold contains. apply not_true_is_false. intros Hc.
      apply existsb_exists in Hc. destruct Hc as (x & Hx & Hq).
      apply Z.eqb_eq in Hq. subst x.
      assert (Ht : existsb is_delimiter (b0 :: base) = true).
      { apply existsb_exists. exists question. split; [exact Hx |].
        reflexivity. }
      congruence. }
    rewrite Hc. cbn [negb]. change ([question] ++ q) with (question :: q).
    rewrite (before_first_app_clean is_delimiter (b0 :: base) q question Ed
               eq_refl).
    now rewrite before_first_clean.
Qed.

Lemma count_app (c : Z) (s t : Py.str) :
  count c (s ++ t) = (count c s + count c t)%nat.
Proof. apply count_occ_app. Qed.

Lemma count_replace_char (s : Py.str) :
  count equals_sign (replace_char equals_sign (Py.lit "%3D") s) = 0%nat.
Proof.
  induction s as [| x t IH]; [reflexivity |].
  unfold replace_char in *. cbn [flat_map]. rewrite count_app, IH.
  destruct (Z.eqb_spec x equals_sign) as [-> | Hx]; [reflexivity |].
  unfold count. cbn [count_occ].
  destruct (Z.eq_dec x equals_sign); [contradiction | reflexivity].
Qed.

Lemma count_query_part (key : Py.str) (value : param_value) :
  count equals_sign (query_part (key, value))
  = (count equals_sign key + 1)%nat.
Proof.
  unfold query_part. rewrite !count_app, count_replace_char.
  change (count equals_sign [equals_sign]) with 1%nat.
  now rewrite Nat.add_0_r.
Qed.

Lemma list_sum_cons (x : nat) (l : list nat) :
  list_sum (x :: l) = (x + list_sum l)%nat.
Proof. reflexivity. Qed.

Lemma count_join_ampersand (parts : list Py.str) :
  count equals_sign (join [ampersand] parts)
  = list_sum (map (count equals_sign) parts).
Proof.
  induction parts as [| p rest IH]; [reflexivity |].
  destruct rest as [| p' rest'].
  - cbn [join map]. rewrite list_sum_cons. cbn [list_sum fold_right].
    now rewrite Nat.add_0_r.
  - change (join [ampersand] (p :: p' :: rest'))
      with (p ++ [ampersand] ++ join [ampersand] (p' :: rest')).
    rewrite !count_app, IH.
    change (count equals_sign [ampersand]) with 0%nat.
    cbn [map]. now rewrite !list_sum_cons.
Qed.

Lemma count_query_parts (l : list (Py.str * param_value)) :
  list_sum (map (count equals_sign) (map query_part l))
  = (list_sum (map (fun item => count equals_sign (fst item)) l)
     + length l)%nat.
Proof.
  induction l as [| [k v] l IH]; [reflexivity |].
  cbn [map length fst]. rewrite !list_sum_cons, count_query_part, IH.
  generalize (count equals_sign k).
  generalize (list_sum
                (map (fun item : Py.str * param_value =>
                        count equals_sign (fst item)) l)).
  intros a b. lia.
Qed.

(** X24. Only keys and the base contribute raw equals signs: a built URL
    holds the equals signs of the base and of the keys and one more for
    each parameter, because every equals sign of a value is written as
    [%3D]. *)
Theorem build_url_equals_signs (base_url url : Py.str)
    (items : list (Py.str * param_value)) :
  build_url base_url (Some items) = Ok url ->
  count equals_sign url
  = (count equals_sign base_url
     + list_sum (map (fun item => count equals_sign (fst item)) items)
     + length items)%nat.
Proof.
  destruct base_url as [| b0 base]; [discriminate |].
  destruct items as [| item items]; cbn [build_url]; cbv zeta;
    intros H; apply Ok_inj in H; subst url.
  - cbn [map length]. unfold list_sum. cbn [fold_right]. now rewrite !Nat.add_0_r.
  - rewrite !count_app, count_join_ampersand.
    rewrite count_query_parts.
    generalize (count equals_sign (b0 :: base)).
    generalize (list_sum
                  (map (fun i : Py.str * param_value =>
                          count equals_sign (fst i)) (item :: items))).
    generalize (length (item :: items)).
    intros n a b.
    destruct (negb (contains question (b0 :: base)));
      [| destruct (endswith_any (b0 :: base) [question; ampersand])];
      [ change (count equals_sign [question]) with 0%nat
      | change (count equals_sign []) with 0%nat
      | change (count equals_sign [ampersand]) with 0%nat ]; lia.
Qed.

(** ** The session manager, the URL utilities and the builder together *)

Lemma encode_utf8_ascii (s : Py.str) :
  ascii_only s -> Py.encode_utf8 s = Ok s.
Proof.
  induction 1 as [| c t Hc Ht IH]; [reflexivity |].
  cbn [Py.encode_utf8]. rewrite IH. unfold Py.encode_char.
  destruct (Z.ltb_spec c 0); [lia |].
  destruct (Z.ltb_spec c 0x80); [reflexivity | lia].
Qed.

Lemma layout_uri_length (random_gen : RandomGenerator)
    (sign_state : option SignState.t)
    (seed ts_ms t2 n : Z) (md5_bytes a1_encoded app_encoded h : list Z) :
  Py.slice
    (payload_layout seed ts_ms
       (context_fields random_gen t2 sign_state n)
       md5_bytes a1_encoded app_encoded h) 32 36
  = int_to_le_bytes n 4.
Proof.
  unfold payload_layout, context_fields. cbv zeta.
  destruct sign_state; rewrite <- !app_assoc;
    skip_segment 4%nat; skip_segment 4%nat; skip_segment 8%nat;
    skip_segment 8%nat; skip_segment 4%nat; skip_segment 4%nat;
    now rewrite (slice_app1 _ _ 4) by segment_length.
Qed.

(** X25. For a URI of ASCII characters, the payload built with the
    snapshot that [get_current_state] returns for the URI and the payload
    built without a snapshot have the same URI-length octets at offsets 32
    to 35: the number of characters that the session manager counts and
    the number of UTF-8 octets that the builder counts are then the
    same. *)
Theorem snapshot_uri_length_ascii (random_gen : RandomGenerator)
    (hex_parameter a1_value app_identifier uri : Py.str)
    (timestamp : Py.float) (self self' : SessionManager.t)
    (r r' : Py.rng) (st : SignState.t) (with_state without : list Z) :
  ascii_only uri ->
  SessionManager.get_current_state self uri r = Ok (st, self', r') ->
  build_payload_array default_config random_gen hex_parameter a1_value
    app_identifier uri timestamp (Some st) = Ok with_state ->
  build_payload_array default_config random_gen hex_parameter a1_value
    app_identifier uri timestamp None = Ok without ->
  Py.slice with_state 32 36 = Py.slice without 32 36
  /\ Py.slice with_state 32 36 = int_to_le_bytes (Z.of_nat (length uri)) 4.
Proof.
  intros Hascii Hst H1 H2.
  destruct (get_current_state_inv _ _ _ _ _ _ Hst) as (_ & _ & _ & _ & ->).
  destruct (build_payload_array_inv _ _ _ _ _ _ _ _ H1)
    as (ts & t1 & n1 & mb & a1e & appe & pb & h
        & _ & _ & Hn1 & _ & _ & _ & _ & _ & _ & _ & ->).
  destruct (build_payload_array_inv _ _ _ _ _ _ _ _ H2)
    as (ts' & t2 & n2 & mb' & a1e' & appe' & pb' & h'
        & _ & _ & Hn2 & _ & _ & _ & _ & _ & _ & _ & ->).
  cbn [uri_length_of SignState.uri_length] in Hn1, Hn2.
  rewrite (encode_utf8_ascii uri Hascii) in Hn2. cbn [bind] in Hn2.
  apply Ok_inj in Hn1. apply Ok_inj in Hn2. subst n1 n2.
  rewrite !layout_uri_length. unfold Py.len. split; reflexivity.
Qed.

(** X26. The digest block at offsets 128 to 143 depends on the URI and
    body through the API path only: two payloads returned for the same
    seed octet and the same timestamp, and for strings with the same API
    path, have the same digest block, whatever the query or body, the
    digest string, the identity, the application identifier and the
    snapshot are. *)
Theorem digest_block_depends_on_path
    (gen1 gen2 : RandomGenerator)
    (hex1 hex2 a1_1 a1_2 app1 app2 string1 string2 : Py.str)
    (timestamp : Py.float) (state1 state2 : option SignState.t)
    (payload1 payload2 : list Z) :
  Z.land (generate_random_int gen1) 0xFF
  = Z.land (generate_random_int gen2) 0xFF ->
  extract_api_path string1 = extract_api_path string2 ->
  build_payload_array default_config gen1 hex1 a1_1 app1 string1 timestamp
    state1 = Ok payload1 ->
  build_payload_array default_config gen2 hex2 a1_2 app2 string2 timestamp
    state2 = Ok payload2 ->
  Py.slice payload1 128 144 = Py.slice payload2 128 144.
Proof.
  intros Hseed Hpath H1 H2.
  destruct (build_payload_array_inv _ _ _ _ _ _ _ _ H1)
    as (ts1 & t1 & n1 & mb1 & a1e1 & appe1 & pb1 & h1
        & Hts1 & _ & _ & _ & Hl1 & _ & _ & Hp1 & Hh1 & Hhl1 & ->).
  destruct (build_payload_array_inv _ _ _ _ _ _ _ _ H2)
    as (ts2 & t2 & n2 & mb2 & a1e2 & appe2 & pb2 & h2
        & Hts2 & _ & _ & _ & Hl2 & _ & _ & Hp2 & Hh2 & Hhl2 & ->).
  rewrite Hts1 in Hts2. apply Ok_inj in Hts2. subst ts2.
  rewrite Hpath, Hp2 in Hp1. apply Ok_inj in Hp1. subst pb2.
  rewrite Hh1 in Hh2. apply Ok_inj in Hh2. subst h2.
  pose proof (context_fields_length gen1 t1 state1 n1) as Hf1.
  pose proof (context_fields_length gen2 t2 state2 n2) as Hf2.
  rewrite (layout_digest _ _ _ mb1) by assumption.
  rewrite (layout_digest _ _ _ mb2) by assumption.
  now rewrite Hseed.
Qed.

(** ** The further properties at concrete inputs *)

Lemma ascii_only_decide (s : Py.str) :
  forallb (fun c => (0 <=? c) && (c <? 128)) s = true -> ascii_only s.
Proof.
  intros H. apply Forall_forall. intros c Hc.
  pose proof (proj1 (forallb_forall _ _) H c Hc) as Hb. cbv beta in Hb.
  apply andb_true_iff in Hb. destruct Hb as [H1 H2].
  apply Z.leb_le in H1. apply Z.ltb_lt in H2. lia.
Qed.

Lemma payload_fixed_segments_witness :
  build_payload_array default_config example_gen example_md5 example_a1
    example_app homefeed_json (seconds 1700000000) None = Ok example_payload
  /\ Py.slice example_payload 0 4 = VERSION_BYTES default_config
  /\ (exists seed_byte,
         nth_error example_payload 4 = Some seed_byte
         /\ Py.slice example_payload 108 124
            = [1; Z.lxor seed_byte 115; 249; 65; 103; 103; 201; 181; 131;
               99; 94; 7; 68; 250; 132; 21])
  /\ Py.slice example_payload 124 128 = A3_PREFIX default_config.
Proof.
  assert (H : build_payload_array default_config example_gen example_md5
                example_a1 example_app homefeed_json (seconds 1700000000)
                None = Ok example_payload)
    by (vm_compute; reflexivity).
  split; [exact H |].
  exact (payload_fixed_segments example_gen example_md5 example_a1
           example_app homefeed_json (seconds 1700000000) None
           example_payload H).
Defined.



Lemma payload_octets_witness :
  build_payload_array default_config example_gen example_md5 long_a1
    example_app homefeed_json (seconds 1700000000) (Some example_state)
  = Ok example_session_payload
  /\ byte_list example_session_payload.
Proof.
  assert (H : build_payload_array default_config example_gen example_md5
                long_a1 example_app homefeed_json (seconds 1700000000)
                (Some example_state) = Ok example_session_payload)
    by (vm_compute; reflexivity).
  split; [exact H |].
  exact (payload_octets example_gen example_md5 long_a1 example_app
           homefeed_json (seconds 1700000000) (Some example_state)
           example_session_payload H).
Defined.

Lemma payload_padded_fields_witness :
  build_payload_array default_config example_gen example_md5 example_a1
    example_app homefeed_json (seconds 1700000000) None = Ok example_payload
  /\ exists a1_encoded app_encoded,
       Py.encode_utf8 example_a1 = Ok a1_encoded
       /\ Py.encode_utf8 example_app = Ok app_encoded
       /\ Py.slice example_payload 45 97
          = firstn 52 a1_encoded ++ repeat 0 (52 - length a1_encoded)
       /\ Py.slice example_payload 98 108
          = firstn 10 app_encoded ++ repeat 0 (10 - length app_encoded).
Proof.
  assert (H : build_payload_array default_config example_gen example_md5
                example_a1 example_app homefeed_json (seconds 1700000000)
                None = Ok example_payload)
    by (vm_compute; reflexivity).
  split; [exact H |].
  exact (payload_padded_fields example_gen example_md5 example_a1
           example_app homefeed_json (seconds 1700000000) None
           example_payload H).
Defined.

Lemma payload_branches_agree_witness :
  build_payload_array default_config example_gen example_md5 example_a1
    example_app homefeed_json (seconds 1700000000) (Some example_state)
  = Ok example_payload_with_state
  /\ build_payload_array default_config example_gen example_md5 example_a1
       example_app homefeed_json (seconds 1700000000) None
     = Ok example_payload
  /\ Py.slice example_payload_with_state 0 16 = Py.slice example_payload 0 16
  /\ Py.slice example_payload_with_state 36 144
     = Py.slice example_payload 36 144.
Proof.
  assert (H1 : build_payload_array default_config example_gen example_md5
                 example_a1 example_app homefeed_json (seconds 1700000000)
                 (Some example_state) = Ok example_payload_with_state)
    by (vm_compute; reflexivity).
  assert (H2 : build_payload_array default_config example_gen example_md5
                 example_a1 example_app homefeed_json (seconds 1700000000)
                 None = Ok example_payload)
    by (vm_compute; reflexivity).
  split; [exact H1 |]. split; [exact H2 |].
  exact (payload_branches_agree example_gen example_md5 example_a1
           example_app homefeed_json (seconds 1700000000) example_state
           example_payload_with_state example_payload H1 H2).
Defined.

Lemma payload_unmask_witness :
  build_payload_array default_config example_gen example_md5 example_a1
    example_app homefeed_json (seconds 1700000000) None = Ok example_payload
  /\ exists seed_byte md5_bytes path_bytes h,
       nth_error example_payload 4 = Some seed_byte
       /\ Py.fromhex example_md5 = Ok md5_bytes
       /\ xor_with seed_byte (Py.slice example_payload 36 44)
          = firstn 8 md5_bytes
       /\ Py.encode_utf8 (extract_api_path homefeed_json) = Ok path_bytes
       /\ custom_hash_v2 default_config
            (Py.slice example_payload 8 16 ++ Py.md5.digest path_bytes)
          = Ok h
       /\ xor_with seed_byte (Py.slice example_payload 128 144) = h.
Proof.
  assert (H : build_payload_array default_config example_gen example_md5
                example_a1 example_app homefeed_json (seconds 1700000000)
                None = Ok example_payload)
    by (vm_compute; reflexivity).
  split; [exact H |].
  exact (payload_unmask example_gen example_md5 example_a1 example_app
           homefeed_json (seconds 1700000000) None example_payload H).
Defined.

Lemma payload_uri_not_encodable_witness :
  returns (millis (seconds 1700000000))
  /\ returns (millis_before (seconds 1700000000)
                (draw_time_offset example_gen))
  /\ In 0xD800 surrogate_uri
  /\ surrogate 0xD800
  /\ build_payload_array default_config example_gen non_hex_md5 example_a1
       example_app surrogate_uri (seconds 1700000000) None
     = Raise UnicodeEncodeError.
Proof.
  assert (Ha : returns (millis (seconds 1700000000)))
    by (exists 1700000000000; vm_compute; reflexivity).
  assert (Hb : returns (millis_before (seconds 1700000000)
                          (draw_time_offset example_gen)))
    by (exists 1699999980000; vm_compute; reflexivity).
  assert (H1 : In 0xD800 surrogate_uri)
    by (do 5 right; left; reflexivity).
  assert (H2 : surrogate 0xD800) by (unfold surrogate; lia).
  split; [exact Ha |]. split; [exact Hb |].
  split; [exact H1 |]. split; [exact H2 |].
  exact (payload_uri_not_encodable example_gen non_hex_md5 example_a1
           example_app surrogate_uri (seconds 1700000000) 0xD800
           Ha Hb H1 H2).
Defined.

Lemma session_init_ranges_witness :
  SessionManager.init default_config 1700000000000 example_rng
  = Ok (example_session, drop 2 example_rng)
  /\ SessionManager._config example_session = default_config
  /\ SessionManager.page_load_timestamp example_session = 1700000000000
  /\ SESSION_SEQUENCE_INIT_MIN default_config
     <= SessionManager.sequence_value example_session
     <= SESSION_SEQUENCE_INIT_MAX default_config
  /\ SESSION_WINDOW_PROPS_INIT_MIN default_config
     <= SessionManager.window_props_length example_session
     <= SESSION_WINDOW_PROPS_INIT_MAX default_config.
Proof.
  assert (H : SessionManager.init default_config 1700000000000 example_rng
              = Ok (example_session, drop 2 example_rng))
    by reflexivity.
  split; [exact H |].
  exact (session_init_ranges default_config 1700000000000 example_rng
           (drop 2 example_rng) example_session H).
Defined.

Lemma get_current_state_step_witness :
  SessionManager.get_current_state example_session homefeed_json
    (drop 2 example_rng)
  = Ok (example_state, example_session_after_one, drop 4 example_rng)
  /\ SessionManager._config example_session_after_one
     = SessionManager._config example_session
  /\ SessionManager.page_load_timestamp example_session_after_one
     = SessionManager.page_load_timestamp example_session
  /\ SESSION_SEQUENCE_STEP_MIN (SessionManager._config example_session)
     <= SessionManager.sequence_value example_session_after_one
        - SessionManager.sequence_value example_session
     <= SESSION_SEQUENCE_STEP_MAX (SessionManager._config example_session)
  /\ SESSION_WINDOW_PROPS_STEP_MIN (SessionManager._config example_session)
     <= SessionManager.window_props_length example_session_after_one
        - SessionManager.window_props_length example_session
     <= SESSION_WINDOW_PROPS_STEP_MAX (SessionManager._config example_session)
  /\ SignState.page_load_timestamp example_state
     = SessionManager.page_load_timestamp example_session
  /\ SignState.sequence_value example_state
     = SessionManager.sequence_value example_session_after_one
  /\ SignState.window_props_length example_state
     = SessionManager.window_props_length example_session_after_one
  /\ SignState.uri_length example_state = Z.of_nat (length homefeed_json).
Proof.
  assert (H : SessionManager.get_current_state example_session homefeed_json
                (drop 2 example_rng)
              = Ok (example_state, example_session_after_one,
                    drop 4 example_rng))
    by reflexivity.
  split; [exact H |].
  exact (get_current_state_step example_session example_session_after_one
           homefeed_json (drop 2 example_rng) (drop 4 example_rng)
           example_state H).
Defined.

Lemma successive_states_drift_witness :
  SessionManager.successive_states example_session example_uris
    (drop 2 example_rng)
  = Ok (example_snapshots, example_session_after_three, drop 8 example_rng)
  /\ length example_snapshots = length example_uris
  /\ SessionManager._config example_session_after_three
     = SessionManager._config example_session
  /\ Z.of_nat (length example_uris)
       * SESSION_SEQUENCE_STEP_MIN (SessionManager._config example_session)
     <= SessionManager.sequence_value example_session_after_three
        - SessionManager.sequence_value example_session
     <= Z.of_nat (length example_uris)
          * SESSION_SEQUENCE_STEP_MAX (SessionManager._config example_session)
  /\ Z.of_nat (length example_uris)
       * SESSION_WINDOW_PROPS_STEP_MIN
           (SessionManager._config example_session)
     <= SessionManager.window_props_length example_session_after_three
        - SessionManager.window_props_length example_session
     <= Z.of_nat (length example_uris)
          * SESSION_WINDOW_PROPS_STEP_MAX
              (SessionManager._config example_session)
  /\ last (map SignState.sequence_value example_snapshots)
       (SessionManager.sequence_value example_session)
     = SessionManager.sequence_value example_session_after_three
  /\ last (map SignState.window_props_length example_snapshots)
       (SessionManager.window_props_length example_session)
     = SessionManager.window_props_length example_session_after_three.
Proof.
  assert (H : SessionManager.successive_states example_session example_uris
                (drop 2 example_rng)
              = Ok (example_snapshots, example_session_after_three,
                    drop 8 example_rng))
    by reflexivity.
  split; [exact H |].
  exact (successive_states_drift example_uris example_session
           example_session_after_three (drop 2 example_rng)
           (drop 8 example_rng) example_snapshots H).
Defined.

Lemma window_props_strictly_increasing_witness :
  0 < SESSION_WINDOW_PROPS_STEP_MIN (SessionManager._config example_session)
  /\ SessionManager.successive_states example_session example_uris
       (drop 2 example_rng)
     = Ok (example_snapshots, example_session_after_three,
           drop 8 example_rng)
  /\ StronglySorted Z.lt
       (map SignState.window_props_length example_snapshots)
  /\ Forall (fun st => SessionManager.window_props_length example_session
                       < SignState.window_props_length st)
       example_snapshots.
Proof.
  assert (H0 : 0 < SESSION_WINDOW_PROPS_STEP_MIN
                     (SessionManager._config example_session))
    by reflexivity.
  assert (H : SessionManager.successive_states example_session example_uris
                (drop 2 example_rng)
              = Ok (example_snapshots, example_session_after_three,
                    drop 8 example_rng))
    by reflexivity.
  split; [exact H0 |]. split; [exact H |].
  exact (window_props_strictly_increasing example_uris example_session
           example_session_after_three (drop 2 example_rng)
           (drop 8 example_rng) example_snapshots H0 H).
Defined.

Lemma get_current_state_empty_range_witness :
  (SESSION_SEQUENCE_STEP_MAX (SessionManager._config empty_step_session)
     < SESSION_SEQUENCE_STEP_MIN (SessionManager._config empty_step_session)
   \/ SESSION_WINDOW_PROPS_STEP_MAX
        (SessionManager._config empty_step_session)
      < SESSION_WINDOW_PROPS_STEP_MIN
          (SessionManager._config empty_step_session))
  /\ SessionManager.get_current_state empty_step_session homefeed
       example_rng = Raise ValueError.
Proof.
  assert (H : SESSION_SEQUENCE_STEP_MAX
                (SessionManager._config empty_step_session)
              < SESSION_SEQUENCE_STEP_MIN
                  (SessionManager._config empty_step_session)
              \/ SESSION_WINDOW_PROPS_STEP_MAX
                   (SessionManager._config empty_step_session)
                 < SESSION_WINDOW_PROPS_STEP_MIN
                     (SessionManager._config empty_step_session))
    by (left; reflexivity).
  split; [exact H |].
  exact (get_current_state_empty_range empty_step_session homefeed
           example_rng H).
Defined.

Lemma extract_api_path_build_url_witness :
  build_url example_base (Some example_items) = Ok example_url
  /\ extract_api_path example_url = extract_api_path example_base.
Proof.
  assert (H : build_url example_base (Some example_items) = Ok example_url)
    by reflexivity.
  split; [exact H |].
  exact (extract_api_path_build_url example_base example_url
           (Some example_items) H).
Defined.

Lemma build_url_equals_signs_witness :
  build_url example_base (Some example_items) = Ok example_url
  /\ count equals_sign example_url
     = (count equals_sign example_base
        + list_sum (map (fun item => count equals_sign (fst item))
                      example_items)
        + length example_items)%nat.
Proof.
  assert (H : build_url example_base (Some example_items) = Ok example_url)
    by reflexivity.
  split; [exact H |].
  exact (build_url_equals_signs example_base example_url example_items H).
Defined.

Lemma snapshot_uri_length_ascii_witness :
  ascii_only homefeed_json
  /\ SessionManager.get_current_state example_session homefeed_json
       (drop 2 example_rng)
     = Ok (example_state, example_session_after_one, drop 4 example_rng)
  /\ build_payload_array default_config example_gen example_md5 example_a1
       example_app homefeed_json (seconds 1700000000) (Some example_state)
     = Ok example_payload_with_state
  /\ build_payload_array default_config example_gen example_md5 example_a1
       example_app homefeed_json (seconds 1700000000) None
     = Ok example_payload
  /\ Py.slice example_payload_with_state 32 36
     = Py.slice example_payload 32 36
  /\ Py.slice example_payload_with_state 32 36
     = int_to_le_bytes (Z.of_nat (length homefeed_json)) 4.
Proof.
  assert (H0 : ascii_only homefeed_json)
    by (apply ascii_only_decide; vm_compute; reflexivity).
  assert (H1 : SessionManager.get_current_state example_session
                 homefeed_json (drop 2 example_rng)
               = Ok (example_state, example_session_after_one,
                     drop 4 example_rng))
    by reflexivity.
  assert (H2 : build_payload_array default_config example_gen example_md5
                 example_a1 example_app homefeed_json (seconds 1700000000)
                 (Some example_state) = Ok example_payload_with_state)
    by (vm_compute; reflexivity).
  assert (H3 : build_payload_array default_config example_gen example_md5
                 example_a1 example_app homefeed_json (seconds 1700000000)
                 None = Ok example_payload)
    by (vm_compute; reflexivity).
  split; [exact H0 |]. split; [exact H1 |]. split; [exact H2 |].
  split; [exact H3 |].
  exact (snapshot_uri_length_ascii example_gen example_md5 example_a1
           example_app homefeed_json (seconds 1700000000) example_session
           example_session_after_one (drop 2 example_rng)
           (drop 4 example_rng) example_state example_payload_with_state
           example_payload H0 H1 H2 H3).
Defined.

Lemma digest_block_depends_on_path_witness :
  Z.land (generate_random_int example_gen) 0xFF
  = Z.land (generate_random_int other_gen) 0xFF
  /\ extract_api_path homefeed_json = extract_api_path homefeed_query
  /\ build_payload_array default_config example_gen example_md5 example_a1
       example_app homefeed_json (seconds 1700000000) None
     = Ok example_payload
  /\ build_payload_array default_config other_gen short_md5 long_a1
       (Py.lit "x") homefeed_query (seconds 1700000000)
       (Some example_state) = Ok other_payload
  /\ Py.slice example_payload 128 144 = Py.slice other_payload 128 144.
Proof.
  assert (H0 : Z.land (generate_random_int example_gen) 0xFF
               = Z.land (generate_random_int other_gen) 0xFF)
    by reflexivity.
  assert (H1 : extract_api_path homefeed_json
               = extract_api_path homefeed_query)
    by reflexivity.
  assert (H2 : build_payload_array default_config example_gen example_md5
                 example_a1 example_app homefeed_json (seconds 1700000000)
                 None = Ok example_payload)
    by (vm_compute; reflexivity).
  assert (H3 : build_payload_array default_config other_gen short_md5
                 long_a1 (Py.lit "x") homefeed_query (seconds 1700000000)
                 (Some example_state) = Ok other_payload)
    by (vm_compute; reflexivity).
  split; [exact H0 |]. split; [exact H1 |]. split; [exact H2 |].
  split; [exact H3 |].
  exact (digest_block_depends_on_path example_gen other_gen example_md5
           short_md5 example_a1 long_a1 example_app (Py.lit "x")
           homefeed_json homefeed_query (seconds 1700000000) None
           (Some example_state) example_payload other_payload H0 H1 H2 H3).
Defined.
